(** * Whistant desktop app: tunnel URL discovery and registration state

    A shallow embedding of the main process (the [ipcMain] handlers,
    [getCloudflaredUrl], [startCloudflaredTunnel],
    [updateServerUrlIfRegistered], [monitorServices], the configuration, the
    path of the tunnel binary and the exit listeners) and of the renderer's
    registration flow ([submitLinkCode], [registerWithCode], [unlinkServer],
    the page load).

    Conventions of the embedding:
    - a JavaScript value is a term of [Js.value]; numbers are integers, the
      keys of an object are distinct;
    - a JavaScript string of ASCII characters is a [string] with the same
      characters; [JsString] says what that means for the other strings;
    - asynchronous functions are run to completion one at a time; a computation
      is a function of the [world] that returns an outcome (a value or a thrown
      error) and the new world, so that [try]/[catch] sees the effects made
      before the throw;
    - the answers of the outside world (HTTP responses, subprocess output) are
      scripted inside the world and consumed in order;
    - [registration.json] is seen through [JSON.parse]: its text is the
      serialisation of a value or a text that does not parse; of the faults of
      the file system only a failing read is modelled. *)

From Stdlib Require Import String Ascii List Bool ZArith Lia DecimalString.
Import ListNotations.
Local Open Scope string_scope.
Local Open Scope list_scope.
Set Warnings "-register-all".

(** ** JavaScript strings *)

Module JsString.

(** A string of the embedding stands for the JavaScript string with the same
    characters when all of them are ASCII: on such strings [toLowerCase],
    [toUpperCase], [trim] and [String.length] below are the functions of
    [String.prototype] and the [length] property.  Outside ASCII they are not
    (JavaScript also strips Unicode white space, converts the case of other
    letters and counts UTF-16 units), and a statement that depends on them
    there carries [ascii_only] as a hypothesis. *)
Definition is_ascii_char (c : ascii) : bool := (nat_of_ascii c <? 128)%nat.

Fixpoint ascii_only (s : string) : bool :=
  match s with
  | EmptyString => true
  | String c s' => is_ascii_char c && ascii_only s'
  end.

Definition is_upper (c : ascii) : bool :=
  let n := nat_of_ascii c in (65 <=? n)%nat && (n <=? 90)%nat.

Definition is_lower (c : ascii) : bool :=
  let n := nat_of_ascii c in (97 <=? n)%nat && (n <=? 122)%nat.

Definition is_digit (c : ascii) : bool :=
  let n := nat_of_ascii c in (48 <=? n)%nat && (n <=? 57)%nat.

Definition lower_char (c : ascii) : ascii :=
  if is_upper c then ascii_of_nat (nat_of_ascii c + 32) else c.

Definition upper_char (c : ascii) : ascii :=
  if is_lower c then ascii_of_nat (nat_of_ascii c - 32) else c.

Fixpoint map_chars (f : ascii -> ascii) (s : string) : string :=
  match s with
  | EmptyString => EmptyString
  | String c s' => String (f c) (map_chars f s')
  end.

(** [s.toLowerCase()] and [s.toUpperCase()], for ASCII strings. *)
Definition toLowerCase (s : string) : string := map_chars lower_char s.
Definition toUpperCase (s : string) : string := map_chars upper_char s.

(** The ASCII white space removed by [trim]: tab, line feed, vertical tab,
    form feed, carriage return and space. *)
Definition is_space (c : ascii) : bool :=
  let n := nat_of_ascii c in
  ((9 <=? n)%nat && (n <=? 13)%nat) || (n =? 32)%nat.

Fixpoint trim_start (s : string) : string :=
  match s with
  | EmptyString => EmptyString
  | String c s' => if is_space c then trim_start s' else s
  end.

Fixpoint trim_end (s : string) : string :=
  match s with
  | EmptyString => EmptyString
  | String c s' =>
      match trim_end s' with
      | EmptyString => if is_space c then EmptyString else String c EmptyString
      | t => String c t
      end
  end.

(** [s.trim()], for ASCII strings. *)
Definition trim (s : string) : string := trim_end (trim_start s).

(** [s.includes(needle)]. *)
Fixpoint includes (needle s : string) : bool :=
  prefix needle s ||
  match s with
  | EmptyString => false
  | String _ s' => includes needle s'
  end.

(** [s.split('\n')]: the pieces between line feeds; always at least one piece. *)
Fixpoint split_lines (s : string) : list string :=
  match s with
  | EmptyString => [EmptyString]
  | String c s' =>
      if Ascii.eqb c "010"%char then EmptyString :: split_lines s'
      else match split_lines s' with
           | [] => [String c EmptyString]
           | l :: ls => String c l :: ls
           end
  end.

(** Truthiness of a string: only the empty string is falsy. *)
Definition nonempty (s : string) : bool :=
  match s with EmptyString => false | String _ _ => true end.

End JsString.

(** ** JavaScript values *)

Module Js.

Inductive value : Type :=
| Undefined
| Null
| Bool (b : bool)
| Num (n : Z)
| Str (s : string)
| Arr (items : list value)
| Obj (fields : list (string * value)).

(** [ToBoolean]. *)
Definition truthy (v : value) : bool :=
  match v with
  | Undefined | Null => false
  | Bool b => b
  | Num n => negb (n =? 0)%Z
  | Str s => JsString.nonempty s
  | Arr _ | Obj _ => true
  end.

(** [a || b]. *)
Definition or_else (a b : value) : value := if truthy a then a else b.

(** [v === s] for a string literal or string variable [s]. *)
Definition strict_eq_str (v : value) (s : string) : bool :=
  match v with
  | Str t => String.eqb t s
  | _ => false
  end.

Fixpoint lookup (k : string) (fields : list (string * value)) : option value :=
  match fields with
  | [] => None
  | (k', v) :: rest => if String.eqb k k' then Some v else lookup k rest
  end.

(** [o.k = v] on the fields of an object: the property keeps its place when it
    exists and is added last otherwise. *)
Fixpoint assign (k : string) (v : value) (fields : list (string * value))
  : list (string * value) :=
  match fields with
  | [] => [(k, v)]
  | (k', v') :: rest =>
      if String.eqb k k' then (k', v) :: rest else (k', v') :: assign k v rest
  end.

Definition nullish (v : value) : bool :=
  match v with Undefined | Null => true | _ => false end.

(** [v.k] where [v] is neither [null] nor [undefined]: a missing property
    and a property of a primitive read as [undefined].  The properties read
    by the program are never built-in ones. *)
Definition prop (v : value) (k : string) : value :=
  match v with
  | Obj fields => match lookup k fields with Some x => x | None => Undefined end
  | _ => Undefined
  end.

(** [v.k] in general: reading a property of [null] or [undefined] is a
    [TypeError], written [None]. *)
Definition get (v : value) (k : string) : option value :=
  if nullish v then None else Some (prop v k).

(** [v?.k]. *)
Definition opt_prop (v : value) (k : string) : value :=
  if nullish v then Undefined else prop v k.

(** The strings of the program as values. *)
Definition of_option_string (o : option string) : value :=
  match o with Some s => Str s | None => Null end.

(** What [JSON.parse(JSON.stringify(v, null, 2))] gives back: properties whose
    value is [undefined] are left out, [undefined] array items become
    [null]. *)
Fixpoint json_inner (v : value) : value :=
  match v with
  | Arr items =>
      Arr (map (fun x => match x with Undefined => Null | _ => json_inner x end)
               items)
  | Obj fields =>
      Obj ((fix go (fs : list (string * value)) : list (string * value) :=
              match fs with
              | [] => []
              | (k, Undefined) :: rest => go rest
              | (k, x) :: rest => (k, json_inner x) :: go rest
              end) fields)
  | _ => v
  end.

End Js.

(** ** The regular expression of the tunnel URL *)

Module Regex.

(** The patterns of the program need literal characters and a greedy
    one-or-more repetition of a character class. *)
Inductive atom : Type :=
| Lit (c : ascii)
| Plus (cls : ascii -> bool).

Definition regex := list atom.

Fixpoint lits (s : string) : regex :=
  match s with
  | EmptyString => []
  | String c s' => Lit c :: lits s'
  end.

(** The rest of a greedy repetition of the class [cls], followed by the
    rest of the pattern [k]: as many characters as possible are taken, and
    given back one at a time while [k] fails. *)
Fixpoint more (cls : ascii -> bool) (k : string -> option string) (t : string)
  : option string :=
  match t with
  | String c t' =>
      if cls c then
        match more cls k t' with
        | Some m => Some (String c m)
        | None => k t
        end
      else k t
  | EmptyString => k t
  end.

(** Backtracking match of [r] at the start of [s]; the result is the matched
    text. *)
Fixpoint match_here (r : regex) (s : string) {struct r} : option string :=
  match r with
  | [] => Some EmptyString
  | Lit c :: r' =>
      match s with
      | String c' s' =>
          if Ascii.eqb c c' then option_map (String c') (match_here r' s')
          else None
      | EmptyString => None
      end
  | Plus cls :: r' =>
      match s with
      | String c s' =>
          if cls c then option_map (String c) (more cls (match_here r') s')
          else None
      | EmptyString => None
      end
  end.

(** [s.match(r)] for a pattern without flags: the leftmost match. *)
Fixpoint search (r : regex) (s : string) : option string :=
  match match_here r s with
  | Some m => Some m
  | None =>
      match s with
      | EmptyString => None
      | String _ s' => search r s'
      end
  end.

(** The class [[a-z0-9\-]]. *)
Definition label_char (c : ascii) : bool :=
  JsString.is_lower c || JsString.is_digit c || Ascii.eqb c "-"%char.

(** [/(https:\/\/[a-z0-9\-]+\.trycloudflare\.com)/]; its only group is the
    whole pattern, so [match[1]] is the matched text. *)
Definition tunnel_re : regex :=
  lits "https://" ++ [Plus label_char] ++ lits ".trycloudflare.com".

Definition match_tunnel_url (s : string) : option string := search tunnel_re s.

End Regex.


(** ** The registration file *)

Module Fs.

(** The text of [registration.json], seen through [JSON.parse]: either the
    text [JSON.stringify] wrote for a value, or a text that [JSON.parse]
    rejects, such as the empty text of a file that was just truncated. *)
Inductive text : Type :=
| JsonText (v : Js.value)
| BadText (raw : string).

Inductive file : Type :=
| NoFile
| File (t : text).

(** [fs.writeFileSync(path, text)] opens the file with the flag ['w'], which
    truncates it, and then writes the text: these are its two steps on the
    file. *)
Definition open_truncate (f : file) : file := File (BadText EmptyString).
Definition write_text (t : text) (f : file) : file := File t.

(** The file at each point where the process can stop during
    [fs.writeFileSync]: before the call, after the truncation, after the
    write. *)
Definition write_states (t : text) (f : file) : list file :=
  [f; open_truncate f; write_text t (open_truncate f)].

End Fs.

(** ** The world *)

(** A thrown value: an [Error] with its [message] and, for the errors of
    [axios], the body of the HTTP response when there was one
    ([error.response.data]). *)
Record error : Type := Error {
  message : string;
  response_data : option Js.value
}.

(** The outcome of an HTTP call: [axios] resolves with the body ([response.data])
    on a 2xx status and rejects otherwise. *)
Inductive http_result : Type :=
| Resolved (data : Js.value)
| Rejected (e : error).

(** The body of a [POST /server/register]. *)
Record payload : Type := Payload {
  link_code : string;
  p_deviceId : string;
  p_osInfo : Js.value;      (* sent as JSON.stringify(osInfo) *)
  p_hardware : Js.value;    (* sent as JSON.stringify(hardware) *)
  p_url : string;
  p_models : list Js.value
}.

Inductive request : Type :=
| GetMetrics                      (* GET http://localhost:49312/metrics *)
| GetTags                         (* GET OLLAMA_SERVER_URL/api/tags *)
| GetPs                           (* GET OLLAMA_SERVER_URL/api/ps *)
| PostRegister (p : payload).     (* POST WHISTANT_SERVER_URL/server/register *)

(** What [collectSystemInfo] returns. *)
Record sys_info : Type := SysInfo {
  deviceId : string;
  os_platform : string;
  os_release : string;
  os_arch : string;
  os_uptime : Z;
  hardware : Js.value;
  nvidiaInfo : Js.value;
  amdInfo : Js.value;
  macInfo : Js.value;
  gpuType : string
}.

Definition osInfo (s : sys_info) : Js.value :=
  Js.Obj [("platform", Js.Str (os_platform s)); ("release", Js.Str (os_release s));
          ("arch", Js.Str (os_arch s)); ("uptime", Js.Num (os_uptime s))].

Inductive stream : Type := Stdout | Stderr.

(** A ['data'] event of the tunnel subprocess. *)
Definition chunk_event : Type := stream * string.

Record world : Type := World {
  (* configuration, fixed when the process starts *)
  WHISTANT_SERVER_URL : string;
  OLLAMA_SERVER_URL : string;
  (* the machine: [None] when [os.cpus()] is empty, so that [cpuInfo[0].model]
     throws *)
  system : option sys_info;
  (* [new Date().toISOString()] *)
  now : string;
  (* [fs.readFileSync] fails with an I/O error *)
  read_fault : bool;
  (* userData/registration.json *)
  registration_json : Fs.file;
  (* globals of the main process *)
  detectedTunnelUrl : option string;
  cloudflaredProcess : bool;
  (* answers of the network, one list per endpoint, consumed in order; a call
     made when its list is empty fails as a connection error *)
  metrics_feed : list http_result;
  tags_feed : list http_result;
  ps_feed : list http_result;
  register_feed : list http_result;
  (* the HTTP calls made so far, latest first *)
  http_log : list request;
  (* the ['registration-warning'] messages sent to the window, latest first *)
  warnings : list (string * Js.value);
  (* the renderer *)
  isSubmitting : bool;
  screen : string;
  error_message : string;
  alerts : list string;
  (* [mainWindow] of the main process refers to a window *)
  mainWindow : bool
}.

Definition set_registration_json (f : Fs.file) (w : world) : world :=
  World (WHISTANT_SERVER_URL w) (OLLAMA_SERVER_URL w) (system w) (now w)
    (read_fault w) f (detectedTunnelUrl w) (cloudflaredProcess w)
    (metrics_feed w) (tags_feed w) (ps_feed w) (register_feed w) (http_log w)
    (warnings w) (isSubmitting w) (screen w) (error_message w) (alerts w)
    (mainWindow w).

Definition set_detectedTunnelUrl (u : option string) (w : world) : world :=
  World (WHISTANT_SERVER_URL w) (OLLAMA_SERVER_URL w) (system w) (now w)
    (read_fault w) (registration_json w) u (cloudflaredProcess w)
    (metrics_feed w) (tags_feed w) (ps_feed w) (register_feed w) (http_log w)
    (warnings w) (isSubmitting w) (screen w) (error_message w) (alerts w)
    (mainWindow w).

Definition set_cloudflaredProcess (b : bool) (w : world) : world :=
  World (WHISTANT_SERVER_URL w) (OLLAMA_SERVER_URL w) (system w) (now w)
    (read_fault w) (registration_json w) (detectedTunnelUrl w) b
    (metrics_feed w) (tags_feed w) (ps_feed w) (register_feed w) (http_log w)
    (warnings w) (isSubmitting w) (screen w) (error_message w) (alerts w)
    (mainWindow w).

(** The failure of a call that nothing answers. *)
Definition refused : http_result := Rejected (Error "connect ECONNREFUSED" None).

(** One HTTP call: the request is logged and the next answer of its endpoint is
    consumed. *)
Definition exchange (r : request) (w : world) : http_result * world :=
  let log := r :: http_log w in
  let mk m t p g :=
    World (WHISTANT_SERVER_URL w) (OLLAMA_SERVER_URL w) (system w) (now w)
      (read_fault w) (registration_json w) (detectedTunnelUrl w)
      (cloudflaredProcess w) m t p g log
      (warnings w) (isSubmitting w) (screen w) (error_message w) (alerts w)
      (mainWindow w) in
  let m := metrics_feed w in
  let t := tags_feed w in
  let p := ps_feed w in
  let g := register_feed w in
  match r with
  | GetMetrics => (hd refused m, mk (tl m) t p g)
  | GetTags => (hd refused t, mk m (tl t) p g)
  | GetPs => (hd refused p, mk m t (tl p) g)
  | PostRegister _ => (hd refused g, mk m t p (tl g))
  end.

Definition push_warning (x : string * Js.value) (w : world) : world :=
  World (WHISTANT_SERVER_URL w) (OLLAMA_SERVER_URL w) (system w) (now w)
    (read_fault w) (registration_json w) (detectedTunnelUrl w)
    (cloudflaredProcess w)
    (metrics_feed w) (tags_feed w) (ps_feed w) (register_feed w) (http_log w)
    (x :: warnings w) (isSubmitting w) (screen w) (error_message w) (alerts w)
    (mainWindow w).

Definition set_ui (sub : bool) (scr msg : string) (al : list string) (w : world)
  : world :=
  World (WHISTANT_SERVER_URL w) (OLLAMA_SERVER_URL w) (system w) (now w)
    (read_fault w) (registration_json w) (detectedTunnelUrl w)
    (cloudflaredProcess w)
    (metrics_feed w) (tags_feed w) (ps_feed w) (register_feed w) (http_log w)
    (warnings w) sub scr msg al (mainWindow w).

Definition set_mainWindow (b : bool) (w : world) : world :=
  World (WHISTANT_SERVER_URL w) (OLLAMA_SERVER_URL w) (system w) (now w)
    (read_fault w) (registration_json w) (detectedTunnelUrl w)
    (cloudflaredProcess w)
    (metrics_feed w) (tags_feed w) (ps_feed w) (register_feed w) (http_log w)
    (warnings w) (isSubmitting w) (screen w) (error_message w) (alerts w) b.

(** ** Computations: state and exceptions *)

Inductive outcome (A : Type) : Type :=
| Ret (a : A)
| Throw (e : error).
Arguments Ret {A} a.
Arguments Throw {A} e.

Definition M (A : Type) : Type := world -> outcome A * world.

Definition ret {A} (a : A) : M A := fun w => (Ret a, w).

Definition throw {A} (e : error) : M A := fun w => (Throw e, w).

Definition bind {A B} (c : M A) (k : A -> M B) : M B :=
  fun w =>
    match c w with
    | (Ret a, w') => k a w'
    | (Throw e, w') => (Throw e, w')
    end.

(** [try { c } catch (e) { h e }]: the handler runs in the world the body left. *)
Definition try_catch {A} (c : M A) (h : error -> M A) : M A :=
  fun w =>
    match c w with
    | (Ret a, w') => (Ret a, w')
    | (Throw e, w') => h e w'
    end.

(** [try { c } finally { f }]. *)
Definition finally {A} (c : M A) (f : world -> world) : M A :=
  fun w => let (o, w') := c w in (o, f w').

Definition gets {A} (f : world -> A) : M A := fun w => (Ret (f w), w).

Definition modify (f : world -> world) : M unit := fun w => (Ret tt, f w).

Declare Scope js_scope.
Delimit Scope js_scope with js.
Notation "x <- c ;; k" := (bind c (fun x => k))
  (at level 61, c at next level, right associativity) : js_scope.
Notation "c ;;; k" := (bind c (fun _ => k))
  (at level 61, right associativity) : js_scope.
Local Open Scope js_scope.

Definition type_error {A} (msg : string) : M A := throw (Error msg None).

(** [v.k], throwing on [null] and [undefined]. *)
Definition getp (v : Js.value) (k : string) : M Js.value :=
  match Js.get v k with
  | Some x => ret x
  | None => type_error "Cannot read properties of null or undefined"
  end.

(** [await axios.get(...)] and [await axios.post(...)]: the body of the
    response, or the rejection thrown. *)
Definition axios (r : request) : M Js.value :=
  fun w =>
    match exchange r w with
    | (Resolved data, w') => (Ret data, w')
    | (Rejected e, w') => (Throw e, w')
    end.

(** ** The main process *)

Module Main.

(** Truthiness of a URL variable that holds a string or [null]. *)
Definition truthy_url (u : option string) : bool :=
  match u with
  | Some s => JsString.nonempty s
  | None => false
  end.

(** The string held by a truthy URL variable. *)
Definition url_text (u : option string) : string :=
  match u with
  | Some s => s
  | None => EmptyString
  end.

(** *** File system and JSON *)

Definition existsSync : M bool :=
  gets (fun w => match registration_json w with
                 | Fs.NoFile => false
                 | Fs.File _ => true
                 end).

Definition readFileSync : M Fs.text :=
  fun w =>
    match registration_json w with
    | Fs.NoFile => (Throw (Error "ENOENT: no such file or directory" None), w)
    | Fs.File t =>
        if read_fault w then (Throw (Error "EIO: i/o error, read" None), w)
        else (Ret t, w)
    end.

Definition unlinkSync : M unit :=
  fun w =>
    match registration_json w with
    | Fs.NoFile => (Throw (Error "ENOENT: no such file or directory" None), w)
    | Fs.File _ => (Ret tt, set_registration_json Fs.NoFile w)
    end.

(** [JSON.stringify(v, null, 2)]: a text, or [undefined] for [undefined]. *)
Definition JSON_stringify (v : Js.value) : option Fs.text :=
  match v with
  | Js.Undefined => None
  | _ => Some (Fs.JsonText (Js.json_inner v))
  end.

Definition JSON_parse (t : Fs.text) : M Js.value :=
  match t with
  | Fs.JsonText v => ret v
  | Fs.BadText _ => throw (Error "Unexpected end of JSON input" None)
  end.

(** [fs.writeFileSync(dataPath, data)]; [data] must be a string. *)
Definition writeFileSync (data : option Fs.text) : M unit :=
  match data with
  | None => type_error "The data argument must be of type string"
  | Some t =>
      modify (fun w =>
        set_registration_json
          (Fs.write_text t (Fs.open_truncate (registration_json w))) w)
  end.

(** *** Collaborators *)

Definition collectSystemInfo : M sys_info :=
  fun w =>
    match system w with
    | Some s => (Ret s, w)
    | None => (Throw (Error "Cannot read properties of undefined (reading 'model')" None), w)
    end.

Fixpoint map_m {A B} (f : A -> M B) (l : list A) : M (list B) :=
  match l with
  | [] => ret []
  | x :: l' => y <- f x ;; ys <- map_m f l' ;; ret (y :: ys)
  end.

(** [models.map(m => m.name)]. *)
Definition names_of (models : Js.value) : M (list Js.value) :=
  match models with
  | Js.Arr items => map_m (fun m => getp m "name") items
  | _ => type_error "models.map is not a function"
  end.

(** [response.data.models ? response.data.models.map(m => m.name) : []]. *)
Definition model_names (data : Js.value) : M (list Js.value) :=
  models <- getp data "models" ;;
  if Js.truthy models then names_of models else ret [].

Definition fetchAvailableModels : M (list Js.value) :=
  try_catch (data <- axios GetTags ;; model_names data) (fun _ => ret []).

(** *** The metrics probe *)

Definition url_in_line (line : string) : option string :=
  if JsString.includes "https://" line
     && JsString.includes "trycloudflare.com" line
  then Regex.match_tunnel_url line
  else None.

Fixpoint first_url (lines : list string) : option string :=
  match lines with
  | [] => None
  | line :: rest =>
      match url_in_line line with
      | Some u => Some u
      | None => first_url rest
      end
  end.

(** [response.data.split('\n')] and the loop over the lines. *)
Definition scan_metrics (data : Js.value) : M (option string) :=
  match data with
  | Js.Str s => ret (first_url (JsString.split_lines s))
  | _ => type_error "response.data.split is not a function"
  end.

Definition getCloudflaredUrl : M (option string) :=
  try_catch (data <- axios GetMetrics ;; scan_metrics data)
            (fun _ => ret None).

(** *** URL drift *)

(** The message is sent when [mainWindow?.webContents] exists; without a
    window the function only logs. *)
Definition notifyRegistrationWarning (reason : string) (detail : Js.value)
  : M unit :=
  try_catch
    (window <- gets mainWindow ;;
     if window then modify (push_warning (reason, detail)) else ret tt)
    (fun _ => ret tt).

(** [error.response?.data?.k]. *)
Definition response_field (e : error) (k : string) : Js.value :=
  match response_data e with
  | Some d => Js.opt_prop d k
  | None => Js.Undefined
  end.

(** [v.toLowerCase()]: only strings have the method. *)
Definition toLowerCase_of (v : Js.value) : M string :=
  match v with
  | Js.Str s => ret (JsString.toLowerCase s)
  | _ => type_error "toLowerCase is not a function"
  end.

(** [registration.url = newUrl]. *)
Definition set_url (registration : Js.value) (newUrl : string) : Js.value :=
  match registration with
  | Js.Obj fields => Js.Obj (Js.assign "url" (Js.Str newUrl) fields)
  | _ => registration
  end.

Definition updateServerUrlIfRegistered (newUrl : string) : M unit :=
  try_catch
    (present <- existsSync ;;
     if negb present then ret tt (* no registration file *)
     else
       raw <- readFileSync ;;
       registration <- JSON_parse raw ;;
       if negb (Js.truthy registration)
          || negb (Js.truthy (Js.prop registration "registered"))
          || negb (Js.truthy (Js.prop registration "serverId"))
       then ret tt (* not registered yet *)
       else if Js.strict_eq_str (Js.prop registration "url") newUrl
       then ret tt (* URL unchanged *)
       else
         sysInfo <- collectSystemInfo ;;
         availableModels <- fetchAvailableModels ;;
         code <- toLowerCase_of (Js.prop registration "serverId") ;;
         let payload :=
           Payload code (deviceId sysInfo) (osInfo sysInfo) (hardware sysInfo)
                   newUrl availableModels in
         axios (PostRegister payload) ;;;
         writeFileSync (JSON_stringify (set_url registration newUrl)))
    (fun e =>
       notifyRegistrationWarning "server-url-update-failed"
         (Js.or_else (Js.or_else (response_field e "error")
                                 (response_field e "code"))
                     (Js.Str (message e)))).

(** *** The tunnel subprocess *)

(** The variables [tunnelUrl] and [found] shared by the two listeners. *)
Record scan : Type := Scan {
  tunnelUrl : option string;
  found : bool
}.

Definition scan_init : scan := Scan None false.

(** [cloudflaredProcess.stdout.on('data', ...)]. *)
Definition on_stdout_data (output : string) (st : scan) : scan :=
  match Regex.match_tunnel_url output with
  | Some u => if negb (found st) then Scan (Some u) true else st
  | None => st
  end.

(** [cloudflaredProcess.stderr.on('data', ...)]. *)
Definition on_stderr_data (output : string) (st : scan) : scan :=
  match Regex.match_tunnel_url output with
  | Some u => if negb (found st) then Scan (Some u) true else st
  | None => st
  end.

Definition on_data (ev : chunk_event) (st : scan) : scan :=
  match ev with
  | (Stdout, output) => on_stdout_data output st
  | (Stderr, output) => on_stderr_data output st
  end.

(** The events of a list delivered in their order of arrival. *)
Definition deliver (evs : list chunk_event) (st : scan) : scan :=
  fold_left (fun s ev => on_data ev s) evs st.

(** [while (!found && attempts < 30) { await sleep(500); attempts++ }]:
    [ticks] lists the events that arrive during each sleep; the result is the
    state of the listeners after the loop and the events still to come. *)
Fixpoint wait_for_url (attempts_left : nat) (ticks : list (list chunk_event))
    (st : scan) : scan * list (list chunk_event) :=
  if found st then (st, ticks)
  else
    match attempts_left with
    | O => (st, ticks)
    | S n =>
        match ticks with
        | [] => wait_for_url n [] st
        | t :: ts => wait_for_url n ts (deliver t st)
        end
    end.

(** [available]: [cloudflared --version] ran; [ticks]: the output of the
    subprocess.  The events that arrive after the wait are delivered while
    the URL update is awaited, before [return tunnelUrl] reads the variable
    again. *)
Definition startCloudflaredTunnel (available : bool)
    (ticks : list (list chunk_event)) : M (option string) :=
  try_catch
    (if negb available then ret None
     else
       modify (set_cloudflaredProcess true) ;;;
       let (st, later) := wait_for_url 30 ticks scan_init in
       if truthy_url (tunnelUrl st) then
         modify (set_detectedTunnelUrl (tunnelUrl st)) ;;;
         updateServerUrlIfRegistered (url_text (tunnelUrl st)) ;;;
         ret (tunnelUrl (deliver (concat later) st))
       else ret None)
    (fun _ => ret None).

Definition monitorServices (available : bool)
    (ticks : list (list chunk_event)) : M unit :=
  try_catch (try_catch (axios GetTags ;;; ret tt) (fun _ => ret tt))
            (fun _ => ret tt) ;;;
  try_catch
    (url <- getCloudflaredUrl ;;
     if truthy_url url then
       modify (set_detectedTunnelUrl url) ;;;
       updateServerUrlIfRegistered (url_text url)
     else
       (* the old process is killed, its handle stays *)
       startCloudflaredTunnel available ticks ;;; ret tt)
    (fun _ => ret tt).

(** [createWindow] as far as the main process sees it: [mainWindow] refers to
    the new window. *)
Definition createWindow : M unit := modify (set_mainWindow true).

(** [app.on('ready', ...)]: the window is created, then the tunnel is started
    once, before the monitoring timer is set. *)
Definition on_ready (available : bool) (ticks : list (list chunk_event))
  : M unit :=
  createWindow ;;;
  startCloudflaredTunnel available ticks ;;; ret tt.

End Main.

(** ** The IPC handlers *)

Module Handlers.
Import Main.

(** The probe of one turn of the waiting loop of [register-server]. *)
Definition probe_once : M (option string) :=
  try_catch
    (freshUrl <- getCloudflaredUrl ;;
     if truthy_url freshUrl then
       modify (set_detectedTunnelUrl freshUrl) ;;; ret freshUrl
     else ret None)
    (fun _ => ret None).

(** [while (attempts < maxAttempts && !publicUrl) { ... attempts++ ... }]:
    the URL found, or [None] when every attempt failed. *)
Fixpoint wait_for_tunnel (attempts_left : nat) : M (option string) :=
  match attempts_left with
  | O => ret None
  | S n =>
      r <- probe_once ;;
      if truthy_url r then ret r else wait_for_tunnel n
  end.

Definition maxAttempts : nat := 60.

(** The URL to advertise. *)
Definition choose_public_url : M string :=
  cached <- gets detectedTunnelUrl ;;
  if negb (truthy_url cached) then
    r <- wait_for_tunnel maxAttempts ;;
    if truthy_url r then ret (url_text r)
    else gets OLLAMA_SERVER_URL (* localhost as fallback *)
  else ret (url_text cached).

Definition success_marker : string := "SERVER_REGISTER_SUCCESS".

(** [response.data.code !== 'SERVER_REGISTER_SUCCESS' && !response.data.userId]. *)
Definition unconfirmed (data : Js.value) : M bool :=
  code <- getp data "code" ;;
  if negb (Js.strict_eq_str code success_marker) then
    userId <- getp data "userId" ;;
    ret (negb (Js.truthy userId))
  else ret false.

Definition registered_data (s : sys_info) (data : Js.value) (publicUrl : string)
    (availableModels : list Js.value) : Js.value :=
  Js.Obj [("registered", Js.Bool true);
          ("userId", Js.prop data "userId");
          ("serverId", Js.prop data "serverId");
          ("username", Js.prop data "username");
          ("url", Js.Str publicUrl);
          ("os", Js.Str (os_platform s ++ " " ++ os_release s));
          ("device", Js.Str (deviceId s));
          ("models", Js.Arr availableModels);
          ("nvidiaDriver", Js.prop (nvidiaInfo s) "driver");
          ("cudaVersion", Js.prop (nvidiaInfo s) "cuda");
          ("gpuType", Js.Str (gpuType s));
          ("amdInfo", amdInfo s);
          ("macInfo", macInfo s)].

Definition failure (err : Js.value) : Js.value :=
  Js.Obj [("success", Js.Bool false); ("error", err)].

(** [ipcMain.handle('register-server', ...)]. *)
Definition register_server (linkCode : string) : M Js.value :=
  try_catch
    (systemInfo <- collectSystemInfo ;;
     publicUrl <- choose_public_url ;;
     availableModels <- fetchAvailableModels ;;
     try_catch
       (let payload :=
          Payload (JsString.toLowerCase linkCode) (deviceId systemInfo)
                  (osInfo systemInfo) (hardware systemInfo)
                  publicUrl availableModels in
        data <- axios (PostRegister payload) ;;
        bad <- unconfirmed data ;;
        if bad then throw (Error "Server did not confirm registration" None)
        else
          ret (Js.Obj [("success", Js.Bool true);
                       ("data", registered_data systemInfo data publicUrl
                                                availableModels)]))
       (fun remoteError =>
          ret (failure
                 (Js.or_else
                    (Js.or_else (response_field remoteError "error")
                                (Js.Str (message remoteError)))
                    (Js.Str "Failed to register with Whistant server")))))
    (fun e =>
       ret (failure (Js.or_else (Js.Str (message e))
                                (Js.Str "Failed to collect system information")))).

(** The handler for a [linkCode] of any kind: [linkCode.toLowerCase()], the
    first thing the inner [try] evaluates, throws for what is not a string. *)
Definition register_server_of (linkCode : Js.value) : M Js.value :=
  try_catch
    (systemInfo <- collectSystemInfo ;;
     publicUrl <- choose_public_url ;;
     availableModels <- fetchAvailableModels ;;
     try_catch
       (code <- toLowerCase_of linkCode ;;
        let payload :=
          Payload code (deviceId systemInfo)
                  (osInfo systemInfo) (hardware systemInfo)
                  publicUrl availableModels in
        data <- axios (PostRegister payload) ;;
        bad <- unconfirmed data ;;
        if bad then throw (Error "Server did not confirm registration" None)
        else
          ret (Js.Obj [("success", Js.Bool true);
                       ("data", registered_data systemInfo data publicUrl
                                                availableModels)]))
       (fun remoteError =>
          ret (failure
                 (Js.or_else
                    (Js.or_else (response_field remoteError "error")
                                (Js.Str (message remoteError)))
                    (Js.Str "Failed to register with Whistant server")))))
    (fun e =>
       ret (failure (Js.or_else (Js.Str (message e))
                                (Js.Str "Failed to collect system information")))).

(** [ipcMain.handle('register-server', async (event, { linkCode }) => ...)] on
    the argument the renderer passes: the parameter is destructured before
    the [try], which throws for [null] and [undefined]. *)
Definition register_server_ipc (arg : Js.value) : M Js.value :=
  if Js.nullish arg
  then type_error "Cannot destructure property 'linkCode' of 'undefined' as it is undefined."
  else register_server_of (Js.prop arg "linkCode").

(** [ipcMain.handle('save-registration', ...)]. *)
Definition save_registration (data : Js.value) : M Js.value :=
  try_catch
    (match data with
     | Js.Null =>
         present <- existsSync ;;
         if present then unlinkSync else ret tt
     | _ => writeFileSync (JSON_stringify data)
     end ;;;
     ret (Js.Obj [("success", Js.Bool true)]))
    (fun e => ret (failure (Js.Str (message e)))).

(** The registration file at each point where the process can stop during
    [save-registration]: [fs.unlinkSync] has no intermediate state,
    [fs.writeFileSync] has those of [Fs.write_states]. *)
Definition save_crash_states (data : Js.value) (f : Fs.file) : list Fs.file :=
  match data with
  | Js.Null => [f; Fs.NoFile]
  | _ =>
      match JSON_stringify data with
      | Some t => Fs.write_states t f
      | None => [f]
      end
  end.

(** [ipcMain.handle('load-registration', ...)]. *)
Definition load_registration : M Js.value :=
  try_catch
    (present <- existsSync ;;
     if present then
       data <- readFileSync ;;
       JSON_parse data
     else ret Js.Null)
    (fun _ => ret Js.Null).

(** [ipcMain.handle('check-ollama', ...)]. *)
Definition check_ollama : M Js.value :=
  try_catch
    (data <- axios GetTags ;;
     models <- getp data "models" ;;
     ret (Js.Obj [("success", Js.Bool true);
                  ("models", Js.or_else models (Js.Arr []))]))
    (fun _ =>
       local <- gets OLLAMA_SERVER_URL ;;
       ret (failure (Js.Str ("Ollama not running on " ++ local)))).

(** [ipcMain.handle('check-loaded-models', ...)]. *)
Definition check_loaded_models : M Js.value :=
  try_catch
    (data <- axios GetPs ;;
     models <- getp data "models" ;;
     loadedModels <- names_of (Js.or_else models (Js.Arr [])) ;;
     ret (Js.Obj [("success", Js.Bool true); ("models", Js.Arr loadedModels)]))
    (fun _ =>
       ret (Js.Obj [("success", Js.Bool false);
                    ("error", Js.Str "Could not fetch loaded models");
                    ("models", Js.Arr [])])).

Definition tunnel_found (url : option string) : Js.value :=
  Js.Obj [("success", Js.Bool true); ("url", Js.of_option_string url)].

(** [ipcMain.handle('check-cloudflared', ...)]. *)
Definition check_cloudflared : M Js.value :=
  try_catch
    (cached <- gets detectedTunnelUrl ;;
     if truthy_url cached then ret (tunnel_found cached)
     else
       url <- getCloudflaredUrl ;;
       if truthy_url url then
         modify (set_detectedTunnelUrl url) ;;; ret (tunnel_found url)
       else ret (failure (Js.Str "Tunnel starting up...")))
    (fun _ => ret (failure (Js.Str "Cloudflared tunnel not available"))).

Definition no_tunnel (w : world) : Js.value :=
  Js.Obj [("success", Js.Bool false); ("url", Js.Str (OLLAMA_SERVER_URL w))].

(** [ipcMain.handle('get-tunnel-url', ...)]. *)
Definition get_tunnel_url : M Js.value :=
  try_catch
    (url <- getCloudflaredUrl ;;
     if truthy_url url then
       modify (set_detectedTunnelUrl url) ;;; ret (tunnel_found url)
     else
       cached <- gets detectedTunnelUrl ;;
       if truthy_url cached then ret (tunnel_found cached)
       else gets no_tunnel)
    (fun _ => gets no_tunnel).

(** [ipcMain.handle('get-system-info', ...)]. *)
Definition get_system_info : M Js.value :=
  try_catch
    (models <- try_catch (data <- axios GetTags ;; model_names data)
                         (fun _ => ret [Js.Str "Unable to fetch models"]) ;;
     cached <- gets detectedTunnelUrl ;;
     local <- gets OLLAMA_SERVER_URL ;;
     let tunnelUrl0 := Js.or_else (Js.of_option_string cached) (Js.Str local) in
     tunnelUrl1 <- try_catch
                     (url <- getCloudflaredUrl ;;
                      if truthy_url url then
                        modify (set_detectedTunnelUrl url) ;;;
                        ret (Js.of_option_string url)
                      else ret tunnelUrl0)
                     (fun _ => ret tunnelUrl0) ;;
     s <- collectSystemInfo ;;
     ret (Js.Obj [("success", Js.Bool true);
                  ("os", Js.Str (os_platform s ++ " " ++ os_release s
                                 ++ " (" ++ os_arch s ++ ")"));
                  ("device", Js.Str (deviceId s));
                  ("cpu", Js.prop (hardware s) "cpu");
                  ("gpu", Js.prop (hardware s) "gpu");
                  ("memory", Js.prop (hardware s) "memory");
                  ("nvidiaDriver", Js.prop (nvidiaInfo s) "driver");
                  ("cuda", Js.prop (nvidiaInfo s) "cuda");
                  ("models", Js.Arr models);
                  ("url", tunnelUrl1);
                  ("gpuType", Js.Str (gpuType s));
                  ("nvidiaInfo", nvidiaInfo s);
                  ("amdInfo", amdInfo s);
                  ("macInfo", macInfo s)]))
    (fun e => ret (failure (Js.Str (message e)))).

End Handlers.

(** ** The renderer *)

Module Renderer.
Import Handlers.

(** The cross mark U+274C that starts the error texts, as its three bytes in
    UTF-8, and the line feed. *)
Definition cross_mark : string :=
  String "226"%char (String "157"%char (String "140"%char EmptyString)).

Definition line_feed : string := String "010"%char EmptyString.

Definition set_isSubmitting (b : bool) (w : world) : world :=
  set_ui b (screen w) (error_message w) (alerts w) w.

Definition set_screen (s : string) (w : world) : world :=
  set_ui (isSubmitting w) s (error_message w) (alerts w) w.

Definition set_error_message (m : string) (w : world) : world :=
  set_ui (isSubmitting w) (screen w) m (alerts w) w.

Definition alert (m : string) : M unit :=
  modify (fun w => set_ui (isSubmitting w) (screen w) (error_message w)
                          (m :: alerts w) w).

(** [enableLinkCodeInput]: the form is reset and [isSubmitting] cleared. *)
Definition enableLinkCodeInput : M unit := modify (set_isSubmitting false).

Definition showScreen (screenId : string) : M unit :=
  modify (set_screen screenId) ;;;
  if String.eqb screenId "screen-enter-code" then enableLinkCodeInput
  else ret tt.

(** [String(v)], the message of [new Error(v)]. *)
Fixpoint to_string (v : Js.value) : string :=
  match v with
  | Js.Undefined => "undefined"
  | Js.Null => "null"
  | Js.Bool true => "true"
  | Js.Bool false => "false"
  | Js.Num n => DecimalString.NilZero.string_of_int (Z.to_int n)
  | Js.Str s => s
  | Js.Arr items =>
      (fix join (l : list Js.value) : string :=
         match l with
         | [] => EmptyString
         | x :: l' =>
             let sx := if Js.nullish x then EmptyString else to_string x in
             match l' with
             | [] => sx
             | _ => (sx ++ "," ++ join l')%string
             end
         end) items
  | Js.Obj _ => "[object Object]"
  end.

Definition new_Error (v : Js.value) : error := Error (to_string v) None.

(** [models.length === 0]. *)
Definition length_is_zero (v : Js.value) : bool :=
  match v with
  | Js.Arr [] => true
  | Js.Obj fields =>
      match Js.lookup "length" fields with
      | Some (Js.Num 0) => true
      | _ => false
      end
  | _ => false
  end.

(** [displayModelsList]: besides the page, it asks for the loaded models and
    reads each model. *)
Definition displayModelsList (models : Js.value) : M unit :=
  if negb (Js.truthy models) || length_is_zero models then ret tt
  else
    try_catch (check_loaded_models ;;; ret tt) (fun _ => ret tt) ;;;
    match models with
    | Js.Arr items =>
        if existsb Js.nullish items
        then type_error "Cannot read properties of null (reading 'name')"
        else ret tt
    | _ => type_error "models.forEach is not a function"
    end.

Definition loadSystemInfo : M unit :=
  try_catch (get_system_info ;;; ret tt) (fun _ => ret tt).

Definition ollama_missing : string :=
  cross_mark ++ " Ollama is not running" ++ line_feed ++ line_feed
  ++ "Please start Ollama on localhost:11434 first." ++ line_feed ++ line_feed
  ++ "Run: ollama serve".

(** [waitForOllama]: thirty attempts, one second apart. *)
Fixpoint waitForOllama_from (attempts_left : nat) : M bool :=
  match attempts_left with
  | O =>
      modify (set_error_message ollama_missing) ;;;
      showScreen "screen-error" ;;;
      ret false
  | S n =>
      ready <- try_catch
                 (result <- check_ollama ;;
                  if Js.truthy (Js.prop result "success") then
                    displayModelsList
                      (Js.or_else (Js.prop result "models") (Js.Arr [])) ;;;
                    loadSystemInfo ;;;
                    showScreen "screen-enter-code" ;;;
                    enableLinkCodeInput ;;;
                    ret true
                  else ret false)
                 (fun _ => ret false) ;;
      if ready then ret true else waitForOllama_from n
  end.

Definition waitForOllama : M bool := waitForOllama_from 30.

(** The object saved by [submitLinkCode]. *)
Definition saved_record (data : Js.value) (code timestamp : string) : Js.value :=
  let dash := Js.Str "-" in
  Js.Obj [("os", Js.or_else (Js.prop data "os") dash);
          ("device", Js.or_else (Js.prop data "device") dash);
          ("models", Js.or_else (Js.prop data "models") (Js.Arr []));
          ("url", Js.or_else (Js.prop data "url") dash);
          ("nvidiaDriver", Js.or_else (Js.prop data "nvidiaDriver") dash);
          ("cudaVersion", Js.or_else (Js.prop data "cudaVersion") dash);
          ("userId", Js.or_else (Js.prop data "userId") (Js.Str code));
          ("serverId", Js.prop data "serverId");
          ("username", Js.prop data "username");
          ("registered", Js.Bool true);
          ("timestamp", Js.Str timestamp)].

(** [!code || code.length !== 6] on the trimmed, upper-cased input; the
    length is that of JavaScript for ASCII strings. *)
Definition valid_code (code : string) : bool :=
  JsString.nonempty code && (String.length code =? 6)%nat.

(** [catch (error) { ... showScreen('screen-error') }]: the text shown is the
    cross mark, a space and [error.message]. *)
Definition show_failure (e : error) : M unit :=
  modify (set_error_message (cross_mark ++ " " ++ message e)) ;;;
  showScreen "screen-error".

(** [registerResult.success && registerResult.data.registered]. *)
Definition confirmed (registerResult : Js.value) : M bool :=
  if Js.truthy (Js.prop registerResult "success") then
    registered <- getp (Js.prop registerResult "data") "registered" ;;
    ret (Js.truthy registered)
  else ret false.

Definition submitLinkCode (input : string) : M unit :=
  busy <- gets isSubmitting ;;
  if busy then ret tt
  else
    let code := JsString.toUpperCase (JsString.trim input) in
    if negb (valid_code code)
    then alert "Please enter a valid 6-character link code"
    else
      modify (set_isSubmitting true) ;;;
      finally
        (try_catch
           (registerResult <- register_server code ;;
            ok <- confirmed registerResult ;;
            if ok then
              timestamp <- gets now ;;
              save_registration
                (saved_record (Js.prop registerResult "data") code timestamp) ;;;
              showScreen "screen-success"
            else
              throw (new_Error
                       (Js.or_else
                          (Js.prop registerResult "error")
                          (Js.Str "Registration failed - server did not confirm"))))
           show_failure)
        (set_isSubmitting false).

(** The object saved by [registerWithCode]. *)
Definition saved_record_old (data osInfo deviceInfo modelInfo : Js.value)
    (timestamp : string) : Js.value :=
  let dash := Js.Str "-" in
  Js.Obj [("os", Js.or_else (Js.or_else (Js.prop data "os") osInfo) dash);
          ("device", Js.or_else (Js.or_else (Js.prop data "device") deviceInfo) dash);
          ("model", Js.or_else (Js.or_else (Js.prop data "model") modelInfo) dash);
          ("url", Js.or_else (Js.prop data "url") dash);
          ("nvidiaDriver", Js.or_else (Js.prop data "nvidiaDriver") dash);
          ("cudaVersion", Js.or_else (Js.prop data "cudaVersion") dash);
          ("userId", Js.prop data "userId");
          ("timestamp", Js.Str timestamp)].

Definition registerWithCode (code : string) (osInfo deviceInfo modelInfo : Js.value)
  : M unit :=
  busy <- gets isSubmitting ;;
  if busy then ret tt
  else
    let linkCode := JsString.toUpperCase (JsString.trim code) in
    if negb (valid_code linkCode)
    then alert "Please enter a valid 6-character link code"
    else
      modify (set_isSubmitting true) ;;;
      finally
        (try_catch
           (registerResult <- register_server linkCode ;;
            if Js.truthy (Js.prop registerResult "success") then
              data <- getp registerResult "data" ;;
              getp data "os" ;;; (* the first read of registerResult.data *)
              timestamp <- gets now ;;
              save_registration
                (saved_record_old data osInfo deviceInfo modelInfo timestamp) ;;;
              showScreen "screen-success"
            else throw (new_Error (Js.prop registerResult "error")))
           show_failure)
        (set_isSubmitting false).

(** [checkServicesStatus], every five seconds. *)
Definition checkServicesStatus : M unit :=
  check_ollama ;;; check_cloudflared ;;; ret tt.

(** [unlinkServer]: the registration file is cleared and the flow restarts. *)
Definition unlinkServer : M unit :=
  save_registration Js.Null ;;;
  modify (set_isSubmitting false) ;;;
  showScreen "screen-check-ollama" ;;;
  waitForOllama ;;;
  enableLinkCodeInput.

End Renderer.

(** ** The application as a transition system *)

(** What can happen to the running application: the events of the main
    process, a call of an IPC handler, a function of the renderer, and a change
    of the outside world. *)
Inductive action : Type :=
| AppReady (available : bool) (ticks : list (list chunk_event))
| MonitorTick (available : bool) (ticks : list (list chunk_event))
| InvokeRegisterServer (linkCode : string)
| InvokeSaveRegistration (data : Js.value)
| InvokeLoadRegistration
| InvokeCheckOllama
| InvokeCheckLoadedModels
| InvokeCheckCloudflared
| InvokeGetTunnelUrl
| InvokeGetSystemInfo
| UiSubmitLinkCode (input : string)
| UiRegisterWithCode (code : string) (osInfo deviceInfo modelInfo : Js.value)
| UiCheckServicesStatus
| UiWaitForOllama
| UiUnlinkServer
| Outside (sys : option sys_info) (time : string) (fault : bool)
          (metrics tags ps register : list http_result).

Definition set_outside (sys : option sys_info) (time : string) (fault : bool)
    (metrics tags ps register : list http_result) (w : world) : world :=
  World (WHISTANT_SERVER_URL w) (OLLAMA_SERVER_URL w) sys time fault
    (registration_json w) (detectedTunnelUrl w) (cloudflaredProcess w)
    metrics tags ps register (http_log w)
    (warnings w) (isSubmitting w) (screen w) (error_message w) (alerts w)
    (mainWindow w).

Definition exec {A} (c : M A) (w : world) : world := snd (c w).

Definition step (a : action) (w : world) : world :=
  match a with
  | AppReady available ticks => exec (Main.on_ready available ticks) w
  | MonitorTick available ticks => exec (Main.monitorServices available ticks) w
  | InvokeRegisterServer linkCode => exec (Handlers.register_server linkCode) w
  | InvokeSaveRegistration data => exec (Handlers.save_registration data) w
  | InvokeLoadRegistration => exec Handlers.load_registration w
  | InvokeCheckOllama => exec Handlers.check_ollama w
  | InvokeCheckLoadedModels => exec Handlers.check_loaded_models w
  | InvokeCheckCloudflared => exec Handlers.check_cloudflared w
  | InvokeGetTunnelUrl => exec Handlers.get_tunnel_url w
  | InvokeGetSystemInfo => exec Handlers.get_system_info w
  | UiSubmitLinkCode input => exec (Renderer.submitLinkCode input) w
  | UiRegisterWithCode code o d m => exec (Renderer.registerWithCode code o d m) w
  | UiCheckServicesStatus => exec Renderer.checkServicesStatus w
  | UiWaitForOllama => exec Renderer.waitForOllama w
  | UiUnlinkServer => exec Renderer.unlinkServer w
  | Outside sys time fault m t p g => set_outside sys time fault m t p g w
  end.

Definition run (actions : list action) (w : world) : world :=
  fold_left (fun w a => step a w) actions w.

(** The renderer is the only caller of [save-registration]: the actions of the
    application proper leave out a direct call of that handler with data of
    any shape. *)
Definition app_action (a : action) : bool :=
  match a with
  | InvokeSaveRegistration _ => false
  | _ => true
  end.

(** The world when the main process starts: nothing cached, no subprocess, no
    window, nothing logged; the registration file is what an earlier run
    left. *)
Definition boot (w : world) : world :=
  World (WHISTANT_SERVER_URL w) (OLLAMA_SERVER_URL w) (system w) (now w)
    (read_fault w) (registration_json w) None false
    (metrics_feed w) (tags_feed w) (ps_feed w) (register_feed w) []
    [] false "screen-check-ollama" EmptyString [] false.

(** ** Properties named by the specification *)

(** The texts a pattern denotes. *)
Inductive denotes : Regex.regex -> string -> Prop :=
| den_nil : denotes [] EmptyString
| den_lit c r m : denotes r m -> denotes (Regex.Lit c :: r) (String c m)
| den_plus cls r run m :
    run <> EmptyString ->
    (forall c, In c (list_ascii_of_string run) -> cls c = true) ->
    denotes r m ->
    denotes (Regex.Plus cls :: r) (run ++ m)%string.

(** [https://<label>.trycloudflare.com], the label a non-empty word of
    lowercase letters, digits and hyphens. *)
Definition is_tunnel_url (u : string) : Prop :=
  exists label : string,
    label <> EmptyString /\
    (forall c, In c (list_ascii_of_string label) -> Regex.label_char c = true) /\
    u = ("https://" ++ label ++ ".trycloudflare.com")%string.

Definition cached_url_ok (o : option string) : Prop :=
  match o with
  | None => True
  | Some u => is_tunnel_url u
  end.

(** The match of the first chunk, in order of arrival, that holds a URL. *)
Fixpoint first_match (evs : list chunk_event) : option string :=
  match evs with
  | [] => None
  | (_, output) :: rest =>
      match Regex.match_tunnel_url output with
      | Some u => Some u
      | None => first_match rest
      end
  end.

(** What one metrics answer makes [getCloudflaredUrl] return. *)
Definition probe_answer (r : http_result) : option string :=
  match r with
  | Resolved (Js.Str s) => Main.first_url (JsString.split_lines s)
  | _ => None
  end.

(** A value that is a non-empty string. *)
Definition nonempty_string (v : Js.value) : Prop :=
  exists s, v = Js.Str s /\ s <> EmptyString.

(** The invariant of the Registration Record as the specification words it. *)
Definition record_invariant (rec : Js.value) : Prop :=
  Js.prop rec "registered" = Js.Bool true ->
  nonempty_string (Js.prop rec "serverId") /\ nonempty_string (Js.prop rec "url").

(** The part of it that every writer of the file keeps. *)
Definition record_url_invariant (rec : Js.value) : Prop :=
  Js.prop rec "registered" = Js.Bool true ->
  nonempty_string (Js.prop rec "url").

(** Reading the registration file fails although the file exists: an I/O
    error, or a text that does not parse. *)
Definition reading_fails (w : world) : Prop :=
  exists t, registration_json w = Fs.File t /\
            (read_fault w = true \/ exists raw, t = Fs.BadText raw).

(** What the next [load()] sees when the file is [f]. *)
Definition seen_by_load (f : Fs.file) (w : world) : outcome Js.value :=
  fst (Handlers.load_registration (set_registration_json f w)).

(** Atomicity of [save(data)] as the specification words it: wherever the
    process stops during the save, the next [load()] sees the record of
    before or the record saved. *)
Definition atomic_save (data : Js.value) (w : world) : Prop :=
  forall f,
    In f (Handlers.save_crash_states data (registration_json w)) ->
    seen_by_load f w = seen_by_load (registration_json w) w \/
    seen_by_load f w
      = seen_by_load (registration_json (exec (Handlers.save_registration data) w)) w.

Definition file_holds (P : Js.value -> Prop) (f : Fs.file) : Prop :=
  match f with
  | Fs.File (Fs.JsonText rec) => P rec
  | _ => True
  end.

(** ** Notions used in the proofs *)

(** The value a computation returned, [undefined] when it threw. *)
Definition fst_value (r : outcome Js.value * world) : Js.value :=
  match fst r with
  | Ret v => v
  | Throw _ => Js.Undefined
  end.

(** A computation that leaves the world alone. *)
Definition pure {A} (c : M A) : Prop := forall w, snd (c w) = w.

(** A computation that leaves the part [f] of the world alone. *)
Definition keeps {X A} (f : world -> X) (c : M A) : Prop :=
  forall w, f (snd (c w)) = f w.

(** A computation that keeps the invariant [I] of the world. *)
Definition preserves (I : world -> Prop) {A} (c : M A) : Prop :=
  forall w, I w -> I (snd (c w)).

(** The values a computation can return. *)
Definition yields {A} (c : M A) (Q : A -> Prop) : Prop :=
  forall w a, fst (c w) = Ret a -> Q a.

Definition cache_ok (w : world) : Prop := cached_url_ok (detectedTunnelUrl w).

Definition file_ok (w : world) : Prop :=
  file_holds record_url_invariant (registration_json w).

(** The two shapes of what [register-server] returns. *)
Definition register_result (r : Js.value) : Prop :=
  (exists err, r = Handlers.failure err) \/
  (exists s data url ms,
     r = Js.Obj [("success", Js.Bool true);
                 ("data", Handlers.registered_data s data url ms)]).

(** ** Sample worlds *)

Module Sample.

Definition machine : sys_info :=
  SysInfo "devbox" "linux" "6.1.0" "x64" 3600
    (Js.Obj [("cpu", Js.Str "8x Ryzen"); ("gpu", Js.Str "RTX 4090 (24564 MiB)");
             ("memory", Js.Str "31.25 GB"); ("nvidiaDriver", Js.Str "550.54");
             ("cudaVersion", Js.Str "12.4")])
    (Js.Obj [("driver", Js.Str "550.54"); ("cuda", Js.Str "12.4");
             ("name", Js.Str "RTX 4090"); ("memory", Js.Str "24564 MiB");
             ("available", Js.Bool true)])
    (Js.Obj [("name", Js.Str "No AMD GPU detected"); ("available", Js.Bool false)])
    (Js.Obj [("name", Js.Str "Not a Mac"); ("available", Js.Bool false)])
    "nvidia".

(** A fresh installation with its window open: no registration file, no
    answer from the network. *)
Definition fresh : world :=
  World "https://whisolla.com:2087" "http://localhost:11434" (Some machine)
    "2025-01-01T00:00:00.000Z" false Fs.NoFile None false
    [] [] [] [] [] [] false "screen-enter-code" EmptyString [] true.

Definition old_url : string := "https://abc123.trycloudflare.com".
Definition new_url : string := "https://xyz789.trycloudflare.com".

(** A record as [submitLinkCode] saves it. *)
Definition record : Js.value :=
  Js.Obj [("os", Js.Str "linux 6.1.0"); ("device", Js.Str "devbox");
          ("models", Js.Arr [Js.Str "gpt-oss:20b"]); ("url", Js.Str old_url);
          ("nvidiaDriver", Js.Str "550.54"); ("cudaVersion", Js.Str "12.4");
          ("userId", Js.Str "u-17"); ("serverId", Js.Str "SRV-9F");
          ("username", Js.Str "ada"); ("registered", Js.Bool true);
          ("timestamp", Js.Str "2025-01-01T00:00:00.000Z")].

Definition tags : http_result :=
  Resolved (Js.Obj [("models", Js.Arr [Js.Obj [("name", Js.Str "gpt-oss:20b")]])]).

(** A registered installation whose server answers the next update. *)
Definition registered : world :=
  set_outside (Some machine) "2025-01-02T00:00:00.000Z" false
    [] [tags] []
    [Resolved (Js.Obj [("code", Js.Str "SERVER_REGISTER_SUCCESS")])]
    (set_registration_json (Fs.File (Fs.JsonText record)) fresh).

(** The record after a URL update. *)
Definition record' : Js.value := Main.set_url record new_url.

(** An installation whose registration file does not parse. *)
Definition corrupted : world :=
  set_registration_json (Fs.File (Fs.BadText "{")) fresh.

(** The output of a tunnel subprocess that logs three URLs: two in the
    second half second, one later. *)
Definition output : list (list chunk_event) :=
  [[(Stderr, "INF Requesting new quick Tunnel on trycloudflare.com...")];
   [(Stderr, "INF |  https://first-one.trycloudflare.com  |");
    (Stdout, "retry: https://second-2.trycloudflare.com")];
   [];
   [(Stderr, "INF Registered https://third.trycloudflare.com")]].

(** The metrics page of a running tunnel. *)
Definition metrics_text : string :=
  "# cloudflared metrics"
  ++ String "010"%char
       ("userHostname=https://abc123.trycloudflare.com 1"
        ++ String "010"%char "build_info 1").

(** A fresh installation next to a tunnel that was started by hand. *)
Definition tunnelled : world :=
  set_outside (Some machine) "2025-01-02T00:00:00.000Z" false
    [Resolved (Js.Str metrics_text)] [tags] [] [] fresh.

(** A fresh installation whose server answers the registration without
    confirming it. *)
Definition rejecting : world :=
  set_outside (Some machine) "2025-01-02T00:00:00.000Z" false
    [] [tags] []
    [Resolved (Js.Obj [("code", Js.Str "LINK_CODE_EXPIRED")])]
    fresh.

Definition confirmation : list (string * Js.value) :=
  [("code", Js.Str "SERVER_REGISTER_SUCCESS"); ("userId", Js.Str "u-17");
   ("serverId", Js.Str "SRV-9F"); ("username", Js.Str "ada")].

(** A fresh installation without tunnel whose server confirms the
    registration. *)
Definition confirming : world :=
  set_outside (Some machine) "2025-01-02T00:00:00.000Z" false
    [] [tags] [] [Resolved (Js.Obj confirmation)] fresh.

(** A fresh installation whose server confirms the registration with the
    success code alone. *)
Definition bare : world :=
  set_outside (Some machine) "2025-01-02T00:00:00.000Z" false
    [] [tags] []
    [Resolved (Js.Obj [("code", Js.Str "SERVER_REGISTER_SUCCESS")])]
    fresh.

End Sample.

(** ** The rest of the main process *)

(** *** Configuration *)

Module Config.

(** [process.env] and the parsed content of a [.env] file: variables with
    their values, each variable once. *)
Definition env : Type := list (string * string).

Fixpoint env_get (k : string) (e : env) : option string :=
  match e with
  | [] => None
  | (k', v) :: rest => if String.eqb k k' then Some v else env_get k rest
  end.

(** [dotenv.config({ path })] on a file that parses to [parsed]: a variable is
    set only when [process.env] does not have it yet. *)
Fixpoint dotenv_config (parsed : env) (e : env) : env :=
  match parsed with
  | [] => e
  | (k, v) :: rest =>
      match env_get k e with
      | Some _ => dotenv_config rest e
      | None => dotenv_config rest (e ++ [(k, v)])
      end
  end.

(** [loadEnv]: the [.env] file of the working directory, else the one of
    [~/.whistant_local], else the one of the [userData] directory; [None] is a
    file that does not exist.  The first file found is the only one read. *)
Definition loadEnv (cwdEnv homeEnv userDataEnv : option env) (e : env) : env :=
  match cwdEnv with
  | Some parsed => dotenv_config parsed e
  | None =>
      match homeEnv with
      | Some parsed => dotenv_config parsed e
      | None =>
          match userDataEnv with
          | Some parsed => dotenv_config parsed e
          | None => e
          end
      end
  end.

Definition hardcoded : list (string * Js.value) :=
  [("WHISTANT_SERVER_URL", Js.Str "https://whisolla.com:2087");
   ("OLLAMA_SERVER_URL", Js.Str "http://localhost:11434")].

(** [{ ...DEFAULTS, ...parsed }] for a parsed object: each property of
    [parsed] is assigned in turn. *)
Definition spread (base over : list (string * Js.value))
  : list (string * Js.value) :=
  fold_left (fun acc kv => Js.assign (fst kv) (snd kv) acc) over base.

(** [DEFAULTS] after the [try] block that reads [config/defaults.json]: a
    missing file and a file that does not parse leave the built-in values; a
    parsed value that is not an object has none of the two properties to
    spread. *)
Definition DEFAULTS (defaults_json : Fs.file) : list (string * Js.value) :=
  match defaults_json with
  | Fs.File (Fs.JsonText (Js.Obj fields)) => spread hardcoded fields
  | _ => hardcoded
  end.

Definition env_value (k : string) (e : env) : Js.value :=
  match env_get k e with
  | Some s => Js.Str s
  | None => Js.Undefined
  end.

(** [process.env.K || DEFAULTS.K], after [loadEnv()]. *)
Definition resolve (k : string) (cwdEnv homeEnv userDataEnv : option env)
    (defaults_json : Fs.file) (e : env) : Js.value :=
  Js.or_else (env_value k (loadEnv cwdEnv homeEnv userDataEnv e))
             (Js.prop (Js.Obj (DEFAULTS defaults_json)) k).

End Config.

(** *** The path of the tunnel binary *)

Module Paths.

(** [s.replace(pat, rep)] for a string pattern: the first occurrence. *)
Fixpoint replace_first (pat rep s : string) : string :=
  if prefix pat s then (rep ++ substring (String.length pat)
                                         (String.length s - String.length pat) s)%string
  else
    match s with
    | EmptyString => EmptyString
    | String c s' => String c (replace_first pat rep s')
    end.

Definition platformDir (platform arch : string) : option string :=
  if String.eqb platform "darwin" then
    Some (if String.eqb arch "arm64" then "darwin-arm64" else "darwin-x64")
  else if String.eqb platform "linux" then Some "linux-x64"
  else if String.eqb platform "win32" then Some "win32-x64"
  else None.

Definition exeName (platform : string) : string :=
  if String.eqb platform "win32" then "cloudflared.exe" else "cloudflared".

(** The development path, moved to [app.asar.unpacked] when [__dirname] is
    inside the archive. *)
Definition devPath (join : list string -> string) (dirname dir exe : string)
  : string :=
  let p := join [dirname; "bin"; dir; exe] in
  if JsString.includes "app.asar" dirname
     && negb (JsString.includes "app.asar.unpacked" dirname)
  then replace_first "app.asar" "app.asar.unpacked" p
  else p.

(** [getCloudflaredPath]; [existsSync] and [path.join] are those of the
    machine. *)
Definition getCloudflaredPath (existsSync : string -> bool)
    (join : list string -> string)
    (platform arch resourcesPath dirname : string) : string :=
  match platformDir platform arch with
  | Some dir =>
      let exe := exeName platform in
      let prodPath := join [resourcesPath; "app.asar.unpacked"; "bin"; dir; exe] in
      if existsSync prodPath then prodPath
      else
        let dev := devPath join dirname dir exe in
        if existsSync dev then dev
        else
          let prodPath2 := join [resourcesPath; "bin"; dir; exe] in
          if existsSync prodPath2 then prodPath2
          else
            let macPath := join [resourcesPath; "app"; "bin"; dir; exe] in
            if String.eqb platform "darwin" && existsSync macPath then macPath
            else "cloudflared"
  | None => "cloudflared"
  end.

(** The paths [getCloudflaredPath] tries, in its order. *)
Definition candidates (join : list string -> string)
    (platform arch resourcesPath dirname : string) : list string :=
  match platformDir platform arch with
  | Some dir =>
      let exe := exeName platform in
      [join [resourcesPath; "app.asar.unpacked"; "bin"; dir; exe];
       devPath join dirname dir exe;
       join [resourcesPath; "bin"; dir; exe]]
      ++ (if String.eqb platform "darwin"
          then [join [resourcesPath; "app"; "bin"; dir; exe]] else [])
  | None => []
  end.

End Paths.

(** *** Linking files *)

Module Linking.

(** The files of the machine, by path. *)
Definition files : Type := string -> Fs.file.

(** [`linking-${code}.json`]. *)
Definition fileName (code : string) : string :=
  ("linking-" ++ code ++ ".json")%string.

(** [path.join(app.getPath('userData'), `linking-${code}.json`)]; [path.join]
    is that of the machine: it normalises the path it builds, so that two
    codes can name one file. *)
Definition linkingPath (join : list string -> string) (userData code : string)
  : string :=
  join [userData; fileName code].

Definition write (path : string) (f : Fs.file) (fs : files) : files :=
  fun p => if String.eqb p path then f else fs p.

(** [ipcMain.handle('poll-linking-status', ...)]: the file is deleted after it
    was read and parsed. *)
Definition poll_linking_status (join : list string -> string)
    (userData code : string) (fs : files) : Js.value * files :=
  let path := linkingPath join userData code in
  match fs path with
  | Fs.File t =>
      match t with
      | Fs.JsonText data =>
          (Js.Obj [("success", Js.Bool true); ("linked", Js.Bool true);
                   ("data", data)],
           write path Fs.NoFile fs)
      | Fs.BadText _ =>
          (Handlers.failure (Js.Str "Unexpected end of JSON input"), fs)
      end
  | Fs.NoFile =>
      (Js.Obj [("success", Js.Bool true); ("linked", Js.Bool false)], fs)
  end.

End Linking.

(** *** Leaving the application *)

Module Exit.

(** What [mainWindow.on('close')], [app.on('window-all-closed')] and
    [app.on('will-quit')] do to the tunnel:
    [if (cloudflaredProcess) { cloudflaredProcess.kill(); cloudflaredProcess = null }],
    inside a [try] whose [catch] is empty or only logs.  [app.quit()], which the
    first two call on some platforms, leads to ['will-quit']. *)
Definition release_tunnel : M unit :=
  try_catch
    (running <- gets cloudflaredProcess ;;
     if running then modify (set_cloudflaredProcess false) else ret tt)
    (fun _ => ret tt).

Definition on_close : M unit := release_tunnel.
Definition on_window_all_closed : M unit := release_tunnel.
Definition on_will_quit : M unit := release_tunnel.

(** [mainWindow.on('closed', ...)], which follows ['close']. *)
Definition on_closed : M unit := modify (set_mainWindow false).

(** [app.on('activate', ...)]: a window is created when there is none. *)
Definition on_activate : M unit :=
  window <- gets mainWindow ;;
  if window then ret tt else Main.createWindow.

(** The tunnel subprocesses: the one [cloudflaredProcess] refers to, those
    that run, the number of those spawned so far. *)
Record procs : Type := Procs {
  handle : option nat;
  alive : list nat;
  spawned : nat
}.

Definition no_procs : procs := Procs None [] 0.

(** [cloudflaredProcess = spawn(...)]. *)
Definition spawn (p : procs) : procs :=
  Procs (Some (spawned p)) (spawned p :: alive p) (S (spawned p)).

Definition stop (pid : nat) (p : procs) : procs :=
  Procs (handle p) (filter (fun x => negb (Nat.eqb x pid)) (alive p)) (spawned p).

(** [if (cloudflaredProcess) { cloudflaredProcess.kill() }]. *)
Definition kill_handle (p : procs) : procs :=
  match handle p with
  | Some pid => stop pid p
  | None => p
  end.

(** [if (cloudflaredProcess) { cloudflaredProcess.kill(); cloudflaredProcess = null }]. *)
Definition release (p : procs) : procs :=
  match handle p with
  | Some pid => Procs None (alive (stop pid p)) (spawned p)
  | None => p
  end.

(** What happens to the application: an action, one of the three ways out,
    the end of a subprocess by itself, or the activation of the application
    (macOS). *)
Inductive event : Type :=
| Do (a : action)
| WindowClose
| WindowAllClosed
| WillQuit
| ChildExit (pid : nat)
| Activate.

Definition world_step (e : event) (w : world) : world :=
  match e with
  | Do a => step a w
  | WindowClose => exec on_closed (exec on_close w)
  | WindowAllClosed => exec on_window_all_closed w
  | WillQuit => exec on_will_quit w
  | ChildExit _ => w
  | Activate => exec on_activate w
  end.

(** The subprocesses along an event: [startCloudflaredTunnel] spawns when the
    binary is available; [monitorServices] kills and restarts when its probe
    finds no tunnel. *)
Definition procs_step (e : event) (w : world) (p : procs) : procs :=
  match e with
  | Do (AppReady available _) => if available then spawn p else p
  | Do (MonitorTick available _) =>
      if Main.truthy_url (probe_answer (hd refused (metrics_feed w))) then p
      else if available then spawn (kill_handle p) else kill_handle p
  | Do _ => p
  | WindowClose | WindowAllClosed | WillQuit => release p
  | ChildExit pid => stop pid p
  | Activate => p
  end.

Definition both_step (s : world * procs) (e : event) : world * procs :=
  (world_step e (fst s), procs_step e (fst s) (snd s)).

Definition both_run (events : list event) (s : world * procs) : world * procs :=
  fold_left both_step events s.

(** ['ready'] fires once: the events that follow it hold no second one. *)
Definition not_ready (e : event) : bool :=
  match e with
  | Do (AppReady _ _) => false
  | _ => true
  end.

Definition is_exit (e : event) : bool :=
  match e with
  | WindowClose | WindowAllClosed | WillQuit => true
  | _ => false
  end.

End Exit.

(** ** The rest of the renderer *)

Module Page.
Import Handlers Renderer.

Definition ollama_stopped : string :=
  cross_mark ++ " Ollama is not running" ++ line_feed ++ line_feed
  ++ "Please start Ollama on localhost:11434 first.".

(** [checkOllamaStatus]. *)
Definition checkOllamaStatus : M bool :=
  result <- check_ollama ;;
  if negb (Js.truthy (Js.prop result "success")) then
    modify (set_error_message ollama_stopped) ;;;
    showScreen "screen-error" ;;;
    ret false
  else ret true.

(** [resetApp]. *)
Definition resetApp : M unit :=
  modify (set_isSubmitting false) ;;;
  currentScreen <- gets screen ;;
  if String.eqb currentScreen "screen-success" then ret tt
  else
    showScreen "screen-check-ollama" ;;;
    waitForOllama ;;;
    ret tt.

(** [startStatusMonitoring]: [checkServicesStatus] at once, and then every
    five seconds (the action [UiCheckServicesStatus]).  The first check is
    started before the listener goes on; like every asynchronous function it
    is run to completion here. *)
Definition startStatusMonitoring : M unit := checkServicesStatus.

(** The rest of the ['DOMContentLoaded'] listener:
    [registration && registration.registered] decides the first screen. *)
Definition first_screen : M unit :=
  registration <- load_registration ;;
  if Js.truthy registration && Js.truthy (Js.prop registration "registered")
  then showScreen "screen-success"
  else
    showScreen "screen-check-ollama" ;;;
    waitForOllama ;;;
    ret tt.

(** The ['DOMContentLoaded'] listener. *)
Definition page_load : M unit :=
  startStatusMonitoring ;;;
  first_screen.

End Page.

(** ** Further notions used in the proofs *)

(** The registration calls among HTTP requests. *)
Definition is_post (r : request) : bool :=
  match r with
  | PostRegister _ => true
  | _ => false
  end.

Definition posts (log : list request) : list request := filter is_post log.

(** A computation that returns in every world, with a value in [Q]. *)
Definition resolves {A} (c : M A) (Q : A -> Prop) : Prop :=
  forall w, exists a, fst (c w) = Ret a /\ Q a.

(** An answer of an IPC handler that carries the boolean [success]. *)
Definition flagged (v : Js.value) : Prop :=
  exists b, Js.prop v "success" = Js.Bool b.

(** The tunnel subprocesses are in order: at most one runs, the one that
    runs is the one [cloudflaredProcess] refers to, and the variable of the
    world is set exactly when it refers to a subprocess. *)
Definition tidy (s : world * Exit.procs) : Prop :=
  (Exit.alive (snd s) = [] \/
   exists pid, Exit.handle (snd s) = Some pid /\ Exit.alive (snd s) = [pid]) /\
  (cloudflaredProcess (fst s) = true <-> Exit.handle (snd s) <> None).

(** An answer of [/api/tags] that makes [check-ollama] report a failure: a
    rejection, or a body without properties to read. *)
Definition tags_down (r : http_result) : bool :=
  match r with
  | Resolved data => Js.nullish data
  | Rejected _ => true
  end.

(** The record [page_load] takes for a registration. *)
Definition shows_registered (w : world) : bool :=
  match registration_json w with
  | Fs.File (Fs.JsonText rec) =>
      negb (read_fault w) && Js.truthy rec
      && Js.truthy (Js.prop rec "registered")
  | _ => false
  end.

(** The tunnel URL is known. *)
Definition cache_set (w : world) : Prop :=
  Main.truthy_url (detectedTunnelUrl w) = true.

(** A word of lowercase letters, digits and hyphens. *)
Definition label_word (label : string) : Prop :=
  forall c, In c (list_ascii_of_string label) -> Regex.label_char c = true.

(** More sample worlds. *)
Module Sample2.

(** A registered installation whose server refuses the next update. *)
Definition refusing : world :=
  set_outside (Some Sample.machine) "2025-01-02T00:00:00.000Z" false
    [] [Sample.tags] []
    [Rejected (Error "Request failed with status code 400"
                 (Some (Js.Obj [("error", Js.Str "Unknown server")])))]
    (set_registration_json (Fs.File (Fs.JsonText Sample.record)) Sample.fresh).

(** A fresh installation whose server rejects the link code. *)
Definition expired : world :=
  set_outside (Some Sample.machine) "2025-01-02T00:00:00.000Z" false
    [] [Sample.tags] []
    [Rejected (Error "Request failed with status code 410"
                 (Some (Js.Obj [("error", Js.Str "Link code expired")])))]
    Sample.fresh.

(** A fresh installation that already knows its tunnel. *)
Definition cached : world :=
  set_detectedTunnelUrl (Some Sample.old_url) Sample.confirming.

(** [path.join] on a POSIX machine, for paths that need no normalisation. *)
Definition join (parts : list string) : string := String.concat "/" parts.

Definition bundled : string :=
  "/opt/Whistant/resources/app.asar.unpacked/bin/linux-x64/cloudflared".

Definition userData : string := "/home/ada/.config/whistant".

Definition linking : Linking.files :=
  fun p =>
    if String.eqb p "/home/ada/.config/whistant/linking-ABC123.json"
    then Fs.File (Fs.JsonText (Js.Obj [("userId", Js.Str "u-17")]))
    else if String.eqb p "/home/ada/.config/whistant/linking-BROKEN.json"
    then Fs.File (Fs.BadText "{")
    else Fs.NoFile.

End Sample2.

(** * Proofs *)

(** ** The tunnel URL pattern *)

Section RegexFacts.
Import Regex.

Lemma more_sound cls k t m :
  more cls k t = Some m ->
  exists run rest t',
    m = (run ++ rest)%string /\
    (forall c, In c (list_ascii_of_string run) -> cls c = true) /\
    k t' = Some rest.
Proof.
  revert m. induction t as [|c t IH]; intros m H; simpl in H.
  - exists EmptyString, m, EmptyString. simpl. intuition.
  - destruct (cls c) eqn:Hc.
    + destruct (more cls k t) as [m'|] eqn:Hm.
      * inversion H; subst m; clear H.
        destruct (IH m' eq_refl) as (run & rest & t' & -> & Hall & Hk).
        exists (String c run), rest, t'. simpl. repeat split; auto.
        intros c' [<-|Hin]; auto.
      * exists EmptyString, m, (String c t). simpl. intuition.
    + exists EmptyString, m, (String c t). simpl. intuition.
Qed.

Lemma match_here_sound r : forall s m, match_here r s = Some m -> denotes r m.
Proof.
  induction r as [|a r IH]; intros s m H; simpl in H.
  - inversion H. constructor.
  - destruct a as [c|cls].
    + destruct s as [|c' s]; [discriminate|].
      destruct (Ascii.eqb c c') eqn:E; [|discriminate].
      apply Ascii.eqb_eq in E; subst c'.
      destruct (match_here r s) as [m'|] eqn:Hm; [|discriminate].
      inversion H; subst. constructor. eauto.
    + destruct s as [|c s]; [discriminate|].
      destruct (cls c) eqn:Hc; [|discriminate].
      destruct (more cls (match_here r) s) as [m'|] eqn:Hm; [|discriminate].
      inversion H; subst m; clear H.
      destruct (more_sound _ _ _ _ Hm) as (run & rest & t' & -> & Hall & Hk).
      change (String c (run ++ rest)) with (String c run ++ rest)%string.
      constructor; [discriminate| |eauto].
      simpl. intros c' [<-|Hin]; auto.
Qed.

Lemma search_sound r : forall s m, search r s = Some m -> denotes r m.
Proof.
  induction s as [|c s IH]; intros m H; simpl in H.
  - destruct (match_here r EmptyString) eqn:E; [|discriminate].
    inversion H; subst. eapply match_here_sound; eauto.
  - destruct (match_here r (String c s)) eqn:E.
    + inversion H; subst. eapply match_here_sound; eauto.
    + auto.
Qed.

Lemma denotes_lits s : forall r m,
  denotes (lits s ++ r) m -> exists m', m = (s ++ m')%string /\ denotes r m'.
Proof.
  induction s as [|c s IH]; intros r m H; simpl in *.
  - eauto.
  - inversion H; subst.
    destruct (IH _ _ H3) as (m' & -> & Hd). eauto.
Qed.

Lemma match_tunnel_url_form s u :
  match_tunnel_url s = Some u -> is_tunnel_url u.
Proof.
  intros H. apply search_sound in H. unfold tunnel_re in H.
  apply denotes_lits in H. destruct H as (m1 & -> & H).
  cbn [app] in H.
  inversion H as [| |cls r' label m Hne Hall Hd]; subst; clear H.
  change (denotes (lits ".trycloudflare.com" ++ []) m) in Hd.
  apply denotes_lits in Hd. destruct Hd as (m2 & -> & Hd).
  inversion Hd; subst.
  exists label. repeat split; auto.
Qed.

End RegexFacts.

(** ** Computations that leave the world alone *)

Lemma pure_ret {A} (a : A) : pure (ret a).
Proof. intros w. reflexivity. Qed.

Lemma pure_throw {A} (e : error) : pure (@throw A e).
Proof. intros w. reflexivity. Qed.

Lemma pure_gets {A} (f : world -> A) : pure (gets f).
Proof. intros w. reflexivity. Qed.

Lemma pure_bind {A B} (c : M A) (k : A -> M B) :
  pure c -> (forall a, pure (k a)) -> pure (bind c k).
Proof.
  intros Hc Hk w. unfold bind. specialize (Hc w).
  destruct (c w) as [[a|e] w']; simpl in *; subst; auto. apply Hk.
Qed.

Lemma pure_try_catch {A} (c : M A) (h : error -> M A) :
  pure c -> (forall e, pure (h e)) -> pure (try_catch c h).
Proof.
  intros Hc Hh w. unfold try_catch. specialize (Hc w).
  destruct (c w) as [[a|e] w']; simpl in *; subst; auto. apply Hh.
Qed.

Lemma pure_getp v k : pure (getp v k).
Proof. unfold getp. destruct (Js.get v k); [apply pure_ret|apply pure_throw]. Qed.

Create HintDb pure.
#[local] Hint Resolve pure_ret pure_throw pure_gets pure_getp : pure.

Ltac pure_tac :=
  repeat first
    [ apply pure_bind; [|intros]
    | apply pure_try_catch; [|intros]
    | solve [auto with pure]
    | match goal with
      | |- pure (if ?b then _ else _) => destruct b
      | |- pure (match ?x with _ => _ end) => destruct x
      | |- pure (type_error _) => apply pure_throw
      end ].

Lemma pure_map_m {A B} (f : A -> M B) l :
  (forall a, pure (f a)) -> pure (Main.map_m f l).
Proof. intros Hf. induction l; simpl; pure_tac. Qed.

Lemma pure_names_of models : pure (Main.names_of models).
Proof.
  unfold Main.names_of. destruct models; try apply pure_throw.
  apply pure_map_m. intros; apply pure_getp.
Qed.
#[local] Hint Resolve pure_names_of : pure.

Lemma pure_model_names data : pure (Main.model_names data).
Proof. unfold Main.model_names. pure_tac. Qed.

Lemma pure_scan_metrics data : pure (Main.scan_metrics data).
Proof. unfold Main.scan_metrics. pure_tac. Qed.

Lemma pure_collectSystemInfo : pure Main.collectSystemInfo.
Proof. intros w. unfold Main.collectSystemInfo. destruct (system w); reflexivity. Qed.

Lemma pure_existsSync : pure Main.existsSync.
Proof. apply pure_gets. Qed.

Lemma pure_readFileSync : pure Main.readFileSync.
Proof.
  intros w. unfold Main.readFileSync.
  destruct (registration_json w); [|destruct (read_fault w)]; reflexivity.
Qed.

Lemma pure_JSON_parse t : pure (Main.JSON_parse t).
Proof. unfold Main.JSON_parse. pure_tac. Qed.

Lemma pure_toLowerCase_of v : pure (Main.toLowerCase_of v).
Proof. unfold Main.toLowerCase_of. pure_tac. Qed.

Lemma pure_unconfirmed data : pure (Handlers.unconfirmed data).
Proof. unfold Handlers.unconfirmed. pure_tac. Qed.

Lemma pure_confirmed r : pure (Renderer.confirmed r).
Proof. unfold Renderer.confirmed. pure_tac. Qed.

#[local] Hint Resolve pure_model_names pure_scan_metrics pure_collectSystemInfo
  pure_existsSync pure_readFileSync pure_JSON_parse pure_toLowerCase_of
  pure_unconfirmed pure_confirmed : pure.

(** A pure computation run in [w] gives back [w]. *)
Lemma pure_run {A} (c : M A) w : pure c -> c w = (fst (c w), w).
Proof. intros H. specialize (H w). destruct (c w); simpl in *; subst; auto. Qed.

(** ** Computations that leave a part of the world alone *)

Section Keeps.
Context {X : Type} (f : world -> X).

Lemma keeps_pure {A} (c : M A) : pure c -> keeps f c.
Proof. intros H w. rewrite H. reflexivity. Qed.

Lemma keeps_bind {A B} (c : M A) (k : A -> M B) :
  keeps f c -> (forall a, keeps f (k a)) -> keeps f (bind c k).
Proof.
  intros Hc Hk w. unfold bind. specialize (Hc w).
  destruct (c w) as [[a|e] w']; simpl in *; auto.
  rewrite Hk. auto.
Qed.

Lemma keeps_try_catch {A} (c : M A) (h : error -> M A) :
  keeps f c -> (forall e, keeps f (h e)) -> keeps f (try_catch c h).
Proof.
  intros Hc Hh w. unfold try_catch. specialize (Hc w).
  destruct (c w) as [[a|e] w']; simpl in *; auto.
  rewrite Hh. auto.
Qed.

Lemma keeps_finally {A} (c : M A) (g : world -> world) :
  keeps f c -> (forall w, f (g w) = f w) -> keeps f (finally c g).
Proof.
  intros Hc Hg w. unfold finally. specialize (Hc w).
  destruct (c w) as [o w']; simpl in *. rewrite Hg. auto.
Qed.

Lemma keeps_modify (g : world -> world) :
  (forall w, f (g w) = f w) -> keeps f (modify g).
Proof. intros Hg w. simpl. apply Hg. Qed.

Lemma keeps_axios r :
  (forall w, f (snd (exchange r w)) = f w) -> keeps f (axios r).
Proof.
  intros H w. unfold axios. specialize (H w).
  destruct (exchange r w) as [[d|e] w']; simpl in *; auto.
Qed.

End Keeps.

(** ** The steps of the main process *)

Lemma getCloudflaredUrl_run w :
  Main.getCloudflaredUrl w =
  (Ret (probe_answer (hd refused (metrics_feed w))), snd (exchange GetMetrics w)).
Proof.
  unfold Main.getCloudflaredUrl, try_catch, bind, axios. simpl.
  destruct (hd refused (metrics_feed w)) as [data|e]; simpl; [|reflexivity].
  destruct data; reflexivity.
Qed.

Lemma url_in_line_form line u : Main.url_in_line line = Some u -> is_tunnel_url u.
Proof.
  unfold Main.url_in_line.
  destruct (_ && _); [apply match_tunnel_url_form|discriminate].
Qed.

Lemma first_url_form lines u : Main.first_url lines = Some u -> is_tunnel_url u.
Proof.
  induction lines as [|l ls IH]; simpl; [discriminate|].
  destruct (Main.url_in_line l) eqn:E; [|exact IH].
  intros H; inversion H; subst. eapply url_in_line_form; eauto.
Qed.

Lemma probe_answer_form r u : probe_answer r = Some u -> is_tunnel_url u.
Proof.
  destruct r as [data|e]; [|discriminate].
  destruct data; try discriminate. apply first_url_form.
Qed.

Lemma is_tunnel_url_nonempty u : is_tunnel_url u -> JsString.nonempty u = true.
Proof. intros (label & _ & _ & ->). reflexivity. Qed.

Lemma fetchAvailableModels_run w :
  exists ms, Main.fetchAvailableModels w = (Ret ms, snd (exchange GetTags w)).
Proof.
  unfold Main.fetchAvailableModels, try_catch, bind, axios, ret.
  destruct (exchange GetTags w) as [[data|e] w'] eqn:E; simpl; [|eauto].
  rewrite (pure_run (Main.model_names data) w') by auto with pure.
  destruct (fst (Main.model_names data w')); simpl; eauto.
Qed.

(** ** URL drift *)

Lemma update_skips w rec url :
  registration_json w = Fs.File (Fs.JsonText rec) ->
  read_fault w = false ->
  Js.truthy (Js.prop rec "registered") = true ->
  Js.truthy (Js.prop rec "serverId") = true ->
  Js.prop rec "url" = Js.Str url ->
  Main.updateServerUrlIfRegistered url w = (Ret tt, w).
Proof.
  intros Hf Hr Hreg Hsid Hurl.
  unfold Main.updateServerUrlIfRegistered, try_catch, bind,
    Main.existsSync, Main.readFileSync, gets.
  rewrite Hf. cbn -[Js.prop]. rewrite Hf, Hr. cbn -[Js.prop].
  rewrite Hreg, Hsid, Hurl.
  assert (Js.truthy rec = true) as ->.
  { destruct rec; try discriminate; reflexivity. }
  cbn. rewrite String.eqb_refl. reflexivity.
Qed.

Ltac munfold :=
  unfold exec, try_catch, bind, finally, gets, modify, ret, throw, type_error in *.

Lemma notify_run reason detail w :
  Main.notifyRegistrationWarning reason detail w =
  (Ret tt, if mainWindow w then push_warning (reason, detail) w else w).
Proof.
  unfold Main.notifyRegistrationWarning. munfold.
  destruct (mainWindow w); reflexivity.
Qed.

Lemma notify_file reason detail w :
  registration_json (snd (Main.notifyRegistrationWarning reason detail w))
  = registration_json w.
Proof. rewrite notify_run. destruct (mainWindow w); reflexivity. Qed.

Lemma notify_log reason detail w :
  http_log (snd (Main.notifyRegistrationWarning reason detail w)) = http_log w.
Proof. rewrite notify_run. destruct (mainWindow w); reflexivity. Qed.

Lemma update_calls w newUrl :
  let w' := exec (Main.updateServerUrlIfRegistered newUrl) w in
  http_log w' = http_log w \/
  http_log w' = GetTags :: http_log w \/
  exists rec sid s ms,
    registration_json w = Fs.File (Fs.JsonText rec) /\
    Js.truthy (Js.prop rec "registered") = true /\
    Js.prop rec "serverId" = Js.Str sid /\
    system w = Some s /\
    http_log w' =
      PostRegister (Payload (JsString.toLowerCase sid) (deviceId s) (osInfo s)
                            (hardware s) newUrl ms)
      :: GetTags :: http_log w.
Proof.
  unfold Main.updateServerUrlIfRegistered, Main.existsSync, Main.readFileSync,
    Main.collectSystemInfo.
  munfold.
  destruct (registration_json w) as [|t] eqn:Hf;
    cbn -[Js.prop Main.notifyRegistrationWarning]; [auto|].
  rewrite Hf.
  destruct (read_fault w); cbn -[Js.prop Main.notifyRegistrationWarning];
    [rewrite notify_log; auto|].
  destruct t as [rec|raw]; cbn -[Js.prop Main.notifyRegistrationWarning];
    [|rewrite notify_log; auto].
  destruct (Js.truthy rec); cbn -[Js.prop Main.notifyRegistrationWarning]; [|auto].
  destruct (Js.truthy (Js.prop rec "registered")) eqn:Hreg;
    cbn -[Js.prop Main.notifyRegistrationWarning]; [|auto].
  destruct (Js.truthy (Js.prop rec "serverId"));
    cbn -[Js.prop Main.notifyRegistrationWarning]; [|auto].
  destruct (Js.strict_eq_str (Js.prop rec "url") newUrl);
    cbn -[Js.prop Main.notifyRegistrationWarning]; [auto|].
  destruct (system w) as [s|] eqn:Hs;
    cbn -[Js.prop Main.notifyRegistrationWarning]; [|rewrite notify_log; auto].
  destruct (fetchAvailableModels_run w) as [ms Hms]. rewrite Hms.
  cbn -[Js.prop Main.notifyRegistrationWarning].
  destruct (Js.prop rec "serverId") as [| | | |sid| |] eqn:Hsid;
    cbn -[Js.prop Main.notifyRegistrationWarning];
    try (rewrite notify_log; auto).
  unfold axios. cbn -[Js.prop Main.notifyRegistrationWarning].
  destruct (hd refused (register_feed w)) as [data|e];
    cbn -[Js.prop Main.notifyRegistrationWarning].
  - right; right. exists rec, sid, s, ms. repeat split; auto.
    unfold Main.JSON_stringify, Main.set_url.
    destruct rec; cbn -[Main.notifyRegistrationWarning];
      rewrite ?notify_log; reflexivity.
  - right; right. exists rec, sid, s, ms. repeat split; auto.
    rewrite notify_log. reflexivity.
Qed.

Lemma update_read_fault w t newUrl :
  registration_json w = Fs.File t ->
  read_fault w = true ->
  exists x,
    Main.updateServerUrlIfRegistered newUrl w
    = (Ret tt, if mainWindow w then push_warning x w else w).
Proof.
  intros Hf Hr.
  unfold Main.updateServerUrlIfRegistered, Main.existsSync, Main.readFileSync.
  munfold. rewrite Hf. cbn -[Main.notifyRegistrationWarning]. rewrite Hf, Hr.
  rewrite notify_run. eauto.
Qed.

Lemma update_quiet w rec url :
  registration_json w = Fs.File (Fs.JsonText rec) ->
  Js.truthy (Js.prop rec "registered") = true ->
  Js.truthy (Js.prop rec "serverId") = true ->
  Js.prop rec "url" = Js.Str url ->
  let w1 := exec (Main.updateServerUrlIfRegistered url) w in
  http_log w1 = http_log w /\
  registration_json w1 = registration_json w /\
  (read_fault w = false -> w1 = w).
Proof.
  intros Hf Hreg Hsid Hurl w1. unfold w1, exec.
  destruct (read_fault w) eqn:Hr.
  - destruct (update_read_fault w _ url Hf Hr) as [x ->].
    destruct (mainWindow w); repeat split; discriminate.
  - rewrite (update_skips w rec url); auto.
Qed.

(** C2. When the stored record is registered, has a non-empty [serverId] and
    its [url] is the freshly observed URL, [updateServerUrlIfRegistered] makes
    no HTTP call and leaves the registration file as it is; called a second
    time with the same URL it again makes no call. *)
Theorem unchanged_url_makes_no_call w rec sid url :
  registration_json w = Fs.File (Fs.JsonText rec) ->
  Js.prop rec "registered" = Js.Bool true ->
  Js.prop rec "serverId" = Js.Str sid ->
  sid <> EmptyString ->
  Js.prop rec "url" = Js.Str url ->
  let w1 := exec (Main.updateServerUrlIfRegistered url) w in
  let w2 := exec (Main.updateServerUrlIfRegistered url) w1 in
  (http_log w1 = http_log w /\ registration_json w1 = registration_json w) /\
  (http_log w2 = http_log w1 /\ registration_json w2 = registration_json w1) /\
  (read_fault w = false -> w2 = w).
Proof.
  intros Hf Hreg Hsid Hne Hurl w1 w2.
  assert (Hreg' : Js.truthy (Js.prop rec "registered") = true)
    by (rewrite Hreg; reflexivity).
  assert (Hsid' : Js.truthy (Js.prop rec "serverId") = true)
    by (rewrite Hsid; destruct sid; [contradiction|reflexivity]).
  destruct (update_quiet w rec url Hf Hreg' Hsid' Hurl) as (L1 & F1 & E1).
  fold w1 in L1, F1, E1.
  assert (Hf1 : registration_json w1 = Fs.File (Fs.JsonText rec))
    by (rewrite F1; exact Hf).
  destruct (update_quiet w1 rec url Hf1 Hreg' Hsid' Hurl) as (L2 & F2 & E2).
  fold w2 in L2, F2, E2.
  repeat split; auto.
  intros Hr. specialize (E1 Hr). rewrite E1 in E2. exact (E2 Hr).
Qed.

Lemma unchanged_url_makes_no_call_witness :
  let w := Sample.registered in
  let w1 := exec (Main.updateServerUrlIfRegistered Sample.old_url) w in
  let w2 := exec (Main.updateServerUrlIfRegistered Sample.old_url) w1 in
  (http_log w1 = http_log w /\ registration_json w1 = registration_json w) /\
  (http_log w2 = http_log w1 /\ registration_json w2 = registration_json w1) /\
  (read_fault w = false -> w2 = w).
Proof.
  apply (unchanged_url_makes_no_call Sample.registered Sample.record
           "SRV-9F" Sample.old_url);
    first [reflexivity | discriminate].
Defined.

(** C3. Every [POST /server/register] that [updateServerUrlIfRegistered] issues
    is made for a registered record and carries as [link_code] the lower-cased
    [serverId] of that record, with the new URL; the link code the user typed
    is not an input of the update. *)
Theorem drift_update_sends_server_id w newUrl rec calls p :
  registration_json w = Fs.File (Fs.JsonText rec) ->
  http_log (exec (Main.updateServerUrlIfRegistered newUrl) w)
    = calls ++ http_log w ->
  In (PostRegister p) calls ->
  Js.truthy (Js.prop rec "registered") = true /\
  exists sid,
    Js.prop rec "serverId" = Js.Str sid /\
    link_code p = JsString.toLowerCase sid /\
    p_url p = newUrl.
Proof.
  intros Hf Hlog Hin.
  destruct (update_calls w newUrl) as [H|[H|H]].
  - rewrite H in Hlog. apply (app_inv_tail _ [] calls) in Hlog. subst calls.
    contradiction.
  - rewrite H in Hlog. apply (app_inv_tail _ [GetTags] calls) in Hlog.
    subst calls. destruct Hin as [Hin|[]]. discriminate.
  - destruct H as (rec' & sid & s & ms & Hf' & Hreg & Hsid & _ & H).
    rewrite Hf in Hf'. inversion Hf'; subst rec'.
    rewrite H in Hlog.
    apply (app_inv_tail _ [PostRegister _; GetTags] calls) in Hlog.
    subst calls. destruct Hin as [Hin|[Hin|[]]]; [|discriminate].
    inversion Hin; subst p. split; [exact Hreg|]. exists sid. auto.
Qed.

Lemma drift_update_sends_server_id_witness :
  Js.truthy (Js.prop Sample.record "registered") = true /\
  exists sid,
    Js.prop Sample.record "serverId" = Js.Str sid /\
    link_code (Payload "srv-9f" "devbox" (osInfo Sample.machine)
                 (hardware Sample.machine) Sample.new_url [Js.Str "gpt-oss:20b"])
      = JsString.toLowerCase sid /\
    p_url (Payload "srv-9f" "devbox" (osInfo Sample.machine)
             (hardware Sample.machine) Sample.new_url [Js.Str "gpt-oss:20b"])
      = Sample.new_url.
Proof.
  apply (drift_update_sends_server_id Sample.registered Sample.new_url
           Sample.record
           [PostRegister (Payload "srv-9f" "devbox" (osInfo Sample.machine)
                            (hardware Sample.machine) Sample.new_url
                            [Js.Str "gpt-oss:20b"]);
            GetTags]).
  - reflexivity.
  - reflexivity.
  - left. reflexivity.
Defined.

(** ** Waiting for the tunnel *)

Lemma probe_once_run w :
  Handlers.probe_once w =
  let r := probe_answer (hd refused (metrics_feed w)) in
  let w1 := snd (exchange GetMetrics w) in
  if Main.truthy_url r then (Ret r, set_detectedTunnelUrl r w1)
  else (Ret None, w1).
Proof.
  unfold Handlers.probe_once. munfold. rewrite getCloudflaredUrl_run.
  cbv zeta. destruct (Main.truthy_url _); reflexivity.
Qed.

Lemma wait_for_tunnel_total n : forall w,
  exists r, fst (Handlers.wait_for_tunnel n w) = Ret r.
Proof.
  induction n as [|n IH]; intros w; simpl.
  - eauto.
  - unfold bind. rewrite probe_once_run. cbv zeta.
    destruct (Main.truthy_url (probe_answer _)) eqn:E.
    + rewrite E. simpl. eauto.
    + simpl. apply IH.
Qed.

Lemma choose_public_url_total w :
  exists u, fst (Handlers.choose_public_url w) = Ret u.
Proof.
  unfold Handlers.choose_public_url. generalize Handlers.maxAttempts as n.
  intros n. munfold.
  destruct (Main.truthy_url (detectedTunnelUrl w)); simpl; [eauto|].
  destruct (wait_for_tunnel_total n w) as [r Hr].
  destruct (Handlers.wait_for_tunnel n w) as [o w1].
  simpl in Hr. subst o. destruct (Main.truthy_url r); simpl; eauto.
Qed.

Lemma keeps_wait_for_tunnel {X} (f : world -> X) n :
  (forall w, f (snd (exchange GetMetrics w)) = f w) ->
  (forall u w, f (set_detectedTunnelUrl u w) = f w) ->
  keeps f (Handlers.wait_for_tunnel n).
Proof.
  intros Hm Hc. induction n as [|n IH]; simpl.
  - apply keeps_pure, pure_ret.
  - apply keeps_bind.
    + intros w. rewrite probe_once_run. cbv zeta.
      destruct (Main.truthy_url _); simpl; rewrite ?Hc; apply Hm.
    + intros r. destruct (Main.truthy_url r); auto. apply keeps_pure, pure_ret.
Qed.

Lemma keeps_choose_public_url {X} (f : world -> X) :
  (forall w, f (snd (exchange GetMetrics w)) = f w) ->
  (forall u w, f (set_detectedTunnelUrl u w) = f w) ->
  keeps f Handlers.choose_public_url.
Proof.
  intros Hm Hc. unfold Handlers.choose_public_url.
  generalize Handlers.maxAttempts as n. intros n.
  apply keeps_bind; [apply keeps_pure, pure_gets|intros cached].
  destruct (Main.truthy_url cached); simpl; [apply keeps_pure, pure_ret|].
  apply keeps_bind; [apply keeps_wait_for_tunnel; auto|intros r].
  destruct (Main.truthy_url r); apply keeps_pure; auto with pure.
Qed.

Lemma keeps_fetchAvailableModels {X} (f : world -> X) :
  (forall w, f (snd (exchange GetTags w)) = f w) ->
  keeps f Main.fetchAvailableModels.
Proof.
  intros Ht w. destruct (fetchAvailableModels_run w) as [ms ->]. apply Ht.
Qed.

(** ** Registration *)

Lemma strict_eq_str_true v s : Js.strict_eq_str v s = true <-> v = Js.Str s.
Proof.
  destruct v; simpl; split; try discriminate.
  - intros H. apply String.eqb_eq in H. subst. reflexivity.
  - intros H. inversion H. apply String.eqb_refl.
Qed.

Lemma unconfirmed_run fields w :
  Js.lookup "code" fields <> Some (Js.Str Handlers.success_marker) ->
  Js.truthy (Js.prop (Js.Obj fields) "userId") = false ->
  Handlers.unconfirmed (Js.Obj fields) w = (Ret true, w).
Proof.
  intros Hcode Huser. unfold Handlers.unconfirmed, getp, Js.get. munfold.
  cbn -[Js.prop Js.strict_eq_str].
  destruct (Js.strict_eq_str (Js.prop (Js.Obj fields) "code")
              Handlers.success_marker) eqn:E.
  - apply strict_eq_str_true in E. exfalso. apply Hcode.
    unfold Js.prop in E. destruct (Js.lookup "code" fields); congruence.
  - cbn -[Js.prop]. rewrite Huser. reflexivity.
Qed.

Lemma register_server_unconfirmed w linkCode fields rest :
  register_feed w = Resolved (Js.Obj fields) :: rest ->
  Js.lookup "code" fields <> Some (Js.Str Handlers.success_marker) ->
  Js.truthy (Js.prop (Js.Obj fields) "userId") = false ->
  exists msg,
    msg <> EmptyString /\
    fst (Handlers.register_server linkCode w) = Ret (Handlers.failure (Js.Str msg)) /\
    (system w <> None -> msg = "Server did not confirm registration").
Proof.
  intros Hfeed Hcode Huser.
  unfold Handlers.register_server, Main.collectSystemInfo. munfold.
  destruct (system w) as [s|] eqn:Hs.
  - destruct (choose_public_url_total w) as [u Hu].
    pose proof (keeps_choose_public_url register_feed
                  (fun _ => eq_refl) (fun _ _ => eq_refl) w) as K.
    destruct (Handlers.choose_public_url w) as [o w1]. simpl in Hu, K. subst o.
    destruct (fetchAvailableModels_run w1) as [ms Hms]. rewrite Hms.
    unfold axios. cbn -[Handlers.unconfirmed]. rewrite K, Hfeed.
    cbn -[Handlers.unconfirmed]. rewrite unconfirmed_run by assumption.
    cbn. eexists; split; [|split; [reflexivity|reflexivity]]. discriminate.
  - cbn. eexists; split; [|split; [reflexivity|]]; [discriminate|congruence].
Qed.

Lemma keeps_register_server {X} (f : world -> X) linkCode :
  (forall w, f (snd (exchange GetMetrics w)) = f w) ->
  (forall u w, f (set_detectedTunnelUrl u w) = f w) ->
  (forall w, f (snd (exchange GetTags w)) = f w) ->
  (forall p w, f (snd (exchange (PostRegister p) w)) = f w) ->
  keeps f (Handlers.register_server linkCode).
Proof.
  intros Hm Hc Ht Hp. unfold Handlers.register_server.
  apply keeps_try_catch; [|intros; apply keeps_pure, pure_ret].
  apply keeps_bind; [apply keeps_pure; auto with pure|intros s].
  apply keeps_bind; [apply keeps_choose_public_url; auto|intros u].
  apply keeps_bind; [apply keeps_fetchAvailableModels; auto|intros ms].
  apply keeps_try_catch; [|intros; apply keeps_pure, pure_ret].
  apply keeps_bind; [apply keeps_axios; auto|intros data].
  apply keeps_pure. pure_tac.
Qed.

(** C1. A response to the registration call whose [code] is not the success
    marker and whose [userId] is missing or empty makes [register-server]
    return a failure with an error message and leaves the registration file
    as it was; [submitLinkCode] then shows the error screen and saves
    nothing. *)
Theorem unconfirmed_response_is_a_failure w linkCode fields rest :
  register_feed w = Resolved (Js.Obj fields) :: rest ->
  Js.lookup "code" fields <> Some (Js.Str "SERVER_REGISTER_SUCCESS") ->
  (Js.lookup "userId" fields = None \/
   Js.lookup "userId" fields = Some (Js.Str EmptyString)) ->
  (exists msg,
     msg <> EmptyString /\
     fst (Handlers.register_server linkCode w)
       = Ret (Js.Obj [("success", Js.Bool false); ("error", Js.Str msg)]) /\
     (system w <> None -> msg = "Server did not confirm registration")) /\
  registration_json (exec (Handlers.register_server linkCode) w)
    = registration_json w /\
  forall input,
    let w' := exec (Renderer.submitLinkCode input) w in
    registration_json w' = registration_json w /\
    (isSubmitting w = false ->
     Renderer.valid_code (JsString.toUpperCase (JsString.trim input)) = true ->
     screen w' = "screen-error" /\ error_message w' <> EmptyString).
Proof.
  intros Hfeed Hcode Huser.
  assert (Hfalsy : Js.truthy (Js.prop (Js.Obj fields) "userId") = false).
  { unfold Js.prop. destruct Huser as [-> | ->]; reflexivity. }
  split; [|split].
  - apply (register_server_unconfirmed w linkCode fields rest); assumption.
  - apply (keeps_register_server registration_json); intros; reflexivity.
  - intros input w'. unfold w', Renderer.submitLinkCode. munfold.
    destruct (isSubmitting w) eqn:Hbusy; [simpl; split; [reflexivity|discriminate]|].
    set (code := JsString.toUpperCase (JsString.trim input)).
    destruct (Renderer.valid_code code) eqn:Hvalid;
      [|simpl; split; [reflexivity|discriminate]].
    cbn [negb].
    set (w0 := Renderer.set_isSubmitting true w).
    destruct (register_server_unconfirmed w0 code fields rest Hfeed Hcode Hfalsy)
      as (msg & Hne & Hr & _).
    pose proof (keeps_register_server registration_json code
                  (fun _ => eq_refl) (fun _ _ => eq_refl) (fun _ => eq_refl)
                  (fun _ _ => eq_refl) w0) as K.
    destruct (Handlers.register_server code w0) as [o w1].
    simpl in Hr, K. subst o.
    assert (Hm : JsString.nonempty msg = true).
    { destruct msg; [contradiction|reflexivity]. }
    cbn. split; [exact K|]. intros _ _. split; [reflexivity|].
    discriminate.
Qed.

Lemma unconfirmed_response_is_a_failure_witness :
  (exists msg,
     msg <> EmptyString /\
     fst (Handlers.register_server "abc123" Sample.rejecting)
       = Ret (Js.Obj [("success", Js.Bool false); ("error", Js.Str msg)]) /\
     (system Sample.rejecting <> None ->
      msg = "Server did not confirm registration")) /\
  registration_json (exec (Handlers.register_server "abc123") Sample.rejecting)
    = registration_json Sample.rejecting /\
  forall input,
    let w' := exec (Renderer.submitLinkCode input) Sample.rejecting in
    registration_json w' = registration_json Sample.rejecting /\
    (isSubmitting Sample.rejecting = false ->
     Renderer.valid_code (JsString.toUpperCase (JsString.trim input)) = true ->
     screen w' = "screen-error" /\ error_message w' <> EmptyString).
Proof.
  apply (unconfirmed_response_is_a_failure Sample.rejecting "abc123"
           [("code", Js.Str "LINK_CODE_EXPIRED")] []).
  - reflexivity.
  - discriminate.
  - left. reflexivity.
Defined.

(** ** The local-only fallback *)

Lemma wait_for_tunnel_fails n : forall w,
  Forall (fun r => probe_answer r = None) (firstn n (metrics_feed w)) ->
  fst (Handlers.wait_for_tunnel n w) = Ret None.
Proof.
  induction n as [|n IH]; intros w Hall; simpl; [reflexivity|].
  unfold bind. rewrite probe_once_run. cbv zeta.
  assert (Hhd : probe_answer (hd refused (metrics_feed w)) = None).
  { destruct (metrics_feed w) as [|r rs]; [reflexivity|].
    simpl in Hall. inversion Hall; assumption. }
  rewrite Hhd. cbn [Main.truthy_url]. apply IH.
  cbn. destruct (metrics_feed w) as [|r rs]; cbn.
  - destruct n; constructor.
  - simpl in Hall. inversion Hall; assumption.
Qed.

Lemma choose_public_url_fallback w :
  detectedTunnelUrl w = None ->
  Forall (fun r => probe_answer r = None)
         (firstn Handlers.maxAttempts (metrics_feed w)) ->
  fst (Handlers.choose_public_url w) = Ret (OLLAMA_SERVER_URL w).
Proof.
  unfold Handlers.choose_public_url. generalize Handlers.maxAttempts as n.
  intros n Hnone Hall. munfold. rewrite Hnone. cbn [Main.truthy_url negb].
  pose proof (wait_for_tunnel_fails n w Hall) as Hr.
  pose proof (keeps_wait_for_tunnel OLLAMA_SERVER_URL n
                (fun _ => eq_refl) (fun _ _ => eq_refl) w) as K.
  destruct (Handlers.wait_for_tunnel n w) as [o w1]. simpl in Hr, K. subst o.
  cbn. congruence.
Qed.

Lemma confirmed_run fields w :
  Js.lookup "code" fields = Some (Js.Str Handlers.success_marker) \/
  Js.truthy (Js.prop (Js.Obj fields) "userId") = true ->
  Handlers.unconfirmed (Js.Obj fields) w = (Ret false, w).
Proof.
  intros H. unfold Handlers.unconfirmed, getp, Js.get. munfold.
  cbn -[Js.prop Js.strict_eq_str].
  destruct (Js.strict_eq_str (Js.prop (Js.Obj fields) "code")
              Handlers.success_marker) eqn:E; [reflexivity|].
  cbn -[Js.prop]. destruct H as [H|H].
  - unfold Js.prop in E. rewrite H in E. discriminate.
  - rewrite H. reflexivity.
Qed.

Lemma register_server_fallback w linkCode s fields rest :
  detectedTunnelUrl w = None ->
  Forall (fun r => probe_answer r = None)
         (firstn Handlers.maxAttempts (metrics_feed w)) ->
  system w = Some s ->
  register_feed w = Resolved (Js.Obj fields) :: rest ->
  (Js.lookup "code" fields = Some (Js.Str Handlers.success_marker) \/
   Js.truthy (Js.prop (Js.Obj fields) "userId") = true) ->
  exists ms w',
    Handlers.register_server linkCode w =
      (Ret (Js.Obj [("success", Js.Bool true);
                    ("data", Handlers.registered_data s (Js.Obj fields)
                               (OLLAMA_SERVER_URL w) ms)]), w') /\
    registration_json w' = registration_json w /\
    now w' = now w /\
    hd_error (http_log w') =
      Some (PostRegister (Payload (JsString.toLowerCase linkCode) (deviceId s)
                            (osInfo s) (hardware s) (OLLAMA_SERVER_URL w) ms)).
Proof.
  intros Hnone Hall Hs Hfeed Hok.
  unfold Handlers.register_server, Main.collectSystemInfo. munfold.
  rewrite Hs.
  pose proof (choose_public_url_fallback w Hnone Hall) as Hu.
  pose proof (keeps_choose_public_url register_feed
                (fun _ => eq_refl) (fun _ _ => eq_refl) w) as K1.
  pose proof (keeps_choose_public_url registration_json
                (fun _ => eq_refl) (fun _ _ => eq_refl) w) as K2.
  pose proof (keeps_choose_public_url now
                (fun _ => eq_refl) (fun _ _ => eq_refl) w) as K3.
  destruct (Handlers.choose_public_url w) as [o w1]. simpl in Hu, K1, K2, K3.
  subst o.
  destruct (fetchAvailableModels_run w1) as [ms Hms]. rewrite Hms.
  unfold axios. cbn -[Handlers.unconfirmed Handlers.registered_data].
  rewrite K1, Hfeed. cbn -[Handlers.unconfirmed Handlers.registered_data].
  rewrite confirmed_run by assumption.
  eexists ms, _. split; [reflexivity|]. cbn. auto.
Qed.

(** ** What a saved object reads back as *)

Lemma prop_json_inner fields k v :
  Js.lookup k fields = Some v ->
  v <> Js.Undefined ->
  Js.prop (Js.json_inner (Js.Obj fields)) k = Js.json_inner v.
Proof.
  intros Hl Hv. induction fields as [|[k' x] fs IH]; [discriminate|].
  simpl in Hl. destruct (String.eqb k k') eqn:E.
  - inversion Hl; subst x. apply String.eqb_eq in E. subst k'.
    destruct v; try congruence; cbn; rewrite String.eqb_refl; reflexivity.
  - specialize (IH Hl). cbn in IH.
    destruct x; cbn; rewrite ?E; exact IH.
Qed.

Lemma prop_json_inner_missing fields k :
  Js.lookup k fields = None ->
  Js.prop (Js.json_inner (Js.Obj fields)) k = Js.Undefined.
Proof.
  intros Hl. induction fields as [|[k' x] fs IH]; [reflexivity|].
  simpl in Hl. destruct (String.eqb k k') eqn:E; [discriminate|].
  specialize (IH Hl). cbn in IH.
  destruct x; cbn; rewrite ?E; exact IH.
Qed.

(** C4. With no cached tunnel URL and every probe of the waiting loop coming
    back empty, [register-server] advertises the local address
    [OLLAMA_SERVER_URL]; on a confirmed response the record that
    [submitLinkCode] saves has that address as its [url]. *)
Theorem fallback_url_is_advertised_and_stored w input s fields rest :
  detectedTunnelUrl w = None ->
  Forall (fun r => probe_answer r = None) (firstn 60 (metrics_feed w)) ->
  system w = Some s ->
  register_feed w = Resolved (Js.Obj fields) :: rest ->
  (Js.lookup "code" fields = Some (Js.Str "SERVER_REGISTER_SUCCESS") \/
   Js.truthy (Js.prop (Js.Obj fields) "userId") = true) ->
  OLLAMA_SERVER_URL w <> EmptyString ->
  isSubmitting w = false ->
  Renderer.valid_code (JsString.toUpperCase (JsString.trim input)) = true ->
  let code := JsString.toUpperCase (JsString.trim input) in
  (exists p data,
     hd_error (http_log (exec (Handlers.register_server code) w))
       = Some (PostRegister p) /\
     p_url p = OLLAMA_SERVER_URL w /\
     fst (Handlers.register_server code w)
       = Ret (Js.Obj [("success", Js.Bool true); ("data", data)]) /\
     Js.prop data "url" = Js.Str (OLLAMA_SERVER_URL w)) /\
  (exists rec,
     registration_json (exec (Renderer.submitLinkCode input) w)
       = Fs.File (Fs.JsonText rec) /\
     Js.prop rec "registered" = Js.Bool true /\
     Js.prop rec "url" = Js.Str (OLLAMA_SERVER_URL w)).
Proof.
  intros Hnone Hall Hs Hfeed Hok Hurl Hbusy Hvalid code.
  assert (Hn : JsString.nonempty (OLLAMA_SERVER_URL w) = true).
  { destruct (OLLAMA_SERVER_URL w); [contradiction|reflexivity]. }
  split.
  - destruct (register_server_fallback w code s fields rest Hnone Hall Hs Hfeed Hok)
      as (ms & w' & Hrun & _ & _ & Hlog).
    unfold exec. rewrite Hrun. cbn [fst snd].
    eexists _, _. split; [exact Hlog|]. split; [reflexivity|].
    split; reflexivity.
  - unfold Renderer.submitLinkCode. munfold. rewrite Hbusy.
    change (Renderer.valid_code code = true) in Hvalid.
    change (JsString.toUpperCase (JsString.trim input)) with code.
    rewrite Hvalid. cbn [negb].
    set (w0 := Renderer.set_isSubmitting true w).
    destruct (register_server_fallback w0 code s fields rest Hnone Hall Hs Hfeed Hok)
      as (ms & w' & Hrun & Hfile & Hnow & _).
    rewrite Hrun. unfold Renderer.confirmed, getp, Js.get. munfold.
    set (D := Handlers.registered_data s (Js.Obj fields) (OLLAMA_SERVER_URL w0) ms).
    change (Js.prop (Js.Obj [("success", Js.Bool true); ("data", D)]) "success")
      with (Js.Bool true).
    change (Js.prop (Js.Obj [("success", Js.Bool true); ("data", D)]) "data")
      with D.
    change (Js.nullish D) with false.
    change (Js.prop D "registered") with (Js.Bool true).
    unfold Renderer.saved_record.
    cbn -[Js.json_inner Js.prop Js.or_else].
    eexists. split; [reflexivity|]. split.
    + rewrite (prop_json_inner _ "registered" (Js.Bool true));
        [reflexivity|reflexivity|discriminate].
    + rewrite (prop_json_inner _ "url" (Js.Str (OLLAMA_SERVER_URL w)));
        [reflexivity| |discriminate].
      cbn. unfold Js.or_else, Js.truthy. rewrite Hn. reflexivity.
Qed.

Lemma fallback_url_is_advertised_and_stored_witness :
  let code := JsString.toUpperCase (JsString.trim " abc123 ") in
  (exists p data,
     hd_error (http_log (exec (Handlers.register_server code) Sample.confirming))
       = Some (PostRegister p) /\
     p_url p = OLLAMA_SERVER_URL Sample.confirming /\
     fst (Handlers.register_server code Sample.confirming)
       = Ret (Js.Obj [("success", Js.Bool true); ("data", data)]) /\
     Js.prop data "url" = Js.Str (OLLAMA_SERVER_URL Sample.confirming)) /\
  (exists rec,
     registration_json (exec (Renderer.submitLinkCode " abc123 ") Sample.confirming)
       = Fs.File (Fs.JsonText rec) /\
     Js.prop rec "registered" = Js.Bool true /\
     Js.prop rec "url" = Js.Str (OLLAMA_SERVER_URL Sample.confirming)).
Proof.
  apply (fallback_url_is_advertised_and_stored Sample.confirming " abc123 "
           Sample.machine Sample.confirmation []).
  - reflexivity.
  - constructor.
  - reflexivity.
  - reflexivity.
  - left. reflexivity.
  - discriminate.
  - reflexivity.
  - reflexivity.
Defined.

(** ** Which parts of the world each function can change *)

Section KeepsProgram.
Context {X : Type} (f : world -> X).
Hypothesis Hmetrics : forall w, f (snd (exchange GetMetrics w)) = f w.
Hypothesis Htags : forall w, f (snd (exchange GetTags w)) = f w.
Hypothesis Hps : forall w, f (snd (exchange GetPs w)) = f w.
Hypothesis Hpost : forall p w, f (snd (exchange (PostRegister p) w)) = f w.
Hypothesis Hcache : forall u w, f (set_detectedTunnelUrl u w) = f w.
Hypothesis Hproc : forall b w, f (set_cloudflaredProcess b w) = f w.
Hypothesis Hfile : forall x w, f (set_registration_json x w) = f w.
Hypothesis Hwarn : forall x w, f (push_warning x w) = f w.
Hypothesis Hui : forall a b c d w, f (set_ui a b c d w) = f w.

Ltac step_keeps :=
  first
    [ solve [auto]
    | solve [apply keeps_pure; auto with pure; pure_tac]
    | solve [apply keeps_modify; intros;
             unfold Renderer.set_screen, Renderer.set_isSubmitting,
               Renderer.set_error_message; auto]
    | solve [apply keeps_axios; auto]
    | apply keeps_bind; [|intros]
    | apply keeps_try_catch; [|intros]
    | match goal with
      | |- keeps _ (if ?b then _ else _) => destruct b
      | |- keeps _ (match ?x with _ => _ end) => destruct x
      | |- keeps _ (let (_, _) := ?x in _) => destruct x
      end ].

Lemma keeps_getCloudflaredUrl : keeps f Main.getCloudflaredUrl.
Proof. intros w. rewrite getCloudflaredUrl_run. apply Hmetrics. Qed.

Lemma keeps_check_ollama : keeps f Handlers.check_ollama.
Proof. unfold Handlers.check_ollama. repeat step_keeps. Qed.

Lemma keeps_check_loaded_models : keeps f Handlers.check_loaded_models.
Proof. unfold Handlers.check_loaded_models. repeat step_keeps. Qed.

Lemma keeps_check_cloudflared : keeps f Handlers.check_cloudflared.
Proof.
  pose proof keeps_getCloudflaredUrl.
  unfold Handlers.check_cloudflared. repeat step_keeps.
Qed.

Lemma keeps_get_tunnel_url : keeps f Handlers.get_tunnel_url.
Proof.
  pose proof keeps_getCloudflaredUrl.
  unfold Handlers.get_tunnel_url. repeat step_keeps.
Qed.

Lemma keeps_get_system_info : keeps f Handlers.get_system_info.
Proof.
  pose proof keeps_getCloudflaredUrl.
  unfold Handlers.get_system_info. repeat step_keeps.
Qed.

Lemma keeps_load_registration : keeps f Handlers.load_registration.
Proof. unfold Handlers.load_registration. repeat step_keeps. Qed.

Lemma keeps_showScreen s : keeps f (Renderer.showScreen s).
Proof.
  unfold Renderer.showScreen, Renderer.enableLinkCodeInput,
    Renderer.set_screen, Renderer.set_isSubmitting.
  repeat step_keeps.
Qed.

Lemma keeps_enableLinkCodeInput : keeps f Renderer.enableLinkCodeInput.
Proof.
  unfold Renderer.enableLinkCodeInput, Renderer.set_isSubmitting.
  repeat step_keeps.
Qed.

Lemma keeps_displayModelsList models : keeps f (Renderer.displayModelsList models).
Proof.
  pose proof keeps_check_loaded_models.
  unfold Renderer.displayModelsList. repeat step_keeps.
Qed.

Lemma keeps_loadSystemInfo : keeps f Renderer.loadSystemInfo.
Proof.
  pose proof keeps_get_system_info.
  unfold Renderer.loadSystemInfo. repeat step_keeps.
Qed.

Lemma keeps_waitForOllama_from n : keeps f (Renderer.waitForOllama_from n).
Proof.
  pose proof keeps_check_ollama. pose proof keeps_loadSystemInfo.
  pose proof keeps_displayModelsList. pose proof keeps_showScreen.
  pose proof keeps_enableLinkCodeInput.
  induction n as [|n IH]; simpl.
  - unfold Renderer.set_error_message. repeat step_keeps.
  - repeat step_keeps.
Qed.

Lemma keeps_checkServicesStatus : keeps f Renderer.checkServicesStatus.
Proof.
  pose proof keeps_check_ollama. pose proof keeps_check_cloudflared.
  unfold Renderer.checkServicesStatus. repeat step_keeps.
Qed.

Lemma keeps_updateServerUrlIfRegistered newUrl :
  keeps f (Main.updateServerUrlIfRegistered newUrl).
Proof.
  assert (keeps f Main.fetchAvailableModels)
    by (apply keeps_fetchAvailableModels; auto).
  unfold Main.updateServerUrlIfRegistered, Main.notifyRegistrationWarning,
    Main.writeFileSync.
  repeat step_keeps.
Qed.

Lemma keeps_startCloudflaredTunnel available ticks :
  keeps f (Main.startCloudflaredTunnel available ticks).
Proof.
  pose proof keeps_updateServerUrlIfRegistered.
  unfold Main.startCloudflaredTunnel.
  generalize (Main.wait_for_url 30 ticks Main.scan_init). intros [st later].
  repeat step_keeps.
Qed.

Lemma keeps_monitorServices available ticks :
  keeps f (Main.monitorServices available ticks).
Proof.
  pose proof keeps_updateServerUrlIfRegistered.
  pose proof keeps_startCloudflaredTunnel.
  pose proof keeps_getCloudflaredUrl.
  unfold Main.monitorServices. repeat step_keeps.
Qed.

End KeepsProgram.

Ltac insensitive := intros; reflexivity.

(** ** The registration state store *)

Lemma load_registration_run w :
  Handlers.load_registration w =
  (Ret (match registration_json w with
        | Fs.File (Fs.JsonText rec) => if read_fault w then Js.Null else rec
        | _ => Js.Null
        end), w).
Proof.
  unfold Handlers.load_registration, Main.existsSync, Main.readFileSync. munfold.
  destruct (registration_json w) as [|[rec|raw]] eqn:Hf; cbn; rewrite ?Hf;
    try reflexivity; destruct (read_fault w); reflexivity.
Qed.

Lemma save_null_run w :
  Handlers.save_registration Js.Null w =
  (Ret (Js.Obj [("success", Js.Bool true)]), set_registration_json Fs.NoFile w)
  \/ (registration_json w = Fs.NoFile /\
      Handlers.save_registration Js.Null w
      = (Ret (Js.Obj [("success", Js.Bool true)]), w)).
Proof.
  unfold Handlers.save_registration, Main.existsSync, Main.unlinkSync. munfold.
  destruct (registration_json w) eqn:Hf; cbn; rewrite ?Hf; auto.
Qed.

Lemma save_null_clears w :
  registration_json (exec (Handlers.save_registration Js.Null) w) = Fs.NoFile.
Proof.
  unfold exec. destruct (save_null_run w) as [-> | [Hf ->]]; auto.
Qed.

Lemma unlinkServer_clears w :
  registration_json (exec Renderer.unlinkServer w) = Fs.NoFile.
Proof.
  unfold exec, Renderer.unlinkServer, Renderer.waitForOllama.
  unfold bind at 1.
  pose proof (save_null_clears w) as Hs. unfold exec in Hs.
  destruct (Handlers.save_registration Js.Null w) as [[r|e] w1]; simpl in Hs.
  - rewrite <- Hs.
    apply (keeps_bind registration_json);
      [apply keeps_modify; insensitive|intros _].
    apply keeps_bind; [apply keeps_showScreen; insensitive|intros _].
    apply keeps_bind; [apply keeps_waitForOllama_from; insensitive|intros _].
    apply keeps_enableLinkCodeInput; insensitive.
  - exact Hs.
Qed.

(** C5. After an unlink (saving [null]) the registration file is gone and
    [load()] returns [null], whatever was stored before; the page-load test
    [registration && registration.registered] does not take it for a
    registration. *)
Theorem unlink_then_load_is_absent w :
  let cleared := exec (Handlers.save_registration Js.Null) w in
  let unlinked := exec Renderer.unlinkServer w in
  (registration_json cleared = Fs.NoFile /\
   fst (Handlers.load_registration cleared) = Ret Js.Null) /\
  (registration_json unlinked = Fs.NoFile /\
   fst (Handlers.load_registration unlinked) = Ret Js.Null) /\
  Js.truthy Js.Null = false.
Proof.
  intros cleared unlinked.
  assert (Hc : registration_json cleared = Fs.NoFile) by apply save_null_clears.
  assert (Hu : registration_json unlinked = Fs.NoFile)
    by apply unlinkServer_clears.
  repeat split; auto; rewrite load_registration_run; cbn [fst];
    [rewrite Hc|rewrite Hu]; reflexivity.
Qed.

(** C8, as the code has it. [load()] never throws and leaves the world as it
    was: it returns the parsed record when the file exists, can be read and
    parses, [null] when there is no file, and [null] as well when reading or
    parsing the file fails, so a failed read gives the very result of a
    missing file. *)
Theorem load_returns_record_or_null w :
  (forall rec,
     registration_json w = Fs.File (Fs.JsonText rec) ->
     read_fault w = false ->
     Handlers.load_registration w = (Ret rec, w)) /\
  (registration_json w = Fs.NoFile ->
   Handlers.load_registration w = (Ret Js.Null, w)) /\
  (reading_fails w -> Handlers.load_registration w = (Ret Js.Null, w)) /\
  (exists v, Handlers.load_registration w = (Ret v, w)).
Proof.
  rewrite load_registration_run. repeat split.
  - intros rec Hf Hr. rewrite Hf, Hr. reflexivity.
  - intros Hf. rewrite Hf. reflexivity.
  - intros (t & Hf & [Hr|[raw ->]]); rewrite Hf.
    + rewrite Hr. destruct t; reflexivity.
    + reflexivity.
  - eauto.
Qed.

Lemma load_returns_record_or_null_witness :
  Handlers.load_registration Sample.registered
    = (Ret Sample.record, Sample.registered) /\
  Handlers.load_registration Sample.fresh = (Ret Js.Null, Sample.fresh) /\
  Handlers.load_registration Sample.corrupted = (Ret Js.Null, Sample.corrupted).
Proof.
  split; [|split].
  - apply (proj1 (load_returns_record_or_null Sample.registered));
      reflexivity.
  - apply (proj1 (proj2 (load_returns_record_or_null Sample.fresh))).
    reflexivity.
  - apply (proj1 (proj2 (proj2 (load_returns_record_or_null Sample.corrupted)))).
    exists (Fs.BadText "{"). split; [reflexivity|]. right. eauto.
Defined.

(** C8 as stated fails: a registration file that does not parse is reported
    exactly as a missing file. *)
Lemma load_conflates_failure_with_absent :
  reading_fails Sample.corrupted /\
  registration_json Sample.fresh = Fs.NoFile /\
  fst (Handlers.load_registration Sample.corrupted) = Ret Js.Null /\
  fst (Handlers.load_registration Sample.corrupted)
    = fst (Handlers.load_registration Sample.fresh).
Proof.
  repeat split.
  exists (Fs.BadText "{"). split; [reflexivity|]. right. eauto.
Qed.

Lemma save_value_run data w :
  data <> Js.Null ->
  data <> Js.Undefined ->
  Handlers.save_registration data w =
  (Ret (Js.Obj [("success", Js.Bool true)]),
   set_registration_json (Fs.File (Fs.JsonText (Js.json_inner data))) w).
Proof.
  intros Hn Hu. unfold Handlers.save_registration.
  destruct data; try congruence; reflexivity.
Qed.

(** C7, as the code has it. [save(data)] overwrites the file whatever it held:
    a completed save is followed by a [load()] that returns the saved value.
    The write is made in place, by truncating the file and then writing it:
    the truncated file is one of the states a stop of the process can leave,
    and the next [load()] then sees the old record, the new record or
    [null], never a part of a record. *)
Theorem save_overwrites_in_place data w :
  data <> Js.Null ->
  data <> Js.Undefined ->
  let w' := exec (Handlers.save_registration data) w in
  registration_json w' = Fs.File (Fs.JsonText (Js.json_inner data)) /\
  (read_fault w = false ->
   fst (Handlers.load_registration w') = Ret (Js.json_inner data)) /\
  In (Fs.File (Fs.BadText EmptyString))
     (Handlers.save_crash_states data (registration_json w)) /\
  forall f,
    In f (Handlers.save_crash_states data (registration_json w)) ->
    seen_by_load f w = seen_by_load (registration_json w) w \/
    seen_by_load f w = Ret Js.Null \/
    seen_by_load f w = seen_by_load (registration_json w') w.
Proof.
  intros Hn Hu w'.
  assert (Hw : registration_json w' = Fs.File (Fs.JsonText (Js.json_inner data))).
  { unfold w', exec. rewrite save_value_run by assumption. reflexivity. }
  assert (Hs : Handlers.save_crash_states data (registration_json w)
               = Fs.write_states (Fs.JsonText (Js.json_inner data))
                                 (registration_json w)).
  { destruct data; try congruence; reflexivity. }
  split; [exact Hw|]. split; [|split].
  - intros Hr. rewrite load_registration_run. cbn [fst]. rewrite Hw.
    unfold w', exec. rewrite save_value_run by assumption. cbn.
    rewrite Hr. reflexivity.
  - rewrite Hs. right. left. reflexivity.
  - intros f Hin. rewrite Hs in Hin. rewrite Hw.
    destruct Hin as [<-|[<-|[<-|[]]]].
    + left. reflexivity.
    + right. left. unfold seen_by_load. rewrite load_registration_run.
      reflexivity.
    + right. right. reflexivity.
Qed.

Lemma save_overwrites_in_place_witness :
  let w' := exec (Handlers.save_registration Sample.record') Sample.registered in
  registration_json w' = Fs.File (Fs.JsonText (Js.json_inner Sample.record')) /\
  (read_fault Sample.registered = false ->
   fst (Handlers.load_registration w') = Ret (Js.json_inner Sample.record')) /\
  In (Fs.File (Fs.BadText EmptyString))
     (Handlers.save_crash_states Sample.record'
        (registration_json Sample.registered)) /\
  forall f,
    In f (Handlers.save_crash_states Sample.record'
            (registration_json Sample.registered)) ->
    seen_by_load f Sample.registered
      = seen_by_load (registration_json Sample.registered) Sample.registered \/
    seen_by_load f Sample.registered = Ret Js.Null \/
    seen_by_load f Sample.registered
      = seen_by_load (registration_json w') Sample.registered.
Proof.
  apply (save_overwrites_in_place Sample.record' Sample.registered);
    discriminate.
Defined.

(** C7 as stated fails: when the process stops after [fs.writeFileSync]
    truncated the file and before it wrote the text, the next [load()] sees
    neither the record of before nor the record being saved. *)
Lemma save_is_not_atomic : ~ atomic_save Sample.record' Sample.registered.
Proof.
  intros H.
  destruct (H (Fs.File (Fs.BadText EmptyString))) as [E|E].
  - right. left. reflexivity.
  - discriminate E.
  - discriminate E.
Qed.

(** ** The listeners of the tunnel subprocess *)

Lemma deliver_found evs : forall st,
  Main.found st = true -> Main.deliver evs st = st.
Proof.
  unfold Main.deliver.
  induction evs as [|[[] output] evs IH]; intros st Hf; simpl; auto;
    rewrite <- (IH st Hf) at 2; f_equal;
    unfold Main.on_stdout_data, Main.on_stderr_data;
    destruct (Regex.match_tunnel_url output); rewrite ?Hf; reflexivity.
Qed.

Lemma deliver_first_match evs :
  Main.deliver evs Main.scan_init =
  match first_match evs with
  | Some u => Main.Scan (Some u) true
  | None => Main.scan_init
  end.
Proof.
  induction evs as [|[str output] evs IH]; [reflexivity|].
  change (Main.deliver ((str, output) :: evs) Main.scan_init)
    with (Main.deliver evs (Main.on_data (str, output) Main.scan_init)).
  simpl first_match.
  destruct (Regex.match_tunnel_url output) as [u|] eqn:E.
  - rewrite deliver_found.
    + destruct str; simpl; unfold Main.on_stdout_data, Main.on_stderr_data;
        rewrite E; reflexivity.
    + destruct str; simpl; unfold Main.on_stdout_data, Main.on_stderr_data;
        rewrite E; reflexivity.
  - replace (Main.on_data (str, output) Main.scan_init) with Main.scan_init.
    + exact IH.
    + destruct str; simpl; unfold Main.on_stdout_data, Main.on_stderr_data;
        rewrite E; reflexivity.
Qed.

Lemma first_match_app evs more u :
  first_match evs = Some u -> first_match (evs ++ more) = Some u.
Proof.
  induction evs as [|[str output] evs IH]; simpl; [discriminate|].
  destruct (Regex.match_tunnel_url output); auto.
Qed.

Lemma first_match_app_none evs more :
  first_match evs = None -> first_match (evs ++ more) = first_match more.
Proof.
  induction evs as [|[str output] evs IH]; simpl; [reflexivity|].
  destruct (Regex.match_tunnel_url output); [discriminate|auto].
Qed.

Lemma first_match_split evs u :
  first_match evs = Some u ->
  exists before ev after,
    evs = before ++ ev :: after /\
    (forall e, In e before -> Regex.match_tunnel_url (snd e) = None) /\
    Regex.match_tunnel_url (snd ev) = Some u.
Proof.
  induction evs as [|[str output] evs IH]; simpl; [discriminate|].
  destruct (Regex.match_tunnel_url output) as [u'|] eqn:E; intros H.
  - inversion H; subst u'. exists [], (str, output), evs. simpl. intuition.
  - destruct (IH H) as (before & ev & after & -> & Hb & Hm).
    exists ((str, output) :: before), ev, after. simpl. repeat split; auto.
    intros e [<-|Hin]; auto.
Qed.

Lemma first_match_form evs u : first_match evs = Some u -> is_tunnel_url u.
Proof.
  intros H. destruct (first_match_split evs u H) as (_ & ev & _ & _ & _ & Hm).
  eapply match_tunnel_url_form; eauto.
Qed.

Lemma wait_for_url_found n ticks st :
  Main.found st = true -> Main.wait_for_url n ticks st = (st, ticks).
Proof. intros H. destruct n; simpl; rewrite H; reflexivity. Qed.

Lemma wait_for_url_first n : forall ticks,
  exists later,
    Main.wait_for_url n ticks Main.scan_init =
    (match first_match (concat (firstn n ticks)) with
     | Some u => Main.Scan (Some u) true
     | None => Main.scan_init
     end, later).
Proof.
  induction n as [|n IH]; intros ticks.
  - exists ticks. reflexivity.
  - destruct ticks as [|t ts].
    + destruct (IH []) as [later H]. exists later.
      change (Main.wait_for_url (S n) [] Main.scan_init)
        with (Main.wait_for_url n [] Main.scan_init).
      rewrite H. rewrite firstn_nil. reflexivity.
    + change (Main.wait_for_url (S n) (t :: ts) Main.scan_init)
        with (Main.wait_for_url n ts (Main.deliver t Main.scan_init)).
      rewrite deliver_first_match. simpl firstn. simpl concat.
      destruct (first_match t) as [u|] eqn:E.
      * rewrite (first_match_app _ _ _ E).
        exists ts. apply wait_for_url_found. reflexivity.
      * rewrite (first_match_app_none _ _ E). apply IH.
Qed.

Lemma update_returns newUrl w :
  fst (Main.updateServerUrlIfRegistered newUrl w) = Ret tt.
Proof.
  unfold Main.updateServerUrlIfRegistered, try_catch.
  match goal with |- context [match ?c w with _ => _ end] =>
    destruct (c w) as [[[]|e] w'] end; rewrite ?notify_run; reflexivity.
Qed.

Lemma startCloudflaredTunnel_result available ticks w :
  fst (Main.startCloudflaredTunnel available ticks w) =
  Ret (if available then first_match (concat (firstn 30 ticks)) else None).
Proof.
  unfold Main.startCloudflaredTunnel.
  destruct available; [|reflexivity].
  destruct (wait_for_url_first 30 ticks) as [later H].
  cbn [negb]. unfold try_catch, bind at 1. cbn [modify].
  rewrite H.
  destruct (first_match (concat (firstn 30 ticks))) as [u|] eqn:E;
    [|reflexivity].
  cbn [Main.tunnelUrl].
  assert (Hn : Main.truthy_url (Some u) = true).
  { simpl. apply is_tunnel_url_nonempty. eapply first_match_form; eauto. }
  rewrite Hn. unfold bind. cbn [modify].
  pose proof (update_returns (Main.url_text (Some u))
                (set_detectedTunnelUrl (Some u) (set_cloudflaredProcess true w)))
    as Hu.
  destruct (Main.updateServerUrlIfRegistered _ _) as [o w'].
  simpl in Hu. subst o. cbn.
  rewrite deliver_found; reflexivity.
Qed.

Lemma startCloudflaredTunnel_cache available ticks w u :
  fst (Main.startCloudflaredTunnel available ticks w) = Ret (Some u) ->
  detectedTunnelUrl (exec (Main.startCloudflaredTunnel available ticks) w)
    = Some u.
Proof.
  rewrite startCloudflaredTunnel_result. intros Hr.
  destruct available; [|discriminate].
  assert (E : first_match (concat (firstn 30 ticks)) = Some u) by congruence.
  clear Hr.
  unfold exec, Main.startCloudflaredTunnel.
  destruct (wait_for_url_first 30 ticks) as [later H].
  cbn [negb]. unfold try_catch, bind at 1. cbn [modify].
  rewrite H, E. cbv iota. cbn [Main.tunnelUrl].
  assert (Hn : Main.truthy_url (Some u) = true).
  { simpl. apply is_tunnel_url_nonempty. eapply first_match_form; eauto. }
  rewrite Hn. unfold bind. cbn [modify].
  pose proof (update_returns (Main.url_text (Some u))
                (set_detectedTunnelUrl (Some u) (set_cloudflaredProcess true w)))
    as Hu.
  pose proof (keeps_updateServerUrlIfRegistered detectedTunnelUrl
                (fun _ => eq_refl) (fun _ _ => eq_refl) (fun _ _ => eq_refl)
                (fun _ _ => eq_refl) (Main.url_text (Some u))
                (set_detectedTunnelUrl (Some u) (set_cloudflaredProcess true w)))
    as K.
  destruct (Main.updateServerUrlIfRegistered _ _) as [o w'].
  simpl in Hu, K. subst o. cbn. exact K.
Qed.

(** C9. The listeners keep the match of the first chunk that holds a tunnel
    URL, on either stream, and ignore every later chunk; [start()] returns
    that URL when it arrives within the thirty half-second waits, and the URL
    it returns and caches is the first match of the whole output. *)
Theorem first_tunnel_url_wins available ticks w :
  (forall evs,
     Main.tunnelUrl (Main.deliver evs Main.scan_init) = first_match evs) /\
  (forall evs more u,
     Main.tunnelUrl (Main.deliver evs Main.scan_init) = Some u ->
     Main.deliver (evs ++ more) Main.scan_init
       = Main.deliver evs Main.scan_init) /\
  fst (Main.startCloudflaredTunnel available ticks w)
    = Ret (if available then first_match (concat (firstn 30 ticks)) else None) /\
  (forall u,
     fst (Main.startCloudflaredTunnel available ticks w) = Ret (Some u) ->
     detectedTunnelUrl (exec (Main.startCloudflaredTunnel available ticks) w)
       = Some u /\
     exists before ev after,
       concat ticks = before ++ ev :: after /\
       (forall e, In e before -> Regex.match_tunnel_url (snd e) = None) /\
       Regex.match_tunnel_url (snd ev) = Some u).
Proof.
  split; [|split; [|split]].
  - intros evs. rewrite deliver_first_match.
    destruct (first_match evs); reflexivity.
  - intros evs more u H. unfold Main.deliver at 1. rewrite fold_left_app.
    apply deliver_found. rewrite deliver_first_match in *.
    destruct (first_match evs); [reflexivity|discriminate].
  - apply startCloudflaredTunnel_result.
  - intros u Hr. split; [apply startCloudflaredTunnel_cache; exact Hr|].
    rewrite startCloudflaredTunnel_result in Hr.
    destruct available; [|discriminate].
    assert (E : first_match (concat (firstn 30 ticks)) = Some u) by congruence.
    apply first_match_split.
    rewrite <- (firstn_skipn 30 ticks), concat_app.
    apply first_match_app. exact E.
Qed.

Lemma first_tunnel_url_wins_witness :
  detectedTunnelUrl (exec (Main.startCloudflaredTunnel true Sample.output)
                          Sample.registered)
    = Some "https://first-one.trycloudflare.com" /\
  exists before ev after,
    concat Sample.output = before ++ ev :: after /\
    (forall e, In e before -> Regex.match_tunnel_url (snd e) = None) /\
    Regex.match_tunnel_url (snd ev) = Some "https://first-one.trycloudflare.com".
Proof.
  apply (proj2 (proj2 (proj2
           (first_tunnel_url_wins true Sample.output Sample.registered)))).
  reflexivity.
Defined.

(** ** Invariants of the world *)

Section Preserves.
Variable I : world -> Prop.

Lemma preserves_pure {A} (c : M A) : pure c -> preserves I c.
Proof. intros H w Hw. rewrite H. exact Hw. Qed.

Lemma preserves_bind_yields {A B} (c : M A) (k : A -> M B) (Q : A -> Prop) :
  preserves I c -> yields c Q -> (forall a, Q a -> preserves I (k a)) ->
  preserves I (bind c k).
Proof.
  intros Hc Hy Hk w Hw. unfold bind. specialize (Hc w Hw). specialize (Hy w).
  destruct (c w) as [[a|e] w']; simpl in *; auto.
  apply Hk; auto.
Qed.

Lemma preserves_bind {A B} (c : M A) (k : A -> M B) :
  preserves I c -> (forall a, preserves I (k a)) -> preserves I (bind c k).
Proof.
  intros Hc Hk. apply (preserves_bind_yields c k (fun _ => True)); auto.
  intros w a _. exact Logic.I.
Qed.

Lemma preserves_try_catch {A} (c : M A) (h : error -> M A) :
  preserves I c -> (forall e, preserves I (h e)) -> preserves I (try_catch c h).
Proof.
  intros Hc Hh w Hw. unfold try_catch. specialize (Hc w Hw).
  destruct (c w) as [[a|e] w']; simpl in *; auto.
  apply Hh; auto.
Qed.

Lemma preserves_finally {A} (c : M A) (g : world -> world) :
  preserves I c -> (forall w, I w -> I (g w)) -> preserves I (finally c g).
Proof.
  intros Hc Hg w Hw. unfold finally. specialize (Hc w Hw).
  destruct (c w) as [o w']; simpl in *. auto.
Qed.

Lemma preserves_modify (g : world -> world) :
  (forall w, I w -> I (g w)) -> preserves I (modify g).
Proof. intros Hg w Hw. simpl. auto. Qed.

(** An invariant that reads one part of the world holds as long as that
    part is kept. *)
Lemma preserves_keeps {X A} (f : world -> X) (c : M A) :
  (forall w w', f w' = f w -> I w -> I w') -> keeps f c -> preserves I c.
Proof. intros Hf Hk w Hw. apply (Hf w); auto. Qed.

End Preserves.

Lemma yields_try_catch {A} (c : M A) (h : error -> M A) (Q : A -> Prop) :
  yields c Q -> (forall e, yields (h e) Q) -> yields (try_catch c h) Q.
Proof.
  intros Hc Hh w a. unfold try_catch. specialize (Hc w).
  destruct (c w) as [[x|e] w'] eqn:E; simpl in *.
  - intros H. apply Hc. exact H.
  - apply Hh.
Qed.

Lemma yields_ret {A} (a : A) (Q : A -> Prop) : Q a -> yields (ret a) Q.
Proof. intros H w x E. inversion E. subst. exact H. Qed.

(** ** The cached tunnel URL *)

Lemma cache_ok_keeps {A} (c : M A) :
  keeps detectedTunnelUrl c -> preserves cache_ok c.
Proof.
  apply preserves_keeps. unfold cache_ok. intros w w' E. rewrite E. auto.
Qed.

Lemma cache_ok_assign u :
  cached_url_ok u -> preserves cache_ok (modify (set_detectedTunnelUrl u)).
Proof. intros H. apply preserves_modify. intros w _. exact H. Qed.

Lemma getCloudflaredUrl_yields : yields Main.getCloudflaredUrl cached_url_ok.
Proof.
  intros w a. rewrite getCloudflaredUrl_run. simpl. intros E. inversion E.
  destruct (probe_answer _) eqn:P; simpl; [|exact Logic.I].
  eapply probe_answer_form; eauto.
Qed.

Lemma cache_ok_getCloudflaredUrl : preserves cache_ok Main.getCloudflaredUrl.
Proof. apply cache_ok_keeps, keeps_getCloudflaredUrl. insensitive. Qed.

(** The shape shared by every place that caches a probed URL. *)
Lemma cache_ok_probe_then {B} (k : option string -> M B) :
  (forall url, cached_url_ok url -> preserves cache_ok (k url)) ->
  preserves cache_ok (bind Main.getCloudflaredUrl k).
Proof.
  intros Hk. eapply preserves_bind_yields;
    [apply cache_ok_getCloudflaredUrl|apply getCloudflaredUrl_yields|exact Hk].
Qed.

Ltac cache_step :=
  first
    [ solve [auto]
    | solve [apply preserves_pure; auto with pure; pure_tac]
    | solve [apply cache_ok_assign; auto]
    | solve [apply cache_ok_keeps; apply keeps_modify; insensitive]
    | solve [apply cache_ok_keeps; apply keeps_axios; insensitive]
    | apply cache_ok_probe_then; intros
    | apply preserves_bind; [|intros]
    | apply preserves_try_catch; [|intros]
    | match goal with
      | |- preserves _ (if ?b then _ else _) => destruct b
      | |- preserves _ (match ?x with _ => _ end) => destruct x
      end ].

Lemma cache_ok_probe_once : preserves cache_ok Handlers.probe_once.
Proof. unfold Handlers.probe_once. repeat cache_step. Qed.

Lemma cache_ok_wait_for_tunnel n : preserves cache_ok (Handlers.wait_for_tunnel n).
Proof.
  pose proof cache_ok_probe_once.
  induction n as [|n IH]; simpl; repeat cache_step.
Qed.

Lemma cache_ok_fetchAvailableModels : preserves cache_ok Main.fetchAvailableModels.
Proof. apply cache_ok_keeps, keeps_fetchAvailableModels. insensitive. Qed.

Lemma cache_ok_register_server linkCode :
  preserves cache_ok (Handlers.register_server linkCode).
Proof.
  pose proof cache_ok_wait_for_tunnel. pose proof cache_ok_fetchAvailableModels.
  unfold Handlers.register_server, Handlers.choose_public_url.
  repeat cache_step.
Qed.

Lemma cache_ok_check_cloudflared : preserves cache_ok Handlers.check_cloudflared.
Proof. unfold Handlers.check_cloudflared. repeat cache_step. Qed.

Lemma cache_ok_get_tunnel_url : preserves cache_ok Handlers.get_tunnel_url.
Proof. unfold Handlers.get_tunnel_url. repeat cache_step. Qed.

Lemma cache_ok_get_system_info : preserves cache_ok Handlers.get_system_info.
Proof. unfold Handlers.get_system_info. repeat cache_step. Qed.

Lemma keeps_save_registration {X} (f : world -> X) data :
  (forall x w, f (set_registration_json x w) = f w) ->
  keeps f (Handlers.save_registration data).
Proof.
  intros Hfile. unfold Handlers.save_registration.
  apply keeps_try_catch; [|intros; apply keeps_pure, pure_ret].
  apply keeps_bind; [|intros; apply keeps_pure, pure_ret].
  assert (Hu : keeps f Main.unlinkSync).
  { intros w. unfold Main.unlinkSync.
    destruct (registration_json w); simpl; auto. }
  assert (Hw : forall t, keeps f (Main.writeFileSync t)).
  { intros [t|]; simpl; [apply keeps_modify; auto|apply keeps_pure, pure_throw]. }
  destruct data; auto.
  apply keeps_bind; [apply keeps_pure, pure_existsSync|].
  intros []; [exact Hu|apply keeps_pure, pure_ret].
Qed.

Lemma cache_ok_startCloudflaredTunnel available ticks :
  preserves cache_ok (Main.startCloudflaredTunnel available ticks).
Proof.
  assert (Hu : forall u, preserves cache_ok (Main.updateServerUrlIfRegistered u)).
  { intros u. apply cache_ok_keeps, keeps_updateServerUrlIfRegistered; insensitive. }
  unfold Main.startCloudflaredTunnel.
  destruct (wait_for_url_first 30 ticks) as [later ->].
  assert (Hst : cached_url_ok
                  (Main.tunnelUrl
                     match first_match (concat (firstn 30 ticks)) with
                     | Some u => Main.Scan (Some u) true
                     | None => Main.scan_init
                     end)).
  { destruct (first_match (concat (firstn 30 ticks))) eqn:E; simpl; auto.
    eapply first_match_form; eauto. }
  revert Hst. generalize (match first_match (concat (firstn 30 ticks)) with
                          | Some u => Main.Scan (Some u) true
                          | None => Main.scan_init
                          end).
  intros st Hst. repeat cache_step.
Qed.

Lemma cache_ok_monitorServices available ticks :
  preserves cache_ok (Main.monitorServices available ticks).
Proof.
  assert (Hu : forall u, preserves cache_ok (Main.updateServerUrlIfRegistered u)).
  { intros u. apply cache_ok_keeps, keeps_updateServerUrlIfRegistered; insensitive. }
  pose proof cache_ok_startCloudflaredTunnel.
  unfold Main.monitorServices. repeat cache_step.
Qed.

Lemma cache_ok_save_registration data :
  preserves cache_ok (Handlers.save_registration data).
Proof. apply cache_ok_keeps, keeps_save_registration. insensitive. Qed.

Lemma cache_ok_ui (c : M unit) (g : world -> world) :
  (forall w, detectedTunnelUrl (g w) = detectedTunnelUrl w) ->
  preserves cache_ok c -> preserves cache_ok (finally c g).
Proof.
  intros Hg Hc. apply preserves_finally; auto.
  intros w. unfold cache_ok. rewrite Hg. auto.
Qed.

Lemma cache_ok_showScreen s : preserves cache_ok (Renderer.showScreen s).
Proof. apply cache_ok_keeps, keeps_showScreen. insensitive. Qed.

Lemma cache_ok_submitLinkCode input :
  preserves cache_ok (Renderer.submitLinkCode input).
Proof.
  pose proof cache_ok_register_server. pose proof cache_ok_save_registration.
  pose proof cache_ok_showScreen.
  unfold Renderer.submitLinkCode, Renderer.alert, Renderer.show_failure.
  apply preserves_bind; [apply preserves_pure, pure_gets|intros busy].
  destruct busy; [apply preserves_pure, pure_ret|].
  destruct (negb _); [apply cache_ok_keeps, keeps_modify; insensitive|].
  apply preserves_bind; [apply cache_ok_keeps, keeps_modify; insensitive|intros _].
  apply cache_ok_ui; [insensitive|]. repeat cache_step.
Qed.

Lemma cache_ok_registerWithCode code o d m :
  preserves cache_ok (Renderer.registerWithCode code o d m).
Proof.
  pose proof cache_ok_register_server. pose proof cache_ok_save_registration.
  pose proof cache_ok_showScreen.
  unfold Renderer.registerWithCode, Renderer.alert, Renderer.show_failure.
  apply preserves_bind; [apply preserves_pure, pure_gets|intros busy].
  destruct busy; [apply preserves_pure, pure_ret|].
  destruct (negb _); [apply cache_ok_keeps, keeps_modify; insensitive|].
  apply preserves_bind; [apply cache_ok_keeps, keeps_modify; insensitive|intros _].
  apply cache_ok_ui; [insensitive|]. repeat cache_step.
Qed.

Lemma cache_ok_waitForOllama_from n :
  preserves cache_ok (Renderer.waitForOllama_from n).
Proof.
  assert (preserves cache_ok Handlers.check_ollama)
    by (apply cache_ok_keeps, keeps_check_ollama; insensitive).
  assert (forall m, preserves cache_ok (Renderer.displayModelsList m))
    by (intros; apply cache_ok_keeps, keeps_displayModelsList; insensitive).
  assert (preserves cache_ok Renderer.loadSystemInfo).
  { pose proof cache_ok_get_system_info.
    unfold Renderer.loadSystemInfo. repeat cache_step. }
  assert (preserves cache_ok Renderer.enableLinkCodeInput)
    by (apply cache_ok_keeps, keeps_enableLinkCodeInput; insensitive).
  pose proof cache_ok_showScreen.
  induction n as [|n IH]; simpl; repeat cache_step.
Qed.

Lemma cache_ok_step a : forall w, cache_ok w -> cache_ok (step a w).
Proof.
  destruct a; simpl; unfold exec.
  - unfold Main.on_ready. pose proof cache_ok_startCloudflaredTunnel.
    change (preserves cache_ok
              (Main.createWindow ;;;
               Main.startCloudflaredTunnel available ticks ;;; ret tt)).
    unfold Main.createWindow. repeat cache_step.
  - apply cache_ok_monitorServices.
  - apply cache_ok_register_server.
  - apply cache_ok_save_registration.
  - apply cache_ok_keeps, keeps_load_registration.
  - apply cache_ok_keeps, keeps_check_ollama; insensitive.
  - apply cache_ok_keeps, keeps_check_loaded_models; insensitive.
  - apply cache_ok_check_cloudflared.
  - apply cache_ok_get_tunnel_url.
  - apply cache_ok_get_system_info.
  - apply cache_ok_submitLinkCode.
  - apply cache_ok_registerWithCode.
  - pose proof cache_ok_check_cloudflared.
    assert (preserves cache_ok Handlers.check_ollama)
      by (apply cache_ok_keeps, keeps_check_ollama; insensitive).
    change (preserves cache_ok Renderer.checkServicesStatus).
    unfold Renderer.checkServicesStatus. repeat cache_step.
  - apply cache_ok_waitForOllama_from.
  - pose proof cache_ok_save_registration. pose proof cache_ok_showScreen.
    pose proof cache_ok_waitForOllama_from.
    change (preserves cache_ok Renderer.unlinkServer).
    unfold Renderer.unlinkServer, Renderer.waitForOllama,
      Renderer.enableLinkCodeInput.
    repeat cache_step.
  - intros w H. exact H.
Qed.

Lemma of_option_string_inj a b :
  Js.of_option_string a = Js.Str b -> a = Some b.
Proof. destruct a; simpl; intros H; inversion H; reflexivity. Qed.

Lemma check_cloudflared_url w u :
  cached_url_ok (detectedTunnelUrl w) ->
  fst (Handlers.check_cloudflared w) = Ret (Handlers.tunnel_found (Some u)) ->
  is_tunnel_url u.
Proof.
  intros Hc. unfold Handlers.check_cloudflared. munfold.
  destruct (Main.truthy_url (detectedTunnelUrl w)); cbn [fst].
  - intros H. inversion H as [E]. apply of_option_string_inj in E.
    rewrite E in Hc. exact Hc.
  - rewrite getCloudflaredUrl_run.
    destruct (probe_answer (hd refused (metrics_feed w))) as [x|] eqn:P;
      cbn; [|discriminate].
    destruct (JsString.nonempty x); cbn; [|discriminate].
    intros H. inversion H. subst x. eapply probe_answer_form; eauto.
Qed.

Lemma get_tunnel_url_url w u :
  cached_url_ok (detectedTunnelUrl w) ->
  fst (Handlers.get_tunnel_url w) = Ret (Handlers.tunnel_found (Some u)) ->
  is_tunnel_url u.
Proof.
  intros Hc. unfold Handlers.get_tunnel_url. munfold.
  rewrite getCloudflaredUrl_run.
  destruct (probe_answer (hd refused (metrics_feed w))) as [x|] eqn:P; cbn.
  - destruct (JsString.nonempty x); cbn.
    + intros H. inversion H. subst x. eapply probe_answer_form; eauto.
    + destruct (Main.truthy_url (detectedTunnelUrl w)); cbn;
        [|discriminate].
      intros H. inversion H as [E]. apply of_option_string_inj in E.
      rewrite E in Hc. exact Hc.
  - destruct (Main.truthy_url (detectedTunnelUrl w)); cbn; [|discriminate].
    intros H. inversion H as [E]. apply of_option_string_inj in E.
    rewrite E in Hc. exact Hc.
Qed.

(** C10. From the start of the process on, whatever the application does and
    whatever the network and the tunnel subprocess answer, the cached tunnel
    URL is [null] or of the form [https://<label>.trycloudflare.com] with a
    non-empty label of lowercase letters, digits and hyphens; so is every URL
    that [getCloudflaredUrl] or [startCloudflaredTunnel] returns, and every
    URL that [check-cloudflared] and [get-tunnel-url] report as found. *)
Theorem cached_tunnel_url_is_well_formed actions w available ticks :
  let now := run actions (boot w) in
  cached_url_ok (detectedTunnelUrl now) /\
  (forall u, fst (Main.getCloudflaredUrl w) = Ret (Some u) -> is_tunnel_url u) /\
  (forall u, fst (Main.startCloudflaredTunnel available ticks w) = Ret (Some u) ->
             is_tunnel_url u) /\
  (forall u,
     fst (Handlers.check_cloudflared now) = Ret (Handlers.tunnel_found (Some u)) \/
     fst (Handlers.get_tunnel_url now) = Ret (Handlers.tunnel_found (Some u)) ->
     is_tunnel_url u).
Proof.
  intros now.
  assert (Hnow : cached_url_ok (detectedTunnelUrl now)).
  { assert (H : cache_ok (boot w)) by exact Logic.I.
    unfold now. revert H. generalize (boot w). unfold run.
    induction actions as [|a actions IH]; intros w0 H; simpl; auto.
    apply IH. apply cache_ok_step. exact H. }
  split; [exact Hnow|]. split; [|split].
  - intros u H. exact (getCloudflaredUrl_yields w (Some u) H).
  - intros u. rewrite startCloudflaredTunnel_result.
    destruct available; [|discriminate]. intros H.
    apply (first_match_form (concat (firstn 30 ticks))). congruence.
  - intros u [H|H].
    + eapply check_cloudflared_url; eauto.
    + eapply get_tunnel_url_url; eauto.
Qed.

Lemma cached_tunnel_url_is_well_formed_witness :
  is_tunnel_url "https://abc123.trycloudflare.com" /\
  is_tunnel_url "https://first-one.trycloudflare.com".
Proof.
  split.
  - apply (proj1 (proj2 (cached_tunnel_url_is_well_formed
                           [] Sample.tunnelled true Sample.output))).
    reflexivity.
  - apply (proj2 (proj2 (proj2 (cached_tunnel_url_is_well_formed
                           [AppReady true Sample.output] Sample.tunnelled
                           true Sample.output)))).
    left. reflexivity.
Defined.

(** ** The persisted record *)

Lemma file_ok_keeps {A} (c : M A) :
  keeps registration_json c -> preserves file_ok c.
Proof.
  apply preserves_keeps. unfold file_ok. intros w w' E. rewrite E. auto.
Qed.

Lemma yields_bind {A B} (c : M A) (k : A -> M B) (Q : B -> Prop) :
  (forall a, yields (k a) Q) -> yields (bind c k) Q.
Proof.
  intros Hk w b. unfold bind.
  destruct (c w) as [[a|e] w']; simpl; [apply Hk|discriminate].
Qed.

Lemma yields_throw {A} (e : error) (Q : A -> Prop) : yields (throw e) Q.
Proof. intros w a H. discriminate. Qed.

Lemma register_server_yields linkCode :
  yields (Handlers.register_server linkCode) register_result.
Proof.
  unfold Handlers.register_server.
  apply yields_try_catch;
    [|intros; apply yields_ret; left; eauto].
  apply yields_bind; intros s.
  apply yields_bind; intros url.
  apply yields_bind; intros ms.
  apply yields_try_catch;
    [|intros; apply yields_ret; left; eauto].
  apply yields_bind; intros data.
  apply yields_bind; intros bad.
  destruct bad; [apply yields_throw|].
  apply yields_ret. right. eauto.
Qed.

Lemma lookup_assign_same k v fields :
  Js.lookup k (Js.assign k v fields) = Some v.
Proof.
  induction fields as [|[k' x] fs IH]; simpl.
  - rewrite String.eqb_refl. reflexivity.
  - destruct (String.eqb k k') eqn:E; simpl; rewrite E; auto.
Qed.

Lemma nonempty_string_or_dash url :
  nonempty_string (Js.or_else (Js.Str url) (Js.Str "-")).
Proof.
  unfold Js.or_else. simpl. destruct url; simpl.
  - exists "-". split; [reflexivity|discriminate].
  - eexists. split; [reflexivity|discriminate].
Qed.

Lemma saved_record_ok s data url ms code timestamp :
  record_url_invariant
    (Js.json_inner
       (Renderer.saved_record (Handlers.registered_data s data url ms)
                              code timestamp)).
Proof.
  intros _. unfold Renderer.saved_record.
  destruct (nonempty_string_or_dash url) as (u & Hu & Hne).
  rewrite (prop_json_inner _ "url" (Js.Str u)).
  - exists u. auto.
  - cbn -[Js.or_else]. rewrite <- Hu. reflexivity.
  - discriminate.
Qed.

Lemma saved_record_old_ok data o d m timestamp :
  record_url_invariant
    (Js.json_inner (Renderer.saved_record_old data o d m timestamp)).
Proof.
  intros H. unfold Renderer.saved_record_old in H.
  rewrite prop_json_inner_missing in H; [discriminate|reflexivity].
Qed.

Lemma file_ok_save_registration data :
  record_url_invariant (Js.json_inner data) ->
  preserves file_ok (Handlers.save_registration data).
Proof.
  intros Hd w Hw. unfold file_ok in *.
  destruct data;
    try (rewrite save_value_run by discriminate; exact Hd).
  - exact Hw.
  - pose proof (save_null_clears w) as E. unfold exec in E. rewrite E.
    exact Logic.I.
Qed.

Lemma update_file w newUrl :
  registration_json (exec (Main.updateServerUrlIfRegistered newUrl) w)
    = registration_json w \/
  exists fields,
    registration_json (exec (Main.updateServerUrlIfRegistered newUrl) w)
    = Fs.File (Fs.JsonText
                 (Js.json_inner
                    (Js.Obj (Js.assign "url" (Js.Str newUrl) fields)))).
Proof.
  unfold Main.updateServerUrlIfRegistered, Main.existsSync, Main.readFileSync,
    Main.collectSystemInfo.
  munfold.
  destruct (registration_json w) as [|t] eqn:Hf;
    cbn -[Js.prop Main.notifyRegistrationWarning]; [auto|].
  rewrite Hf.
  destruct (read_fault w); cbn -[Js.prop Main.notifyRegistrationWarning];
    [rewrite notify_file; auto|].
  destruct t as [rec|raw]; cbn -[Js.prop Main.notifyRegistrationWarning];
    [|rewrite notify_file; auto].
  destruct (Js.truthy rec); cbn -[Js.prop Main.notifyRegistrationWarning]; [|auto].
  destruct (Js.truthy (Js.prop rec "registered")) eqn:Hreg;
    cbn -[Js.prop Main.notifyRegistrationWarning]; [|auto].
  destruct (Js.truthy (Js.prop rec "serverId"));
    cbn -[Js.prop Main.notifyRegistrationWarning]; [|auto].
  destruct (Js.strict_eq_str (Js.prop rec "url") newUrl);
    cbn -[Js.prop Main.notifyRegistrationWarning]; [auto|].
  destruct (system w) as [s|] eqn:Hs;
    cbn -[Js.prop Main.notifyRegistrationWarning]; [|rewrite notify_file; auto].
  destruct (fetchAvailableModels_run w) as [ms Hms]. rewrite Hms.
  cbn -[Js.prop Main.notifyRegistrationWarning].
  destruct (Js.prop rec "serverId") as [| | | |sid| |] eqn:Hsid;
    cbn -[Js.prop Main.notifyRegistrationWarning];
    try (rewrite notify_file; auto).
  unfold axios. cbn -[Js.prop Main.notifyRegistrationWarning].
  destruct (hd refused (register_feed w)) as [data|e];
    cbn -[Js.prop Main.notifyRegistrationWarning];
    [|rewrite notify_file; auto].
  destruct rec; try discriminate Hreg. right. eexists. reflexivity.
Qed.

Lemma file_ok_update newUrl :
  JsString.nonempty newUrl = true ->
  preserves file_ok (Main.updateServerUrlIfRegistered newUrl).
Proof.
  intros Hne w Hw. unfold file_ok in *.
  destruct (update_file w newUrl) as [E|[fields E]]; unfold exec in E;
    rewrite E; [exact Hw|].
  intros _. rewrite (prop_json_inner _ "url" (Js.Str newUrl)).
  - exists newUrl. split; [reflexivity|]. destruct newUrl; discriminate.
  - apply lookup_assign_same.
  - discriminate.
Qed.

Ltac file_step :=
  first
    [ solve [auto]
    | solve [apply preserves_pure; auto with pure; pure_tac]
    | solve [apply file_ok_keeps; apply keeps_modify; insensitive]
    | solve [apply file_ok_keeps; apply keeps_axios; insensitive]
    | apply preserves_bind; [|intros]
    | apply preserves_try_catch; [|intros]
    | match goal with
      | |- preserves _ (if ?b then _ else _) => destruct b eqn:?
      | |- preserves _ (match ?x with _ => _ end) => destruct x eqn:?
      end ].

Lemma truthy_url_text u :
  Main.truthy_url u = true -> JsString.nonempty (Main.url_text u) = true.
Proof. destruct u; simpl; [auto|discriminate]. Qed.

Lemma file_ok_startCloudflaredTunnel available ticks :
  preserves file_ok (Main.startCloudflaredTunnel available ticks).
Proof.
  unfold Main.startCloudflaredTunnel.
  generalize (Main.wait_for_url 30 ticks Main.scan_init). intros [st later].
  apply preserves_try_catch; [|intros; apply preserves_pure, pure_ret].
  destruct (negb available); [apply preserves_pure, pure_ret|].
  apply preserves_bind; [apply file_ok_keeps, keeps_modify; insensitive|intros _].
  destruct (Main.truthy_url (Main.tunnelUrl st)) eqn:E;
    [|apply preserves_pure, pure_ret].
  apply preserves_bind; [apply file_ok_keeps, keeps_modify; insensitive|intros _].
  apply preserves_bind; [|intros; apply preserves_pure, pure_ret].
  apply file_ok_update, truthy_url_text, E.
Qed.

Lemma file_ok_monitorServices available ticks :
  preserves file_ok (Main.monitorServices available ticks).
Proof.
  pose proof file_ok_startCloudflaredTunnel.
  unfold Main.monitorServices.
  apply preserves_bind; [repeat file_step|intros _].
  apply preserves_try_catch; [|intros; apply preserves_pure, pure_ret].
  apply preserves_bind;
    [apply file_ok_keeps, keeps_getCloudflaredUrl; insensitive|intros url].
  destruct (Main.truthy_url url) eqn:E; [|repeat file_step].
  apply preserves_bind; [apply file_ok_keeps, keeps_modify; insensitive|intros _].
  apply file_ok_update, truthy_url_text, E.
Qed.

Lemma file_ok_register_server linkCode :
  preserves file_ok (Handlers.register_server linkCode).
Proof. apply file_ok_keeps, keeps_register_server; insensitive. Qed.

Lemma file_ok_showScreen s : preserves file_ok (Renderer.showScreen s).
Proof. apply file_ok_keeps, keeps_showScreen. insensitive. Qed.

Lemma confirmed_yields r :
  register_result r ->
  yields (Renderer.confirmed r)
    (fun ok => ok = true ->
               exists s data url ms,
                 Js.prop r "data" = Handlers.registered_data s data url ms).
Proof.
  intros [[err ->]|(s & data & url & ms & ->)] w ok.
  - cbn. intros E. inversion E. discriminate.
  - intros _ _. exists s, data, url, ms. reflexivity.
Qed.

Lemma file_ok_submitLinkCode input :
  preserves file_ok (Renderer.submitLinkCode input).
Proof.
  pose proof file_ok_showScreen.
  unfold Renderer.submitLinkCode, Renderer.alert, Renderer.show_failure.
  apply preserves_bind; [apply preserves_pure, pure_gets|intros busy].
  destruct busy; [apply preserves_pure, pure_ret|].
  destruct (negb _); [apply file_ok_keeps, keeps_modify; insensitive|].
  apply preserves_bind; [apply file_ok_keeps, keeps_modify; insensitive|intros _].
  apply preserves_finally; [|intros w Hw; exact Hw].
  apply preserves_try_catch; [|intros; repeat file_step].
  eapply preserves_bind_yields;
    [apply file_ok_register_server|apply register_server_yields|].
  intros r Hr.
  eapply preserves_bind_yields;
    [apply preserves_pure, pure_confirmed|apply confirmed_yields, Hr|].
  intros ok Hok. destruct ok; [|apply preserves_pure, pure_throw].
  destruct (Hok eq_refl) as (s & data & url & ms & ->).
  apply preserves_bind; [apply preserves_pure, pure_gets|intros timestamp].
  apply preserves_bind; [|intros; auto].
  apply file_ok_save_registration, saved_record_ok.
Qed.

Lemma file_ok_registerWithCode code o d m :
  preserves file_ok (Renderer.registerWithCode code o d m).
Proof.
  pose proof file_ok_showScreen. pose proof file_ok_register_server.
  assert (forall data ts,
            preserves file_ok
              (Handlers.save_registration
                 (Renderer.saved_record_old data o d m ts)))
    by (intros; apply file_ok_save_registration, saved_record_old_ok).
  unfold Renderer.registerWithCode, Renderer.alert, Renderer.show_failure.
  apply preserves_bind; [apply preserves_pure, pure_gets|intros busy].
  destruct busy; [apply preserves_pure, pure_ret|].
  destruct (negb _); [apply file_ok_keeps, keeps_modify; insensitive|].
  apply preserves_bind; [apply file_ok_keeps, keeps_modify; insensitive|intros _].
  apply preserves_finally; [|intros w Hw; exact Hw].
  repeat file_step.
Qed.

Lemma file_ok_unlinkServer : preserves file_ok Renderer.unlinkServer.
Proof.
  intros w _. unfold file_ok.
  pose proof (unlinkServer_clears w) as E.
  unfold exec in E. rewrite E. exact Logic.I.
Qed.

Lemma file_ok_step a :
  app_action a = true -> forall w, file_ok w -> file_ok (step a w).
Proof.
  destruct a; simpl; unfold exec; intros Happ; try discriminate.
  - unfold Main.on_ready. pose proof file_ok_startCloudflaredTunnel.
    change (preserves file_ok
              (Main.createWindow ;;;
               Main.startCloudflaredTunnel available ticks ;;; ret tt)).
    unfold Main.createWindow. repeat file_step.
  - apply file_ok_monitorServices.
  - apply file_ok_register_server.
  - apply file_ok_keeps, keeps_load_registration.
  - apply file_ok_keeps, keeps_check_ollama; insensitive.
  - apply file_ok_keeps, keeps_check_loaded_models; insensitive.
  - apply file_ok_keeps, keeps_check_cloudflared; insensitive.
  - apply file_ok_keeps, keeps_get_tunnel_url; insensitive.
  - apply file_ok_keeps, keeps_get_system_info; insensitive.
  - apply file_ok_submitLinkCode.
  - apply file_ok_registerWithCode.
  - apply file_ok_keeps, keeps_checkServicesStatus; insensitive.
  - apply file_ok_keeps, keeps_waitForOllama_from; insensitive.
  - apply file_ok_unlinkServer.
  - intros w H. exact H.
Qed.

Lemma register_server_confirmed w linkCode s fields rest :
  system w = Some s ->
  register_feed w = Resolved (Js.Obj fields) :: rest ->
  (Js.lookup "code" fields = Some (Js.Str Handlers.success_marker) \/
   Js.truthy (Js.prop (Js.Obj fields) "userId") = true) ->
  exists url ms w',
    Handlers.register_server linkCode w =
      (Ret (Js.Obj [("success", Js.Bool true);
                    ("data", Handlers.registered_data s (Js.Obj fields) url ms)]),
       w') /\
    registration_json w' = registration_json w /\
    now w' = now w.
Proof.
  intros Hs Hfeed Hok.
  unfold Handlers.register_server, Main.collectSystemInfo. munfold.
  rewrite Hs.
  destruct (choose_public_url_total w) as [url Hu].
  pose proof (keeps_choose_public_url register_feed
                (fun _ => eq_refl) (fun _ _ => eq_refl) w) as K1.
  pose proof (keeps_choose_public_url registration_json
                (fun _ => eq_refl) (fun _ _ => eq_refl) w) as K2.
  pose proof (keeps_choose_public_url now
                (fun _ => eq_refl) (fun _ _ => eq_refl) w) as K3.
  destruct (Handlers.choose_public_url w) as [o w1]. simpl in Hu, K1, K2, K3.
  subst o.
  destruct (fetchAvailableModels_run w1) as [ms Hms]. rewrite Hms.
  unfold axios. cbn -[Handlers.unconfirmed Handlers.registered_data].
  rewrite K1, Hfeed. cbn -[Handlers.unconfirmed Handlers.registered_data].
  rewrite confirmed_run by assumption.
  eexists url, ms, _. split; [reflexivity|]. cbn. auto.
Qed.

(** C6, as the code has it. Every registration file the application writes
    keeps the part of the invariant about the URL: [registered == true]
    implies a non-empty [url].  When the confirming response carries a
    non-empty string as [serverId], the record that [submitLinkCode] saves
    has it and satisfies the whole invariant.  A [serverId] is not required
    of a record: for a readable record whose [serverId] is falsy the
    URL-drift update makes no call and no write. *)
Theorem persisted_record_has_url :
  (forall actions w,
     forallb app_action actions = true ->
     file_holds record_url_invariant (registration_json w) ->
     file_holds record_url_invariant (registration_json (run actions w))) /\
  (forall w input s fields rest sid,
     system w = Some s ->
     register_feed w = Resolved (Js.Obj fields) :: rest ->
     (Js.lookup "code" fields = Some (Js.Str "SERVER_REGISTER_SUCCESS") \/
      Js.truthy (Js.prop (Js.Obj fields) "userId") = true) ->
     Js.lookup "serverId" fields = Some (Js.Str sid) ->
     sid <> EmptyString ->
     isSubmitting w = false ->
     Renderer.valid_code (JsString.toUpperCase (JsString.trim input)) = true ->
     exists rec,
       registration_json (exec (Renderer.submitLinkCode input) w)
         = Fs.File (Fs.JsonText rec) /\
       Js.prop rec "registered" = Js.Bool true /\
       Js.prop rec "serverId" = Js.Str sid /\
       record_invariant rec) /\
  (forall w rec newUrl,
     registration_json w = Fs.File (Fs.JsonText rec) ->
     read_fault w = false ->
     Js.truthy (Js.prop rec "serverId") = false ->
     Main.updateServerUrlIfRegistered newUrl w = (Ret tt, w)).
Proof.
  split; [|split].
  - intros actions. unfold run.
    induction actions as [|a actions IH]; intros w Happ Hw; simpl; auto.
    simpl in Happ. apply andb_true_iff in Happ. destruct Happ as [Ha Hrest].
    apply IH; auto. apply file_ok_step; auto.
  - intros w input s fields rest sid Hs Hfeed Hok Hsid Hne Hbusy Hvalid.
    unfold Renderer.submitLinkCode. munfold. rewrite Hbusy, Hvalid. cbn [negb].
    set (code := JsString.toUpperCase (JsString.trim input)).
    set (w0 := Renderer.set_isSubmitting true w).
    destruct (register_server_confirmed w0 code s fields rest Hs Hfeed Hok)
      as (url & ms & w' & Hrun & Hfile & Hnow).
    rewrite Hrun. unfold Renderer.confirmed, getp, Js.get. munfold.
    set (D := Handlers.registered_data s (Js.Obj fields) url ms).
    change (Js.prop (Js.Obj [("success", Js.Bool true); ("data", D)]) "success")
      with (Js.Bool true).
    change (Js.prop (Js.Obj [("success", Js.Bool true); ("data", D)]) "data")
      with D.
    change (Js.nullish D) with false.
    change (Js.prop D "registered") with (Js.Bool true).
    pose proof (saved_record_ok s (Js.Obj fields) url ms code (now w')) as Hrec.
    fold D in Hrec. revert Hrec.
    unfold Renderer.saved_record.
    cbn -[Js.json_inner Js.prop Js.or_else record_url_invariant].
    intros Hrec.
    assert (Hreg : forall fs,
              Js.lookup "registered" fs = Some (Js.Bool true) ->
              Js.prop (Js.json_inner (Js.Obj fs)) "registered" = Js.Bool true).
    { intros fs H. rewrite (prop_json_inner fs "registered" (Js.Bool true));
        [reflexivity|exact H|discriminate]. }
    eexists. split; [reflexivity|]. split; [apply Hreg; reflexivity|].
    assert (Hid : Js.prop (Js.Obj fields) "serverId" = Js.Str sid).
    { unfold Js.prop. rewrite Hsid. reflexivity. }
    split.
    + rewrite (prop_json_inner _ "serverId" (Js.Str sid));
        [reflexivity| |discriminate].
      cbn -[Js.prop].
      change (Js.prop D "serverId") with (Js.prop (Js.Obj fields) "serverId").
      rewrite Hid. reflexivity.
    + intros Hr. split; [|exact (Hrec Hr)].
      exists sid. split; [|exact Hne].
      rewrite (prop_json_inner _ "serverId" (Js.Str sid));
        [reflexivity| |discriminate].
      cbn -[Js.prop].
      change (Js.prop D "serverId") with (Js.prop (Js.Obj fields) "serverId").
      rewrite Hid. reflexivity.
  - intros w rec newUrl Hf Hr Hsid.
    unfold Main.updateServerUrlIfRegistered, Main.existsSync, Main.readFileSync.
    munfold. rewrite Hf. cbn -[Js.prop]. rewrite Hf, Hr. cbn -[Js.prop].
    rewrite Hsid. cbn -[Js.prop]. rewrite !orb_true_r. reflexivity.
Qed.

Lemma persisted_record_has_url_witness :
  file_holds record_url_invariant
    (registration_json
       (run [UiSubmitLinkCode "abc123"; MonitorTick true Sample.output]
            Sample.confirming)) /\
  (exists rec,
    registration_json (exec (Renderer.submitLinkCode "abc123") Sample.confirming)
      = Fs.File (Fs.JsonText rec) /\
    Js.prop rec "registered" = Js.Bool true /\
    Js.prop rec "serverId" = Js.Str "SRV-9F" /\
    record_invariant rec) /\
  Main.updateServerUrlIfRegistered Sample.new_url
    (run [UiSubmitLinkCode "abc123"] Sample.bare)
  = (Ret tt, run [UiSubmitLinkCode "abc123"] Sample.bare).
Proof.
  split; [|split].
  - apply (proj1 persisted_record_has_url); [reflexivity|exact Logic.I].
  - apply (proj1 (proj2 persisted_record_has_url) Sample.confirming "abc123"
             Sample.machine Sample.confirmation [] "SRV-9F");
      first [reflexivity | discriminate | left; reflexivity].
  - eapply (proj2 (proj2 persisted_record_has_url));
      [vm_compute; reflexivity|reflexivity|reflexivity].
Defined.

(** C6 as stated fails: a response that confirms with the success code and
    carries no [serverId] makes [submitLinkCode] save a record with
    [registered == true] and no link identifier. *)
Lemma persisted_record_without_server_id :
  forallb app_action [UiSubmitLinkCode "abc123"] = true /\
  file_holds record_invariant (registration_json Sample.bare) /\
  ~ file_holds record_invariant
      (registration_json (run [UiSubmitLinkCode "abc123"] Sample.bare)).
Proof.
  split; [reflexivity|]. split; [exact Logic.I|].
  set (f := registration_json (run [UiSubmitLinkCode "abc123"] Sample.bare)).
  vm_compute in f. subst f. intros H.
  destruct (H eq_refl) as [(sid & E & _) _]. discriminate E.
Qed.

(** ** A drift scenario *)

Lemma truthy_json_inner v : Js.truthy (Js.json_inner v) = Js.truthy v.
Proof. destruct v; reflexivity. Qed.

Lemma lookup_assign_other k k' v fields :
  String.eqb k k' = false ->
  Js.lookup k (Js.assign k' v fields) = Js.lookup k fields.
Proof.
  intros Hk. induction fields as [|[k0 x] fs IH]; simpl.
  - rewrite Hk. reflexivity.
  - destruct (String.eqb k' k0) eqn:E; simpl.
    + destruct (String.eqb k k0) eqn:E0; [|reflexivity].
      apply String.eqb_eq in E, E0. subst. rewrite String.eqb_refl in Hk.
      discriminate.
    + destruct (String.eqb k k0); auto.
Qed.

Lemma truthy_prop_survives fields k newUrl :
  String.eqb k "url" = false ->
  Js.truthy (Js.prop (Js.Obj fields) k) = true ->
  Js.truthy
    (Js.prop (Js.json_inner (Js.Obj (Js.assign "url" (Js.Str newUrl) fields))) k)
  = true.
Proof.
  intros Hk Ht. unfold Js.prop in Ht.
  destruct (Js.lookup k fields) as [x|] eqn:E; [|discriminate].
  rewrite (prop_json_inner _ k x).
  - rewrite truthy_json_inner. exact Ht.
  - rewrite lookup_assign_other; assumption.
  - intros ->. discriminate.
Qed.

(** X28. When the tunnel URL has changed and the server answers, the update
    sends one registration call with the stored identifier and the new URL,
    stores the new URL, and a second check with the same URL does nothing. *)
Lemma drift_update_then_silence w newUrl fields sid s data rest :
  registration_json w = Fs.File (Fs.JsonText (Js.Obj fields)) ->
  read_fault w = false ->
  Js.truthy (Js.prop (Js.Obj fields) "registered") = true ->
  Js.prop (Js.Obj fields) "serverId" = Js.Str sid ->
  sid <> EmptyString ->
  Js.strict_eq_str (Js.prop (Js.Obj fields) "url") newUrl = false ->
  system w = Some s ->
  register_feed w = Resolved data :: rest ->
  let w1 := exec (Main.updateServerUrlIfRegistered newUrl) w in
  (exists ms,
     http_log w1 =
       PostRegister (Payload (JsString.toLowerCase sid) (deviceId s) (osInfo s)
                             (hardware s) newUrl ms)
       :: GetTags :: http_log w) /\
  (exists rec1,
     registration_json w1 = Fs.File (Fs.JsonText rec1) /\
     Js.prop rec1 "url" = Js.Str newUrl) /\
  exec (Main.updateServerUrlIfRegistered newUrl) w1 = w1.
Proof.
  intros Hf Hr Hreg Hsid Hne Hurl Hs Hfeed w1.
  assert (Hsid' : Js.truthy (Js.prop (Js.Obj fields) "serverId") = true).
  { rewrite Hsid. destruct sid; [contradiction|reflexivity]. }
  destruct (fetchAvailableModels_run w) as [ms Hms].
  assert (Hw1 : w1 =
    set_registration_json
      (Fs.File (Fs.JsonText
         (Js.json_inner (Js.Obj (Js.assign "url" (Js.Str newUrl) fields)))))
      (snd (exchange
              (PostRegister (Payload (JsString.toLowerCase sid) (deviceId s)
                               (osInfo s) (hardware s) newUrl ms))
              (snd (exchange GetTags w))))).
  { unfold w1, exec, Main.updateServerUrlIfRegistered, Main.existsSync,
      Main.readFileSync, Main.collectSystemInfo.
    munfold. rewrite Hf. cbn -[Js.prop Js.json_inner]. rewrite Hf, Hr.
    cbn -[Js.prop Js.json_inner]. rewrite Hreg, Hsid', Hurl.
    cbn -[Js.prop Js.json_inner]. rewrite Hs, Hms.
    cbn -[Js.prop Js.json_inner]. rewrite Hsid.
    unfold axios. cbn -[Js.prop Js.json_inner]. rewrite !Hfeed.
    unfold set_registration_json, Fs.write_text.
    cbn -[Js.prop Js.json_inner]. rewrite ?Hs, ?Hr, ?Hf, ?Hfeed.
    reflexivity. }
  split; [|split].
  - exists ms. rewrite Hw1. reflexivity.
  - eexists. rewrite Hw1. split; [reflexivity|].
    rewrite (prop_json_inner _ "url" (Js.Str newUrl));
      [reflexivity|apply lookup_assign_same|discriminate].
  - unfold exec.
    rewrite (update_skips w1
               (Js.json_inner (Js.Obj (Js.assign "url" (Js.Str newUrl) fields)))
               newUrl); [reflexivity| | | | |].
    + rewrite Hw1. reflexivity.
    + rewrite Hw1. exact Hr.
    + apply truthy_prop_survives; [reflexivity|exact Hreg].
    + apply truthy_prop_survives; [reflexivity|exact Hsid'].
    + rewrite (prop_json_inner _ "url" (Js.Str newUrl));
        [reflexivity|apply lookup_assign_same|discriminate].
Qed.

(** The scenario on the sample installation. *)
Example drift_scenario :
  let w1 := exec (Main.updateServerUrlIfRegistered Sample.new_url)
                 Sample.registered in
  registration_json w1 = Fs.File (Fs.JsonText Sample.record') /\
  length (http_log w1) = 2 /\
  exec (Main.updateServerUrlIfRegistered Sample.new_url) w1 = w1.
Proof. repeat split. Qed.

(** ** Sanity checks of the model *)

Example match_takes_leftmost_url :
  Regex.match_tunnel_url
    "INF |  https://a-b1.trycloudflare.com  | https://zz.trycloudflare.com"
  = Some "https://a-b1.trycloudflare.com".
Proof. reflexivity. Qed.

Example match_rejects_uppercase_label :
  Regex.match_tunnel_url "https://ABC.trycloudflare.com" = None.
Proof. reflexivity. Qed.

Example probe_reads_metrics :
  fst (Main.getCloudflaredUrl Sample.tunnelled)
  = Ret (Some "https://abc123.trycloudflare.com").
Proof. reflexivity. Qed.

Example code_is_trimmed_and_upper_cased :
  JsString.toUpperCase (JsString.trim "  ab c1 ") = "AB C1".
Proof. reflexivity. Qed.

Example registration_round_trip :
  let w1 := exec (Renderer.submitLinkCode "abc123") Sample.confirming in
  screen w1 = "screen-success" /\
  Js.prop (fst_value (Handlers.load_registration w1)) "serverId"
    = Js.Str "SRV-9F" /\
  Js.prop (fst_value (Handlers.load_registration w1)) "url"
    = Js.Str "http://localhost:11434".
Proof. repeat split. Qed.
(** ** More on the pattern of the tunnel URL *)

Section RegexMore.
Import Regex.

Lemma more_prefix cls (k : string -> option string) t m :
  (forall t' m', k t' = Some m' -> exists post, t' = (m' ++ post)%string) ->
  more cls k t = Some m -> exists post, t = (m ++ post)%string.
Proof.
  intros Hk. revert m. induction t as [|c t IH]; intros m; simpl.
  - apply Hk.
  - destruct (cls c); [|apply Hk].
    destruct (more cls k t) as [m1|] eqn:E.
    + intros H; inversion H; subst. destruct (IH m1 eq_refl) as [post ->].
      exists post. reflexivity.
    + apply Hk.
Qed.

Lemma match_here_prefix r : forall s m,
  match_here r s = Some m -> exists post, s = (m ++ post)%string.
Proof.
  induction r as [|a r IH]; intros s m; simpl.
  - intros H; inversion H; subst. exists s. reflexivity.
  - destruct a as [c|cls]; destruct s as [|c' s]; try discriminate.
    + destruct (Ascii.eqb c c'); [|discriminate].
      destruct (match_here r s) as [m1|] eqn:E; simpl; [|discriminate].
      intros H; inversion H; subst. destruct (IH _ _ E) as [post ->].
      exists post. reflexivity.
    + destruct (cls c'); [|discriminate].
      destruct (more cls (match_here r) s) as [m1|] eqn:E; simpl; [|discriminate].
      intros H; inversion H; subst.
      destruct (more_prefix cls _ _ _ (IH) E) as [post ->].
      exists post. reflexivity.
Qed.

Lemma search_leftmost r : forall s m,
  search r s = Some m ->
  exists pre post,
    s = (pre ++ m ++ post)%string /\
    forall p1 c p2, pre = (p1 ++ String c p2)%string ->
                    match_here r (String c p2 ++ m ++ post)%string = None.
Proof.
  induction s as [|c s IH]; intros m; simpl.
  - destruct (match_here r EmptyString) as [m1|] eqn:E; [|discriminate].
    intros H; inversion H; subst.
    destruct (match_here_prefix _ _ _ E) as [post Hp].
    exists EmptyString, post. split; [exact Hp|].
    intros [|? ?] ? ? ?; discriminate.
  - destruct (match_here r (String c s)) as [m1|] eqn:E.
    + intros H; inversion H; subst.
      destruct (match_here_prefix _ _ _ E) as [post Hp].
      exists EmptyString, post. split; [exact Hp|].
      intros [|? ?] ? ? ?; discriminate.
    + intros H. destruct (IH _ H) as (pre & post & -> & Hl).
      exists (String c pre), post. split; [reflexivity|].
      intros [|c1 p1] c2 p2 Hpre; simpl in Hpre; inversion Hpre; subst.
      * exact E.
      * eapply Hl. reflexivity.
Qed.

Lemma search_here r s m : match_here r s = Some m -> search r s = Some m.
Proof. intros H. destruct s; simpl; rewrite H; reflexivity. Qed.

Lemma match_here_lits a : forall r s,
  match_here (lits a ++ r) (a ++ s)%string
  = option_map (fun m => (a ++ m)%string) (match_here r s).
Proof.
  induction a as [|c a IH]; intros r s; simpl.
  - destruct (match_here r s); reflexivity.
  - rewrite Ascii.eqb_refl, IH. destruct (match_here r s); reflexivity.
Qed.

Lemma more_run cls (k : string -> option string) label : forall rest m,
  (forall c, In c (list_ascii_of_string label) -> cls c = true) ->
  k rest = Some m ->
  (forall c t, rest = String c t -> cls c = false) ->
  more cls k (label ++ rest)%string = Some (label ++ m)%string.
Proof.
  induction label as [|c label IH]; intros rest m Hall Hk Hstop; simpl.
  - destruct rest as [|c t]; simpl; [exact Hk|].
    rewrite (Hstop c t eq_refl). exact Hk.
  - rewrite (Hall c (or_introl eq_refl)).
    rewrite (IH rest m); auto.
    intros c' Hc'. apply Hall. right. exact Hc'.
Qed.

Lemma match_here_tunnel_url label post :
  label <> EmptyString ->
  label_word label ->
  match_tunnel_url ("https://" ++ label ++ ".trycloudflare.com" ++ post)%string
  = Some ("https://" ++ label ++ ".trycloudflare.com")%string.
Proof.
  intros Hne Hall. unfold match_tunnel_url, tunnel_re.
  destruct label as [|c label]; [congruence|].
  assert (E : match_here (lits "https://" ++ [Plus label_char] ++ lits ".trycloudflare.com")
                ("https://" ++ String c label ++ ".trycloudflare.com" ++ post)%string
              = Some ("https://" ++ String c label ++ ".trycloudflare.com")%string).
  { rewrite match_here_lits.
    change (([Plus label_char] ++ lits ".trycloudflare.com"))
      with (Plus label_char :: lits ".trycloudflare.com").
    cbn [match_here append].
    rewrite (Hall c (or_introl eq_refl)).
    rewrite (more_run label_char _ label (".trycloudflare.com" ++ post)%string
               ".trycloudflare.com").
    - reflexivity.
    - intros c' Hc'. apply Hall. right. exact Hc'.
    - generalize (match_here_lits ".trycloudflare.com" [] post).
      rewrite app_nil_r. intros ->. reflexivity.
    - intros c' t H. inversion H; subst. reflexivity. }
  apply search_here. exact E.
Qed.

Lemma search_finds r pre : forall s,
  search r s <> None -> search r (pre ++ s)%string <> None.
Proof.
  induction pre as [|c pre IH]; intros s H; [exact H|].
  cbn [append search].
  destruct (match_here r (String c (pre ++ s))); [discriminate|].
  apply IH. exact H.
Qed.

End RegexMore.

Lemma prefix_app n post : prefix n (n ++ post)%string = true.
Proof.
  induction n as [|c n IH]; simpl; [destruct post; reflexivity|].
  destruct (ascii_dec c c); [exact IH|congruence].
Qed.

Lemma str_app_assoc (a b c : string) :
  ((a ++ b) ++ c)%string = (a ++ b ++ c)%string.
Proof. induction a as [|x a IH]; simpl; [reflexivity|]. rewrite IH. reflexivity. Qed.

Lemma includes_prefix n s : prefix n s = true -> JsString.includes n s = true.
Proof. intros H. destruct s; cbn [JsString.includes]; rewrite H; reflexivity. Qed.

Lemma includes_app n pre : forall post,
  JsString.includes n (pre ++ n ++ post)%string = true.
Proof.
  induction pre as [|c pre IH]; intros post.
  - change (JsString.includes n (n ++ post)%string = true).
    apply includes_prefix, prefix_app.
  - cbn [append JsString.includes]. rewrite IH. apply orb_true_r.
Qed.

Lemma url_in_line_match line : Main.url_in_line line = Regex.match_tunnel_url line.
Proof.
  unfold Main.url_in_line.
  destruct (Regex.match_tunnel_url line) as [u|] eqn:E.
  - destruct (search_leftmost _ _ _ E) as (pre & post & Hs & _).
    destruct (match_tunnel_url_form _ _ E) as (label & _ & _ & Hu).
    assert (H1 : JsString.includes "https://" line = true).
    { rewrite Hs, Hu. rewrite !str_app_assoc. apply includes_app. }
    assert (H2 : JsString.includes "trycloudflare.com" line = true).
    { rewrite Hs, Hu.
      change ".trycloudflare.com" with ("." ++ "trycloudflare.com")%string.
      replace (pre ++ ("https://" ++ label ++ "." ++ "trycloudflare.com") ++ post)%string
        with ((pre ++ "https://" ++ label ++ ".") ++ "trycloudflare.com" ++ post)%string.
      - apply includes_app.
      - rewrite !str_app_assoc. reflexivity. }
    rewrite H1, H2. reflexivity.
  - destruct (_ && _); reflexivity.
Qed.

(** X1. What the pattern of the tunnel URL matches in a chunk of output is a
    piece of that chunk, it is a well-formed tunnel URL, and no match starts
    further to the left. *)
Theorem tunnel_match_is_leftmost_text chunk u :
  Regex.match_tunnel_url chunk = Some u ->
  exists pre post,
    chunk = (pre ++ u ++ post)%string /\
    is_tunnel_url u /\
    forall p1 c p2, pre = (p1 ++ String c p2)%string ->
      Regex.match_here Regex.tunnel_re (String c p2 ++ u ++ post)%string = None.
Proof.
  intros H. destruct (search_leftmost _ _ _ H) as (pre & post & Hs & Hl).
  exists pre, post. split; [exact Hs|]. split; [|exact Hl].
  eapply match_tunnel_url_form; eauto.
Qed.

Lemma tunnel_match_is_leftmost_text_witness :
  exists pre post,
    "retry: https://second-2.trycloudflare.com now"
      = (pre ++ "https://second-2.trycloudflare.com" ++ post)%string /\
    is_tunnel_url "https://second-2.trycloudflare.com" /\
    forall p1 c p2, pre = (p1 ++ String c p2)%string ->
      Regex.match_here Regex.tunnel_re
        (String c p2 ++ "https://second-2.trycloudflare.com" ++ post)%string = None.
Proof.
  apply (tunnel_match_is_leftmost_text
           "retry: https://second-2.trycloudflare.com now").
  reflexivity.
Defined.

(** X2. The pattern misses no tunnel URL: a chunk that starts with a
    well-formed tunnel URL is matched with exactly that URL, and a chunk that
    holds one anywhere is matched with a well-formed tunnel URL. *)
Theorem tunnel_url_in_chunk_is_found pre u post :
  is_tunnel_url u ->
  Regex.match_tunnel_url (u ++ post)%string = Some u /\
  exists u', Regex.match_tunnel_url (pre ++ u ++ post)%string = Some u' /\
             is_tunnel_url u'.
Proof.
  intros (label & Hne & Hall & ->).
  assert (E : Regex.match_tunnel_url
                (("https://" ++ label ++ ".trycloudflare.com") ++ post)%string
              = Some ("https://" ++ label ++ ".trycloudflare.com")%string).
  { rewrite <- (match_here_tunnel_url label post Hne Hall).
    f_equal. rewrite !str_app_assoc. reflexivity. }
  split; [exact E|].
  destruct (Regex.match_tunnel_url
              (pre ++ ("https://" ++ label ++ ".trycloudflare.com") ++ post)%string)
    as [u'|] eqn:E'.
  - exists u'. split; [reflexivity|]. eapply match_tunnel_url_form; eauto.
  - exfalso. revert E'. apply search_finds.
    unfold Regex.match_tunnel_url in E. rewrite E. discriminate.
Qed.

(** ** More on URL drift *)

(** X4. [updateServerUrlIfRegistered] leaves an installation that is not
    registered alone: without registration file, or with a record that is
    falsy, not marked registered or without server id, it returns without an
    HTTP call, a warning or a write. *)
Theorem unregistered_installation_is_left_alone w newUrl :
  registration_json w = Fs.NoFile \/
  (exists rec,
     registration_json w = Fs.File (Fs.JsonText rec) /\
     read_fault w = false /\
     (Js.truthy rec = false \/
      Js.truthy (Js.prop rec "registered") = false \/
      Js.truthy (Js.prop rec "serverId") = false)) ->
  Main.updateServerUrlIfRegistered newUrl w = (Ret tt, w).
Proof.
  unfold Main.updateServerUrlIfRegistered, Main.existsSync, Main.readFileSync.
  munfold.
  intros [Hf|(rec & Hf & Hr & Hrec)]; rewrite Hf; cbn -[Js.prop]; [reflexivity|].
  rewrite Hf, Hr. cbn -[Js.prop].
  destruct Hrec as [H|[H|H]]; rewrite H; cbn -[Js.prop];
    rewrite ?orb_true_r; reflexivity.
Qed.

Lemma unregistered_installation_is_left_alone_witness :
  Main.updateServerUrlIfRegistered Sample.new_url Sample.fresh
  = (Ret tt, Sample.fresh).
Proof.
  apply (unregistered_installation_is_left_alone Sample.fresh Sample.new_url).
  left. reflexivity.
Defined.

(** X5. When the registration file exists but cannot be read or parsed,
    [updateServerUrlIfRegistered] does nothing but warn: with a window it
    sends one ['registration-warning'] with the reason
    [server-url-update-failed], without a window it sends none; in both cases
    there is no HTTP call, no write and no exception. *)
Theorem unreadable_record_only_warns w newUrl :
  reading_fails w ->
  exists detail,
    Main.updateServerUrlIfRegistered newUrl w
    = (Ret tt,
       if mainWindow w
       then push_warning ("server-url-update-failed", Js.Str detail) w
       else w).
Proof.
  intros (t & Hf & Hbad).
  unfold Main.updateServerUrlIfRegistered, Main.existsSync, Main.readFileSync.
  munfold. rewrite Hf. cbn -[Main.notifyRegistrationWarning]. rewrite Hf.
  destruct (read_fault w) eqn:Hr; cbn -[Main.notifyRegistrationWarning];
    [rewrite notify_run; eauto|].
  destruct Hbad as [Hbad|[raw ->]]; [discriminate|].
  cbn -[Main.notifyRegistrationWarning]. rewrite notify_run. eauto.
Qed.

Lemma unreadable_record_only_warns_witness :
  exists detail,
    Main.updateServerUrlIfRegistered Sample.new_url Sample.corrupted
    = (Ret tt,
       if mainWindow Sample.corrupted
       then push_warning ("server-url-update-failed", Js.Str detail)
              Sample.corrupted
       else Sample.corrupted).
Proof.
  apply (unreadable_record_only_warns Sample.corrupted Sample.new_url).
  exists (Fs.BadText "{"). split; [reflexivity|].
  right. exists "{". reflexivity.
Defined.

Lemma update_posts w newUrl fields sid s :
  registration_json w = Fs.File (Fs.JsonText (Js.Obj fields)) ->
  read_fault w = false ->
  Js.truthy (Js.prop (Js.Obj fields) "registered") = true ->
  Js.prop (Js.Obj fields) "serverId" = Js.Str sid ->
  sid <> EmptyString ->
  Js.strict_eq_str (Js.prop (Js.Obj fields) "url") newUrl = false ->
  system w = Some s ->
  exists ms,
    let p := Payload (JsString.toLowerCase sid) (deviceId s) (osInfo s)
                     (hardware s) newUrl ms in
    let w2 := snd (exchange (PostRegister p) (snd (exchange GetTags w))) in
    Main.updateServerUrlIfRegistered newUrl w =
    (Ret tt,
     match hd refused (register_feed w) with
     | Resolved _ =>
         set_registration_json
           (Fs.File (Fs.JsonText
              (Js.json_inner (Js.Obj (Js.assign "url" (Js.Str newUrl) fields)))))
           w2
     | Rejected e =>
         if mainWindow w
         then push_warning
                ("server-url-update-failed",
                 Js.or_else (Js.or_else (Main.response_field e "error")
                                        (Main.response_field e "code"))
                            (Js.Str (message e))) w2
         else w2
     end).
Proof.
  intros Hf Hr Hreg Hsid Hne Hurl Hs.
  assert (Hsid' : Js.truthy (Js.prop (Js.Obj fields) "serverId") = true).
  { rewrite Hsid. destruct sid; [contradiction|reflexivity]. }
  destruct (fetchAvailableModels_run w) as [ms Hms]. exists ms.
  unfold Main.updateServerUrlIfRegistered, Main.existsSync,
    Main.readFileSync, Main.collectSystemInfo.
  munfold. rewrite Hf. cbn -[Js.prop Js.json_inner Main.notifyRegistrationWarning].
  rewrite Hf, Hr.
  cbn -[Js.prop Js.json_inner Main.notifyRegistrationWarning].
  rewrite Hreg, Hsid', Hurl.
  cbn -[Js.prop Js.json_inner Main.notifyRegistrationWarning]. rewrite Hs, Hms.
  cbn -[Js.prop Js.json_inner Main.notifyRegistrationWarning]. rewrite Hsid.
  unfold axios. cbn -[Js.prop Js.json_inner Main.notifyRegistrationWarning].
  destruct (hd refused (register_feed w)) as [data|e].
  - unfold set_registration_json, Fs.write_text;
      cbn -[Js.prop Js.json_inner]; rewrite ?Hs, ?Hr, ?Hf; reflexivity.
  - cbn -[Js.prop Js.json_inner Main.notifyRegistrationWarning].
    rewrite notify_run. cbn -[Js.prop Js.or_else].
    destruct (mainWindow w); unfold push_warning;
      cbn -[Js.prop Js.or_else]; rewrite ?Hs, ?Hr, ?Hf; reflexivity.
Qed.

(** X6. When the server rejects the URL update, the registration file keeps
    its old URL, nothing is thrown, and the next call with the same URL posts
    again; with a window one warning is sent, which carries the server's
    [error], else its [code], else the message of the failure, and without a
    window no warning is sent. *)
Theorem rejected_update_keeps_record_and_warns w newUrl fields sid s e rest :
  registration_json w = Fs.File (Fs.JsonText (Js.Obj fields)) ->
  read_fault w = false ->
  Js.truthy (Js.prop (Js.Obj fields) "registered") = true ->
  Js.prop (Js.Obj fields) "serverId" = Js.Str sid ->
  sid <> EmptyString ->
  Js.strict_eq_str (Js.prop (Js.Obj fields) "url") newUrl = false ->
  system w = Some s ->
  register_feed w = Rejected e :: rest ->
  let w1 := exec (Main.updateServerUrlIfRegistered newUrl) w in
  fst (Main.updateServerUrlIfRegistered newUrl w) = Ret tt /\
  registration_json w1 = registration_json w /\
  warnings w1 =
    (if mainWindow w
     then [("server-url-update-failed",
            Js.or_else (Js.or_else (Main.response_field e "error")
                                   (Main.response_field e "code"))
                       (Js.Str (message e)))]
     else []) ++ warnings w /\
  (exists ms, http_log w1 =
     PostRegister (Payload (JsString.toLowerCase sid) (deviceId s) (osInfo s)
                           (hardware s) newUrl ms) :: GetTags :: http_log w) /\
  (exists ms, http_log (exec (Main.updateServerUrlIfRegistered newUrl) w1) =
     PostRegister (Payload (JsString.toLowerCase sid) (deviceId s) (osInfo s)
                           (hardware s) newUrl ms) :: GetTags :: http_log w1).
Proof.
  intros Hf Hr Hreg Hsid Hne Hurl Hs Hfeed w1.
  destruct (update_posts w newUrl fields sid s) as [ms Hw]; auto.
  cbn zeta in Hw. rewrite Hfeed in Hw. cbn [hd] in Hw.
  assert (Hw1 : w1 = snd (Main.updateServerUrlIfRegistered newUrl w))
    by reflexivity.
  rewrite Hw in Hw1. cbn [snd] in Hw1.
  rewrite Hw. cbn [fst].
  split; [reflexivity|].
  split; [rewrite Hw1; destruct (mainWindow w); reflexivity|].
  split; [rewrite Hw1; destruct (mainWindow w); reflexivity|].
  split; [exists ms; rewrite Hw1; destruct (mainWindow w); reflexivity|].
  destruct (update_posts w1 newUrl fields sid s) as [ms' Hw']; auto.
  - rewrite Hw1. destruct (mainWindow w); exact Hf.
  - rewrite Hw1. destruct (mainWindow w); exact Hr.
  - rewrite Hw1. destruct (mainWindow w); exact Hs.
  - exists ms'. unfold exec. rewrite Hw'. cbn zeta.
    destruct (hd refused (register_feed w1));
      [|destruct (mainWindow w1)]; reflexivity.
Qed.

Lemma rejected_update_keeps_record_and_warns_witness :
  let w1 := exec (Main.updateServerUrlIfRegistered Sample.new_url)
                 Sample2.refusing in
  registration_json w1 = registration_json Sample2.refusing /\
  warnings w1 = [("server-url-update-failed", Js.Str "Unknown server")].
Proof.
  destruct (rejected_update_keeps_record_and_warns Sample2.refusing
              Sample.new_url
              [("os", Js.Str "linux 6.1.0"); ("device", Js.Str "devbox");
               ("models", Js.Arr [Js.Str "gpt-oss:20b"]);
               ("url", Js.Str Sample.old_url);
               ("nvidiaDriver", Js.Str "550.54"); ("cudaVersion", Js.Str "12.4");
               ("userId", Js.Str "u-17"); ("serverId", Js.Str "SRV-9F");
               ("username", Js.Str "ada"); ("registered", Js.Bool true);
               ("timestamp", Js.Str "2025-01-01T00:00:00.000Z")]
              "SRV-9F" Sample.machine
              (Error "Request failed with status code 400"
                 (Some (Js.Obj [("error", Js.Str "Unknown server")])))
              [])
    as (_ & Hfile & Hwarn & _);
    [reflexivity|reflexivity|reflexivity|reflexivity|discriminate
    |reflexivity|reflexivity|reflexivity|].
  split; [exact Hfile|exact Hwarn].
Defined.

(** ** More on the tunnel subprocess and its monitoring *)

(** X7. When no chunk of the first thirty half seconds holds a tunnel URL,
    [startCloudflaredTunnel] returns [null] without touching the cache, the
    registration file or the network; the subprocess it spawned stays
    referenced by [cloudflaredProcess], and a URL printed later is never
    read. *)
Theorem silent_tunnel_is_left_running available ticks w :
  first_match (concat (firstn 30 ticks)) = None ->
  Main.startCloudflaredTunnel available ticks w
  = (Ret None, if available then set_cloudflaredProcess true w else w).
Proof.
  intros H. unfold Main.startCloudflaredTunnel.
  destruct (wait_for_url_first 30 ticks) as [later Hl].
  assert (E : Main.wait_for_url 30 ticks Main.scan_init = (Main.scan_init, later)).
  { rewrite Hl. f_equal.
    assert (first_match (concat (firstn 30 ticks)) = None) as -> by exact H.
    reflexivity. }
  destruct available; munfold; cbn [negb]; [|reflexivity].
  rewrite E. reflexivity.
Qed.

Lemma silent_tunnel_is_left_running_witness :
  Main.startCloudflaredTunnel true
    [[(Stderr, "INF Requesting new quick Tunnel on trycloudflare.com...")]]
    Sample.registered
  = (Ret None, set_cloudflaredProcess true Sample.registered).
Proof.
  apply (silent_tunnel_is_left_running true
           [[(Stderr, "INF Requesting new quick Tunnel on trycloudflare.com...")]]
           Sample.registered).
  reflexivity.
Defined.

Lemma probe_truthy r :
  Main.truthy_url (probe_answer r) = true <-> exists u, probe_answer r = Some u.
Proof.
  split.
  - destruct (probe_answer r) as [u|]; [eauto|discriminate].
  - intros [u Hu]. rewrite Hu. simpl.
    apply is_tunnel_url_nonempty. eapply probe_answer_form; eauto.
Qed.

Lemma monitorServices_run available ticks w :
  let w1 := snd (exchange GetMetrics (snd (exchange GetTags w))) in
  let r := probe_answer (hd refused (metrics_feed w)) in
  exec (Main.monitorServices available ticks) w =
  if Main.truthy_url r
  then exec (Main.updateServerUrlIfRegistered (Main.url_text r))
            (set_detectedTunnelUrl r w1)
  else exec (Main.startCloudflaredTunnel available ticks) w1.
Proof.
  cbv zeta. unfold Main.monitorServices.
  unfold exec at 1. unfold bind at 1.
  assert (E : try_catch (try_catch (axios GetTags ;;; ret tt) (fun _ => ret tt))
                (fun _ => ret tt) w = (Ret tt, snd (exchange GetTags w))).
  { unfold try_catch, bind, axios, ret.
    destruct (exchange GetTags w) as [[d|e] w']; reflexivity. }
  rewrite E. unfold try_catch at 1. unfold bind at 1.
  rewrite getCloudflaredUrl_run.
  change (metrics_feed (snd (exchange GetTags w))) with (metrics_feed w).
  destruct (Main.truthy_url (probe_answer (hd refused (metrics_feed w)))).
  - unfold bind, modify, exec.
    set (v := set_detectedTunnelUrl _ _).
    pose proof (update_returns
                  (Main.url_text (probe_answer (hd refused (metrics_feed w)))) v)
      as R.
    destruct (Main.updateServerUrlIfRegistered _ v) as [o v'].
    simpl in R. subst o. reflexivity.
  - unfold bind, exec.
    pose proof (startCloudflaredTunnel_result available ticks
                  (snd (exchange GetMetrics (snd (exchange GetTags w))))) as R.
    destruct (Main.startCloudflaredTunnel available ticks _) as [o v].
    simpl in R. subst o. reflexivity.
Qed.

Lemma try_catch_returns (c : M unit) w :
  fst (try_catch c (fun _ => ret tt) w) = Ret tt.
Proof. unfold try_catch, ret. destruct (c w) as [[[]|e] v]; reflexivity. Qed.

Lemma monitorServices_returns available ticks w :
  fst (Main.monitorServices available ticks w) = Ret tt.
Proof.
  unfold Main.monitorServices. unfold bind at 1.
  pose proof (try_catch_returns
                (try_catch (axios GetTags ;;; ret tt) (fun _ => ret tt)) w) as R.
  destruct (try_catch (try_catch _ _) _ w) as [o v]. simpl in R. subst o.
  apply try_catch_returns.
Qed.

Lemma keeps_process_update newUrl :
  keeps cloudflaredProcess (Main.updateServerUrlIfRegistered newUrl).
Proof. apply keeps_updateServerUrlIfRegistered; insensitive. Qed.

Lemma start_process available ticks w :
  cloudflaredProcess (exec (Main.startCloudflaredTunnel available ticks) w)
  = available || cloudflaredProcess w.
Proof.
  unfold Main.startCloudflaredTunnel, exec, try_catch.
  generalize (Main.wait_for_url 30 ticks Main.scan_init). intros [st later].
  destruct available; cbn [negb orb]; [|reflexivity].
  unfold bind at 1, modify at 1.
  destruct (Main.truthy_url (Main.tunnelUrl st)); [|reflexivity].
  unfold bind, modify.
  set (v := set_detectedTunnelUrl _ _).
  pose proof (keeps_process_update (Main.url_text (Main.tunnelUrl st)) v) as K.
  destruct (Main.updateServerUrlIfRegistered _ v) as [[[]|e] v'];
    simpl in *; exact K.
Qed.

(** X8. A monitoring tick that finds the tunnel in the metrics page caches
    its URL and starts no subprocess: the tick ends as it would without a
    [cloudflared] binary, and [cloudflaredProcess] is what it was. *)
Theorem healthy_tunnel_is_not_restarted available ticks w u :
  probe_answer (hd refused (metrics_feed w)) = Some u ->
  let w1 := exec (Main.monitorServices available ticks) w in
  detectedTunnelUrl w1 = Some u /\
  cloudflaredProcess w1 = cloudflaredProcess w /\
  w1 = exec (Main.monitorServices false []) w.
Proof.
  intros H w1. unfold w1. rewrite !monitorServices_run. cbv zeta.
  assert (T : Main.truthy_url (probe_answer (hd refused (metrics_feed w))) = true)
    by (apply probe_truthy; eauto).
  rewrite T, H. cbn [Main.url_text].
  split; [|split; [|reflexivity]].
  - unfold exec.
    rewrite (keeps_updateServerUrlIfRegistered detectedTunnelUrl); insensitive.
  - unfold exec. rewrite keeps_process_update. reflexivity.
Qed.

Lemma healthy_tunnel_is_not_restarted_witness :
  let w1 := exec (Main.monitorServices true Sample.output) Sample.tunnelled in
  detectedTunnelUrl w1 = Some Sample.old_url /\
  cloudflaredProcess w1 = false /\
  w1 = exec (Main.monitorServices false []) Sample.tunnelled.
Proof.
  apply (healthy_tunnel_is_not_restarted true Sample.output Sample.tunnelled
           Sample.old_url).
  reflexivity.
Defined.

(** X9. A monitoring tick that finds no tunnel in the metrics page starts the
    tunnel again: when the new subprocess prints a URL within thirty half
    seconds, the cache holds the first URL printed and [cloudflaredProcess]
    refers to a subprocess; the tick itself never throws. *)
Theorem dead_tunnel_is_restarted ticks w u :
  probe_answer (hd refused (metrics_feed w)) = None ->
  first_match (concat (firstn 30 ticks)) = Some u ->
  let w1 := exec (Main.monitorServices true ticks) w in
  detectedTunnelUrl w1 = Some u /\
  cloudflaredProcess w1 = true /\
  fst (Main.monitorServices true ticks w) = Ret tt.
Proof.
  intros Hp Hm w1. unfold w1. rewrite monitorServices_run. cbv zeta.
  rewrite Hp. cbn [Main.truthy_url].
  split; [|split].
  - apply startCloudflaredTunnel_cache.
    rewrite startCloudflaredTunnel_result.
    assert (first_match (concat (firstn 30 ticks)) = Some u) as -> by exact Hm.
    reflexivity.
  - rewrite start_process. reflexivity.
  - apply monitorServices_returns.
Qed.

(** ** More on the IPC handlers *)

Lemma resolves_try_catch {A} (c : M A) (h : error -> M A) (Q : A -> Prop) :
  yields c Q -> (forall e, resolves (h e) Q) -> resolves (try_catch c h) Q.
Proof.
  intros Hc Hh w. unfold try_catch.
  destruct (c w) as [[a|e] w'] eqn:E.
  - exists a. split; [reflexivity|]. apply (Hc w). rewrite E. reflexivity.
  - apply Hh.
Qed.

Lemma resolves_ret {A} (a : A) (Q : A -> Prop) : Q a -> resolves (ret a) Q.
Proof. intros H w. exists a. split; [reflexivity|exact H]. Qed.

Lemma resolves_gets {A} (f : world -> A) (Q : A -> Prop) :
  (forall w, Q (f w)) -> resolves (gets f) Q.
Proof. intros H w. exists (f w). split; [reflexivity|apply H]. Qed.

Lemma yields_gets {A} (f : world -> A) (Q : A -> Prop) :
  (forall w, Q (f w)) -> yields (gets f) Q.
Proof. intros H w a E. inversion E. apply H. Qed.

Lemma flagged_failure err : flagged (Handlers.failure err).
Proof. exists false. reflexivity. Qed.

Lemma flagged_found u : flagged (Handlers.tunnel_found u).
Proof. exists true. reflexivity. Qed.

Lemma flagged_register_result r : register_result r -> flagged r.
Proof.
  intros [[err ->]|(s & data & url & ms & ->)];
    [exists false|exists true]; reflexivity.
Qed.

Ltac yields_step :=
  first
    [ solve [apply yields_ret; auto using flagged_failure, flagged_found;
             eexists; reflexivity]
    | solve [apply yields_gets; intros; eexists; reflexivity]
    | apply yields_throw
    | apply yields_bind; intros
    | apply yields_try_catch; [|intros]
    | match goal with
      | |- yields (if ?b then _ else _) _ => destruct b
      | |- yields (match ?x with _ => _ end) _ => destruct x
      end ].

Lemma register_server_of_string linkCode w :
  Handlers.register_server_of (Js.Str linkCode) w
  = Handlers.register_server linkCode w.
Proof. reflexivity. Qed.

(** X10. The IPC handlers resolve: [save-registration], [check-ollama],
    [check-loaded-models], [check-cloudflared], [get-tunnel-url] and
    [get-system-info] return in every world, whatever the network and the
    file system do, an object whose [success] is a boolean, and so does
    [register-server] for every argument but [null] and [undefined], for
    which it rejects, its parameter being destructured before the [try]; on
    the object the renderer passes it is the handler of the link code. *)
Theorem ipc_handlers_resolve_unless_argument_is_null :
  (forall arg, Js.nullish arg = false ->
     resolves (Handlers.register_server_ipc arg) flagged) /\
  (forall arg w, Js.nullish arg = true ->
     exists e, Handlers.register_server_ipc arg w = (Throw e, w)) /\
  (forall linkCode w,
     Handlers.register_server_ipc (Js.Obj [("linkCode", Js.Str linkCode)]) w
     = Handlers.register_server linkCode w) /\
  (forall linkCode, resolves (Handlers.register_server linkCode) flagged) /\
  (forall data, resolves (Handlers.save_registration data) flagged) /\
  resolves Handlers.check_ollama flagged /\
  resolves Handlers.check_loaded_models flagged /\
  resolves Handlers.check_cloudflared flagged /\
  resolves Handlers.get_tunnel_url flagged /\
  resolves Handlers.get_system_info flagged.
Proof.
  repeat split.
  - intros arg Hn. unfold Handlers.register_server_ipc. rewrite Hn.
    unfold Handlers.register_server_of.
    apply resolves_try_catch;
      [|intros; apply resolves_ret, flagged_failure].
    do 3 (apply yields_bind; intros).
    apply yields_try_catch; [|intros; apply yields_ret, flagged_failure].
    repeat yields_step.
  - intros arg w Hn. unfold Handlers.register_server_ipc. rewrite Hn.
    eexists. reflexivity.
  - intros linkCode. unfold Handlers.register_server.
    apply resolves_try_catch;
      [|intros; apply resolves_ret, flagged_failure].
    do 3 (apply yields_bind; intros).
    apply yields_try_catch; [|intros; apply yields_ret, flagged_failure].
    repeat yields_step.
  - intros data. unfold Handlers.save_registration.
    apply resolves_try_catch;
      [|intros; apply resolves_ret, flagged_failure].
    repeat yields_step.
  - unfold Handlers.check_ollama.
    apply resolves_try_catch; [repeat yields_step|].
    intros e w. eexists. split; [reflexivity|apply flagged_failure].
  - unfold Handlers.check_loaded_models.
    apply resolves_try_catch; [repeat yields_step|].
    intros e. apply resolves_ret. exists false. reflexivity.
  - unfold Handlers.check_cloudflared.
    apply resolves_try_catch; [repeat yields_step|].
    intros e. apply resolves_ret, flagged_failure.
  - unfold Handlers.get_tunnel_url, Handlers.no_tunnel.
    apply resolves_try_catch; [repeat yields_step|].
    intros e. apply resolves_gets. intros w. exists false. reflexivity.
  - unfold Handlers.get_system_info.
    apply resolves_try_catch;
      [|intros; apply resolves_ret, flagged_failure].
    do 5 (apply yields_bind; intros).
    apply yields_ret. exists true. reflexivity.
Qed.

Lemma ipc_handlers_resolve_unless_argument_is_null_witness :
  exists a,
    fst (Handlers.register_server_ipc (Js.Obj [("linkCode", Js.Num 7)])
           Sample.confirming) = Ret a /\
    flagged a.
Proof.
  exact (proj1 ipc_handlers_resolve_unless_argument_is_null
               (Js.Obj [("linkCode", Js.Num 7)]) eq_refl Sample.confirming).
Defined.

Lemma choose_public_url_cached w u :
  detectedTunnelUrl w = Some u -> u <> EmptyString ->
  Handlers.choose_public_url w = (Ret u, w).
Proof.
  intros Hc Hne. unfold Handlers.choose_public_url.
  generalize Handlers.maxAttempts as n. intros n. munfold.
  rewrite Hc. destruct u; [congruence|reflexivity].
Qed.

Lemma register_server_post w linkCode s url w1 :
  system w = Some s ->
  Handlers.choose_public_url w = (Ret url, w1) ->
  exists ms,
    snd (Handlers.register_server linkCode w)
    = snd (exchange
             (PostRegister (Payload (JsString.toLowerCase linkCode) (deviceId s)
                              (osInfo s) (hardware s) url ms))
             (snd (exchange GetTags w1))).
Proof.
  intros Hs Hu. unfold Handlers.register_server, Main.collectSystemInfo.
  unfold try_catch at 1. unfold bind at 1. rewrite Hs.
  unfold bind at 1. rewrite Hu.
  destruct (fetchAvailableModels_run w1) as [ms Hms]. exists ms.
  unfold bind at 1. rewrite Hms.
  unfold try_catch, bind, axios.
  destruct (exchange (PostRegister _) (snd (exchange GetTags w1)))
    as [[data|e] w2]; cbn [snd]; [|reflexivity].
  rewrite (pure_run (Handlers.unconfirmed data) w2) by auto with pure.
  destruct (fst (Handlers.unconfirmed data w2)) as [[|]|e]; reflexivity.
Qed.

(** X11. With a tunnel URL in the cache, [register-server] does not probe the
    tunnel: it asks Ollama for the models and posts one registration that
    carries the link code in lower case and the cached URL, whether or not
    that tunnel still runs. *)
Theorem cached_url_is_registered_without_probing w linkCode s u :
  system w = Some s ->
  detectedTunnelUrl w = Some u ->
  u <> EmptyString ->
  let w1 := exec (Handlers.register_server linkCode) w in
  (exists ms,
     http_log w1 =
       PostRegister (Payload (JsString.toLowerCase linkCode) (deviceId s)
                       (osInfo s) (hardware s) u ms)
       :: GetTags :: http_log w) /\
  metrics_feed w1 = metrics_feed w /\
  detectedTunnelUrl w1 = Some u.
Proof.
  intros Hs Hc Hne w1. unfold w1, exec.
  destruct (register_server_post w linkCode s u w Hs
              (choose_public_url_cached w u Hc Hne)) as [ms ->].
  split; [exists ms; reflexivity|]. split; [reflexivity|exact Hc].
Qed.

Lemma cached_url_is_registered_without_probing_witness :
  let w1 := exec (Handlers.register_server "ABC123") Sample2.cached in
  (exists ms,
     http_log w1 =
       PostRegister (Payload "abc123" "devbox" (osInfo Sample.machine)
                       (hardware Sample.machine) Sample.old_url ms)
       :: GetTags :: http_log Sample2.cached) /\
  metrics_feed w1 = metrics_feed Sample2.cached /\
  detectedTunnelUrl w1 = Some Sample.old_url.
Proof.
  apply (cached_url_is_registered_without_probing Sample2.cached "ABC123"
           Sample.machine Sample.old_url);
    [reflexivity|reflexivity|discriminate].
Defined.

(** *** The cache is never cleared *)

Lemma cache_set_keeps {A} (c : M A) :
  keeps detectedTunnelUrl c -> preserves cache_set c.
Proof.
  apply preserves_keeps. unfold cache_set. intros w w' E. rewrite E. auto.
Qed.

Lemma cache_set_assign u :
  Main.truthy_url u = true -> preserves cache_set (modify (set_detectedTunnelUrl u)).
Proof. intros H. apply preserves_modify. intros w _. exact H. Qed.

Ltac set_step :=
  first
    [ solve [auto]
    | solve [apply preserves_pure; auto with pure; pure_tac]
    | solve [apply cache_set_assign; assumption]
    | solve [apply cache_set_keeps; apply keeps_modify; insensitive]
    | solve [apply cache_set_keeps; apply keeps_axios; insensitive]
    | solve [apply cache_set_keeps; apply keeps_getCloudflaredUrl; insensitive]
    | apply preserves_bind; [|intros]
    | apply preserves_try_catch; [|intros]
    | match goal with
      | |- preserves _ (if ?b then _ else _) => destruct b eqn:?
      | |- preserves _ (match ?x with _ => _ end) => destruct x
      end ].

Lemma cache_set_wait_for_tunnel n : preserves cache_set (Handlers.wait_for_tunnel n).
Proof.
  induction n as [|n IH]; simpl; [repeat set_step|].
  unfold Handlers.probe_once. repeat set_step.
Qed.

Lemma cache_set_register_server linkCode :
  preserves cache_set (Handlers.register_server linkCode).
Proof.
  pose proof cache_set_wait_for_tunnel.
  assert (preserves cache_set Main.fetchAvailableModels)
    by (apply cache_set_keeps, keeps_fetchAvailableModels; insensitive).
  unfold Handlers.register_server, Handlers.choose_public_url.
  repeat set_step.
Qed.

Lemma cache_set_update u : preserves cache_set (Main.updateServerUrlIfRegistered u).
Proof. apply cache_set_keeps, keeps_updateServerUrlIfRegistered; insensitive. Qed.

Lemma cache_set_startCloudflaredTunnel available ticks :
  preserves cache_set (Main.startCloudflaredTunnel available ticks).
Proof.
  pose proof cache_set_update. unfold Main.startCloudflaredTunnel.
  generalize (Main.wait_for_url 30 ticks Main.scan_init). intros [st later].
  repeat set_step.
Qed.

Lemma cache_set_monitorServices available ticks :
  preserves cache_set (Main.monitorServices available ticks).
Proof.
  pose proof cache_set_update. pose proof cache_set_startCloudflaredTunnel.
  unfold Main.monitorServices. repeat set_step.
Qed.

Lemma cache_set_save_registration data :
  preserves cache_set (Handlers.save_registration data).
Proof. apply cache_set_keeps, keeps_save_registration. insensitive. Qed.

Lemma cache_set_showScreen s : preserves cache_set (Renderer.showScreen s).
Proof. apply cache_set_keeps, keeps_showScreen. insensitive. Qed.

Lemma cache_set_ui (c : M unit) (g : world -> world) :
  (forall w, detectedTunnelUrl (g w) = detectedTunnelUrl w) ->
  preserves cache_set c -> preserves cache_set (finally c g).
Proof.
  intros Hg Hc. apply preserves_finally; auto.
  intros w. unfold cache_set. rewrite Hg. auto.
Qed.

Lemma cache_set_submitLinkCode input :
  preserves cache_set (Renderer.submitLinkCode input).
Proof.
  pose proof cache_set_register_server. pose proof cache_set_save_registration.
  pose proof cache_set_showScreen.
  unfold Renderer.submitLinkCode, Renderer.alert, Renderer.show_failure.
  apply preserves_bind; [apply preserves_pure, pure_gets|intros busy].
  destruct busy; [apply preserves_pure, pure_ret|].
  destruct (negb _); [apply cache_set_keeps, keeps_modify; insensitive|].
  apply preserves_bind; [apply cache_set_keeps, keeps_modify; insensitive|intros _].
  apply cache_set_ui; [insensitive|]. repeat set_step.
Qed.

Lemma cache_set_registerWithCode code o d m :
  preserves cache_set (Renderer.registerWithCode code o d m).
Proof.
  pose proof cache_set_register_server. pose proof cache_set_save_registration.
  pose proof cache_set_showScreen.
  unfold Renderer.registerWithCode, Renderer.alert, Renderer.show_failure.
  apply preserves_bind; [apply preserves_pure, pure_gets|intros busy].
  destruct busy; [apply preserves_pure, pure_ret|].
  destruct (negb _); [apply cache_set_keeps, keeps_modify; insensitive|].
  apply preserves_bind; [apply cache_set_keeps, keeps_modify; insensitive|intros _].
  apply cache_set_ui; [insensitive|]. repeat set_step.
Qed.

Lemma cache_set_get_system_info : preserves cache_set Handlers.get_system_info.
Proof. unfold Handlers.get_system_info. repeat set_step. Qed.

Lemma cache_set_check_cloudflared : preserves cache_set Handlers.check_cloudflared.
Proof. unfold Handlers.check_cloudflared. repeat set_step. Qed.

Lemma cache_set_waitForOllama_from n :
  preserves cache_set (Renderer.waitForOllama_from n).
Proof.
  assert (preserves cache_set Handlers.check_ollama)
    by (apply cache_set_keeps, keeps_check_ollama; insensitive).
  assert (forall m, preserves cache_set (Renderer.displayModelsList m))
    by (intros; apply cache_set_keeps, keeps_displayModelsList; insensitive).
  assert (preserves cache_set Renderer.loadSystemInfo).
  { pose proof cache_set_get_system_info.
    unfold Renderer.loadSystemInfo. repeat set_step. }
  assert (preserves cache_set Renderer.enableLinkCodeInput)
    by (apply cache_set_keeps, keeps_enableLinkCodeInput; insensitive).
  pose proof cache_set_showScreen.
  induction n as [|n IH]; simpl; repeat set_step.
Qed.

Lemma cache_set_step a : forall w, cache_set w -> cache_set (step a w).
Proof.
  destruct a; simpl; unfold exec.
  - pose proof cache_set_startCloudflaredTunnel.
    change (preserves cache_set
              (Main.createWindow ;;;
               Main.startCloudflaredTunnel available ticks ;;; ret tt)).
    unfold Main.createWindow. repeat set_step.
  - apply cache_set_monitorServices.
  - apply cache_set_register_server.
  - apply cache_set_save_registration.
  - apply cache_set_keeps, keeps_load_registration.
  - apply cache_set_keeps, keeps_check_ollama; insensitive.
  - apply cache_set_keeps, keeps_check_loaded_models; insensitive.
  - apply cache_set_check_cloudflared.
  - change (preserves cache_set Handlers.get_tunnel_url).
    unfold Handlers.get_tunnel_url. repeat set_step.
  - apply cache_set_get_system_info.
  - apply cache_set_submitLinkCode.
  - apply cache_set_registerWithCode.
  - pose proof cache_set_check_cloudflared.
    assert (preserves cache_set Handlers.check_ollama)
      by (apply cache_set_keeps, keeps_check_ollama; insensitive).
    change (preserves cache_set Renderer.checkServicesStatus).
    unfold Renderer.checkServicesStatus. repeat set_step.
  - apply cache_set_waitForOllama_from.
  - pose proof cache_set_save_registration. pose proof cache_set_showScreen.
    pose proof cache_set_waitForOllama_from.
    change (preserves cache_set Renderer.unlinkServer).
    unfold Renderer.unlinkServer, Renderer.waitForOllama,
      Renderer.enableLinkCodeInput.
    repeat set_step.
  - intros w H. exact H.
Qed.

Lemma cache_set_run actions : forall w, cache_set w -> cache_set (run actions w).
Proof.
  unfold run. induction actions as [|a l IH]; intros w H; simpl; [exact H|].
  apply IH, cache_set_step, H.
Qed.

(** X12. The cached tunnel URL is never cleared: once [detectedTunnelUrl]
    holds a URL it holds one after any sequence of events, unlinking
    included, and [check-cloudflared] then answers [success] from the cache
    without an HTTP call, whether or not the tunnel still runs. *)
Theorem tunnel_status_never_turns_red actions w :
  cache_set w ->
  let w1 := run actions w in
  exists u,
    detectedTunnelUrl w1 = Some u /\
    Handlers.check_cloudflared w1 = (Ret (Handlers.tunnel_found (Some u)), w1).
Proof.
  intros H w1. pose proof (cache_set_run actions w H) as H1.
  fold w1 in H1. unfold cache_set in H1.
  destruct (detectedTunnelUrl w1) as [u|] eqn:E; [|discriminate].
  exists u. split; [reflexivity|].
  unfold Handlers.check_cloudflared. munfold. rewrite E.
  simpl in H1. cbn [Main.truthy_url]. rewrite H1. reflexivity.
Qed.

Lemma tunnel_status_never_turns_red_witness :
  let w1 := run [UiUnlinkServer; MonitorTick false []] Sample2.cached in
  exists u,
    detectedTunnelUrl w1 = Some u /\
    Handlers.check_cloudflared w1 = (Ret (Handlers.tunnel_found (Some u)), w1).
Proof.
  apply (tunnel_status_never_turns_red [UiUnlinkServer; MonitorTick false []]
           Sample2.cached).
  reflexivity.
Defined.

(** ** More on the renderer *)

Lemma save_registration_returns data w :
  exists v, fst (Handlers.save_registration data w) = Ret v.
Proof.
  unfold Handlers.save_registration, try_catch.
  destruct (bind _ _ w) as [[v|e] w']; simpl; eauto.
Qed.

Lemma register_server_returns linkCode w :
  exists r, fst (Handlers.register_server linkCode w) = Ret r /\ register_result r.
Proof.
  assert (H : exists r, fst (Handlers.register_server linkCode w) = Ret r).
  { unfold Handlers.register_server. unfold try_catch at 1.
    destruct (bind _ _ w) as [[v|e] w']; simpl; eauto. }
  destruct H as [r Hr]. exists r. split; [exact Hr|].
  eapply register_server_yields; eauto.
Qed.

Lemma showScreen_success w :
  Renderer.showScreen "screen-success" w
  = (Ret tt, Renderer.set_screen "screen-success" w).
Proof. reflexivity. Qed.

Lemma show_failure_run e w :
  Renderer.show_failure e w
  = (Ret tt, Renderer.set_screen "screen-error"
               (Renderer.set_error_message
                  (Renderer.cross_mark ++ " " ++ message e) w)).
Proof. reflexivity. Qed.

Lemma submit_start input w :
  isSubmitting w = false ->
  Renderer.valid_code (JsString.toUpperCase (JsString.trim input)) = true ->
  Renderer.submitLinkCode input w =
  let code := JsString.toUpperCase (JsString.trim input) in
  finally
    (try_catch
       (registerResult <- Handlers.register_server code ;;
        ok <- Renderer.confirmed registerResult ;;
        if ok then
          timestamp <- gets now ;;
          Handlers.save_registration
            (Renderer.saved_record (Js.prop registerResult "data") code timestamp) ;;;
          Renderer.showScreen "screen-success"
        else
          throw (Renderer.new_Error
                   (Js.or_else
                      (Js.prop registerResult "error")
                      (Js.Str "Registration failed - server did not confirm"))))
       Renderer.show_failure)
    (Renderer.set_isSubmitting false)
    (Renderer.set_isSubmitting true w).
Proof.
  intros Hbusy Hvalid. unfold Renderer.submitLinkCode.
  unfold bind at 1. unfold gets at 1. rewrite Hbusy.
  cbv zeta. rewrite Hvalid. cbn [negb].
  unfold bind at 1. unfold modify at 1. reflexivity.
Qed.

Lemma submit_success input w r w1 :
  isSubmitting w = false ->
  Renderer.valid_code (JsString.toUpperCase (JsString.trim input)) = true ->
  Handlers.register_server (JsString.toUpperCase (JsString.trim input))
    (Renderer.set_isSubmitting true w) = (Ret r, w1) ->
  fst (Renderer.confirmed r w1) = Ret true ->
  Renderer.submitLinkCode input w =
  (Ret tt,
   Renderer.set_isSubmitting false
     (Renderer.set_screen "screen-success"
        (snd (Handlers.save_registration
                (Renderer.saved_record (Js.prop r "data")
                   (JsString.toUpperCase (JsString.trim input)) (now w1))
                w1)))).
Proof.
  intros Hbusy Hvalid Hreg Hok. rewrite submit_start by assumption.
  cbv zeta. unfold finally, try_catch. unfold bind at 1. rewrite Hreg.
  unfold bind at 1.
  rewrite (pure_run (Renderer.confirmed r) w1) by auto with pure.
  rewrite Hok. unfold bind at 1. unfold gets at 1. unfold bind at 1.
  destruct (save_registration_returns
              (Renderer.saved_record (Js.prop r "data")
                 (JsString.toUpperCase (JsString.trim input)) (now w1)) w1)
    as [v Hv].
  destruct (Handlers.save_registration _ w1) as [o w2]. simpl in Hv. subst o.
  rewrite showScreen_success. reflexivity.
Qed.

Lemma submit_failure input w r w1 :
  isSubmitting w = false ->
  Renderer.valid_code (JsString.toUpperCase (JsString.trim input)) = true ->
  Handlers.register_server (JsString.toUpperCase (JsString.trim input))
    (Renderer.set_isSubmitting true w) = (Ret r, w1) ->
  fst (Renderer.confirmed r w1) <> Ret true ->
  exists e,
    Renderer.submitLinkCode input w =
    (Ret tt,
     Renderer.set_isSubmitting false
       (Renderer.set_screen "screen-error"
          (Renderer.set_error_message
             (Renderer.cross_mark ++ " " ++ message e) w1))) /\
    (Js.truthy (Js.prop r "success") = false ->
     e = Renderer.new_Error
           (Js.or_else (Js.prop r "error")
              (Js.Str "Registration failed - server did not confirm"))).
Proof.
  intros Hbusy Hvalid Hreg Hok. rewrite submit_start by assumption.
  cbv zeta. unfold finally, try_catch. unfold bind at 1. rewrite Hreg.
  unfold bind at 1.
  rewrite (pure_run (Renderer.confirmed r) w1) by auto with pure.
  assert (Hc : Js.truthy (Js.prop r "success") = false ->
               fst (Renderer.confirmed r w1) = Ret false).
  { intros H. unfold Renderer.confirmed. rewrite H. reflexivity. }
  destruct (fst (Renderer.confirmed r w1)) as [[|]|e] eqn:E.
  - congruence.
  - unfold throw. rewrite show_failure_run. eexists. split; [reflexivity|].
    reflexivity.
  - rewrite show_failure_run. exists e. split; [reflexivity|].
    intros H. specialize (Hc H). discriminate.
Qed.

(** X13. A submission that passes the checks of [submitLinkCode] always
    releases the form: the function returns, [isSubmitting] is [false]
    again, and the screen is the success screen or the error screen,
    whatever the handler, the network and the file system did. *)
Theorem submission_always_releases_the_form input w :
  isSubmitting w = false ->
  Renderer.valid_code (JsString.toUpperCase (JsString.trim input)) = true ->
  let w1 := exec (Renderer.submitLinkCode input) w in
  fst (Renderer.submitLinkCode input w) = Ret tt /\
  isSubmitting w1 = false /\
  (screen w1 = "screen-success" \/ screen w1 = "screen-error").
Proof.
  intros Hbusy Hvalid w1. unfold w1, exec.
  destruct (register_server_returns
              (JsString.toUpperCase (JsString.trim input))
              (Renderer.set_isSubmitting true w)) as (r & Hr & _).
  destruct (Handlers.register_server _ (Renderer.set_isSubmitting true w))
    as [o v] eqn:Hreg.
  simpl in Hr. subst o.
  destruct (fst (Renderer.confirmed r v)) as [[|]|e] eqn:E.
  - rewrite (submit_success input w r v) by assumption.
    repeat split. left. reflexivity.
  - destruct (submit_failure input w r v) as (e & -> & _); try assumption.
    + congruence.
    + repeat split. right. reflexivity.
  - destruct (submit_failure input w r v) as (e' & -> & _); try assumption.
    + congruence.
    + repeat split. right. reflexivity.
Qed.

Lemma submission_always_releases_the_form_witness :
  let w1 := exec (Renderer.submitLinkCode " abc123 ") Sample.rejecting in
  fst (Renderer.submitLinkCode " abc123 " Sample.rejecting) = Ret tt /\
  isSubmitting w1 = false /\
  (screen w1 = "screen-success" \/ screen w1 = "screen-error").
Proof.
  apply (submission_always_releases_the_form " abc123 " Sample.rejecting);
    reflexivity.
Defined.

(** X14. [submitLinkCode] does nothing while a submission is under way, and
    only raises an alert for an ASCII input that is not six characters long
    after trimming: in both cases no handler is called, so that the network,
    the registration file and the screen are as before. *)
Theorem guarded_submission_calls_nothing input w :
  isSubmitting w = true \/
  (JsString.ascii_only input = true /\
   Renderer.valid_code (JsString.toUpperCase (JsString.trim input)) = false) ->
  let w1 := exec (Renderer.submitLinkCode input) w in
  http_log w1 = http_log w /\
  registration_json w1 = registration_json w /\
  screen w1 = screen w /\
  isSubmitting w1 = isSubmitting w /\
  (isSubmitting w = true -> w1 = w).
Proof.
  intros H w1. unfold w1, exec, Renderer.submitLinkCode, Renderer.alert.
  unfold bind, gets, modify, ret.
  destruct (isSubmitting w) eqn:Hb.
  - repeat split; intros; try reflexivity; assumption.
  - destruct H as [H|[_ H]]; [discriminate|]. rewrite H. cbn [negb snd].
    repeat split; [exact Hb|discriminate].
Qed.

Lemma guarded_submission_calls_nothing_witness :
  let w1 := exec (Renderer.submitLinkCode "abc") Sample.confirming in
  http_log w1 = http_log Sample.confirming /\
  registration_json w1 = registration_json Sample.confirming /\
  screen w1 = screen Sample.confirming /\
  isSubmitting w1 = isSubmitting Sample.confirming /\
  (isSubmitting Sample.confirming = true -> w1 = Sample.confirming).
Proof.
  apply (guarded_submission_calls_nothing "abc" Sample.confirming).
  right. split; reflexivity.
Defined.

Lemma lower_upper_char c :
  JsString.lower_char (JsString.upper_char c) = JsString.lower_char c.
Proof. destruct c as [[] [] [] [] [] [] [] []]; reflexivity. Qed.

Lemma toLowerCase_toUpperCase s :
  JsString.toLowerCase (JsString.toUpperCase s) = JsString.toLowerCase s.
Proof.
  unfold JsString.toLowerCase, JsString.toUpperCase.
  induction s as [|c s IH]; simpl; [reflexivity|].
  rewrite lower_upper_char, IH. reflexivity.
Qed.

Lemma posts_choose_public_url w :
  posts (http_log (snd (Handlers.choose_public_url w))) = posts (http_log w).
Proof.
  apply (keeps_choose_public_url (fun w => posts (http_log w))); insensitive.
Qed.

Lemma posts_save_registration data w :
  http_log (snd (Handlers.save_registration data w)) = http_log w.
Proof. apply (keeps_save_registration http_log). insensitive. Qed.

(** X15. The link code typed by the user is upper-cased by the renderer and
    lower-cased again by the main process: a submission of an ASCII input
    that passes the checks posts exactly one registration, and its
    [link_code] is the trimmed input in lower case. *)
Theorem submitted_code_is_sent_in_lower_case input w s :
  JsString.ascii_only input = true ->
  isSubmitting w = false ->
  Renderer.valid_code (JsString.toUpperCase (JsString.trim input)) = true ->
  system w = Some s ->
  let w1 := exec (Renderer.submitLinkCode input) w in
  exists p,
    posts (http_log w1) = PostRegister p :: posts (http_log w) /\
    link_code p = JsString.toLowerCase (JsString.trim input) /\
    p_deviceId p = deviceId s.
Proof.
  intros _ Hbusy Hvalid Hs w1.
  set (code := JsString.toUpperCase (JsString.trim input)) in *.
  set (w0 := Renderer.set_isSubmitting true w).
  destruct (choose_public_url_total w0) as [u Hu].
  destruct (Handlers.choose_public_url w0) as [o v] eqn:Hc.
  simpl in Hu. subst o.
  destruct (register_server_post w0 code s u v Hs Hc) as [ms Hpost].
  pose proof (posts_choose_public_url w0) as Hp. rewrite Hc in Hp.
  cbn [snd] in Hp.
  destruct (register_server_returns code w0) as (r & Hr & _).
  destruct (Handlers.register_server code w0) as [o v1] eqn:Hreg.
  simpl in Hr, Hpost. subst o.
  exists (Payload (JsString.toLowerCase code) (deviceId s) (osInfo s)
                  (hardware s) u ms).
  split; [|split; [apply toLowerCase_toUpperCase|reflexivity]].
  assert (Hlog : posts (http_log v1)
                 = PostRegister (Payload (JsString.toLowerCase code) (deviceId s)
                                   (osInfo s) (hardware s) u ms)
                   :: posts (http_log w)).
  { rewrite Hpost. cbn. f_equal. exact Hp. }
  unfold w1, exec.
  destruct (fst (Renderer.confirmed r v1)) as [[|]|e] eqn:E.
  - rewrite (submit_success input w r v1) by assumption. cbn [snd].
    change (posts (http_log (snd (Handlers.save_registration
              (Renderer.saved_record (Js.prop r "data") code (now v1)) v1)))
            = PostRegister (Payload (JsString.toLowerCase code) (deviceId s)
                              (osInfo s) (hardware s) u ms)
              :: posts (http_log w)).
    rewrite posts_save_registration. exact Hlog.
  - destruct (submit_failure input w r v1 Hbusy Hvalid Hreg) as (e & -> & _);
      [congruence|exact Hlog].
  - destruct (submit_failure input w r v1 Hbusy Hvalid Hreg) as (e' & -> & _);
      [congruence|exact Hlog].
Qed.

Lemma submitted_code_is_sent_in_lower_case_witness :
  let w1 := exec (Renderer.submitLinkCode " aBc123 ") Sample.confirming in
  exists p,
    posts (http_log w1) = PostRegister p :: posts (http_log Sample.confirming) /\
    link_code p = JsString.toLowerCase (JsString.trim " aBc123 ") /\
    p_deviceId p = "devbox".
Proof.
  apply (submitted_code_is_sent_in_lower_case " aBc123 " Sample.confirming
           Sample.machine); reflexivity.
Defined.

Lemma register_server_rejected w linkCode s e rest :
  system w = Some s ->
  register_feed w = Rejected e :: rest ->
  exists w1,
    Handlers.register_server linkCode w =
    (Ret (Handlers.failure
            (Js.or_else
               (Js.or_else (Main.response_field e "error") (Js.Str (message e)))
               (Js.Str "Failed to register with Whistant server"))), w1) /\
    registration_json w1 = registration_json w.
Proof.
  intros Hs Hfeed.
  unfold Handlers.register_server, Main.collectSystemInfo. munfold.
  rewrite Hs.
  destruct (choose_public_url_total w) as [u Hu].
  pose proof (keeps_choose_public_url register_feed
                (fun _ => eq_refl) (fun _ _ => eq_refl) w) as K.
  pose proof (keeps_choose_public_url registration_json
                (fun _ => eq_refl) (fun _ _ => eq_refl) w) as Kf.
  destruct (Handlers.choose_public_url w) as [o w1]. simpl in Hu, K, Kf. subst o.
  destruct (fetchAvailableModels_run w1) as [ms Hms]. rewrite Hms.
  unfold axios. cbn -[Handlers.unconfirmed Js.or_else]. rewrite K, Hfeed.
  cbn -[Js.or_else]. eexists. split; [reflexivity|]. exact Kf.
Qed.

(** X16. When the server rejects the registration with an [error] text in its
    answer, that text is what the user reads: [register-server] returns it
    as [error], [submitLinkCode] shows it on the error screen after the cross
    mark and a space, and nothing is saved. *)
Theorem server_error_reaches_the_screen input w s e rest msg :
  isSubmitting w = false ->
  Renderer.valid_code (JsString.toUpperCase (JsString.trim input)) = true ->
  system w = Some s ->
  register_feed w = Rejected e :: rest ->
  Main.response_field e "error" = Js.Str msg ->
  msg <> EmptyString ->
  let w1 := exec (Renderer.submitLinkCode input) w in
  screen w1 = "screen-error" /\
  error_message w1 = (Renderer.cross_mark ++ " " ++ msg)%string /\
  isSubmitting w1 = false /\
  registration_json w1 = registration_json w.
Proof.
  intros Hbusy Hvalid Hs Hfeed Herr Hne w1.
  destruct (register_server_rejected (Renderer.set_isSubmitting true w)
              (JsString.toUpperCase (JsString.trim input)) s e rest Hs Hfeed)
    as (v & Hreg & Hfile).
  rewrite Herr in Hreg.
  assert (Hor : Js.or_else (Js.or_else (Js.Str msg) (Js.Str (message e)))
                  (Js.Str "Failed to register with Whistant server")
                = Js.Str msg).
  { unfold Js.or_else. destruct msg; [congruence|reflexivity]. }
  rewrite Hor in Hreg.
  destruct (submit_failure input w _ v Hbusy Hvalid Hreg) as (e' & Hrun & He').
  - discriminate.
  - unfold w1, exec. rewrite Hrun. cbn [snd].
    rewrite (He' eq_refl).
    assert (Hm : Js.or_else (Js.prop (Handlers.failure (Js.Str msg)) "error")
                   (Js.Str "Registration failed - server did not confirm")
                 = Js.Str msg).
    { change (Js.prop (Handlers.failure (Js.Str msg)) "error") with (Js.Str msg).
      unfold Js.or_else. destruct msg; [congruence|reflexivity]. }
    rewrite Hm. repeat split. exact Hfile.
Qed.

Lemma server_error_reaches_the_screen_witness :
  let w1 := exec (Renderer.submitLinkCode "abc123") Sample2.expired in
  screen w1 = "screen-error" /\
  error_message w1 = (Renderer.cross_mark ++ " Link code expired")%string /\
  isSubmitting w1 = false /\
  registration_json w1 = registration_json Sample2.expired.
Proof.
  apply (server_error_reaches_the_screen "abc123" Sample2.expired
           Sample.machine
           (Error "Request failed with status code 410"
              (Some (Js.Obj [("error", Js.Str "Link code expired")])))
           [] "Link code expired");
    [reflexivity|reflexivity|reflexivity|reflexivity|reflexivity|discriminate].
Defined.

(** ** Waiting for Ollama and the first screen *)

Lemma check_ollama_run w :
  Handlers.check_ollama w =
  (Ret (match hd refused (tags_feed w) with
        | Resolved data =>
            if Js.nullish data
            then Handlers.failure
                   (Js.Str ("Ollama not running on " ++ OLLAMA_SERVER_URL w))
            else Js.Obj [("success", Js.Bool true);
                         ("models", Js.or_else (Js.prop data "models") (Js.Arr []))]
        | Rejected _ =>
            Handlers.failure
              (Js.Str ("Ollama not running on " ++ OLLAMA_SERVER_URL w))
        end),
   snd (exchange GetTags w)).
Proof.
  unfold Handlers.check_ollama, getp, Js.get, axios. munfold.
  cbn -[Js.or_else Js.prop].
  destruct (hd refused (tags_feed w)) as [data|e]; [|reflexivity].
  destruct (Js.nullish data); reflexivity.
Qed.

Lemma repeat_shift {A} (a : A) n l : repeat a n ++ a :: l = a :: repeat a n ++ l.
Proof. induction n as [|n IH]; simpl; [reflexivity|]. rewrite IH. reflexivity. Qed.

Lemma waitForOllama_from_down n : forall w,
  (forall k, (k < n)%nat -> tags_down (nth k (tags_feed w) refused) = true) ->
  let w1 := exec (Renderer.waitForOllama_from n) w in
  fst (Renderer.waitForOllama_from n w) = Ret false /\
  screen w1 = "screen-error" /\
  error_message w1 = Renderer.ollama_missing /\
  http_log w1 = repeat GetTags n ++ http_log w /\
  registration_json w1 = registration_json w.
Proof.
  induction n as [|n IH]; intros w Hdown.
  - repeat split.
  - assert (Hstep : Renderer.waitForOllama_from (S n) w
                    = Renderer.waitForOllama_from n (snd (exchange GetTags w))).
    { cbn [Renderer.waitForOllama_from]. unfold bind at 1. unfold try_catch.
      unfold bind at 1. rewrite check_ollama_run.
      specialize (Hdown 0%nat (Nat.lt_0_succ n)).
      destruct (tags_feed w) as [|r feed]; cbn [nth hd] in *.
      - reflexivity.
      - destruct r as [data|e]; simpl in Hdown; [rewrite Hdown|]; reflexivity. }
    cbv zeta. unfold exec. rewrite Hstep.
    destruct (IH (snd (exchange GetTags w))) as (H1 & H2 & H3 & H4 & H5).
    { intros k Hk. specialize (Hdown (S k) (proj1 (Nat.succ_lt_mono k n) Hk)).
      change (tags_feed (snd (exchange GetTags w))) with (tl (tags_feed w)).
      destruct (tags_feed w) as [|r feed]; [destruct k|]; exact Hdown. }
    unfold exec in *. repeat split; try assumption.
    rewrite H4. change (http_log (snd (exchange GetTags w)))
                  with (GetTags :: http_log w).
    apply repeat_shift.
Qed.

(** X17. When Ollama does not answer any of its thirty checks,
    [waitForOllama] gives up: it returns [false] after exactly thirty calls of
    [/api/tags] and shows the error screen with the hint to start Ollama. *)
Theorem ollama_wait_gives_up_after_thirty_checks w :
  (forall k, (k < 30)%nat -> tags_down (nth k (tags_feed w) refused) = true) ->
  let w1 := exec Renderer.waitForOllama w in
  fst (Renderer.waitForOllama w) = Ret false /\
  screen w1 = "screen-error" /\
  error_message w1 = Renderer.ollama_missing /\
  http_log w1 = repeat GetTags 30 ++ http_log w.
Proof.
  intros H. destruct (waitForOllama_from_down 30 w H) as (H1 & H2 & H3 & H4 & _).
  repeat split; assumption.
Qed.

Lemma ollama_wait_gives_up_after_thirty_checks_witness :
  let w1 := exec Renderer.waitForOllama Sample.fresh in
  fst (Renderer.waitForOllama Sample.fresh) = Ret false /\
  screen w1 = "screen-error" /\
  error_message w1 = Renderer.ollama_missing /\
  http_log w1 = repeat GetTags 30 ++ http_log Sample.fresh.
Proof.
  apply (ollama_wait_gives_up_after_thirty_checks Sample.fresh).
  intros k _. destruct k as [|k]; [reflexivity|destruct k; reflexivity].
Defined.

Lemma attempt_screen (c : M bool) w :
  c = try_catch
        (result <- Handlers.check_ollama ;;
         if Js.truthy (Js.prop result "success") then
           Renderer.displayModelsList
             (Js.or_else (Js.prop result "models") (Js.Arr [])) ;;;
           Renderer.loadSystemInfo ;;;
           Renderer.showScreen "screen-enter-code" ;;;
           Renderer.enableLinkCodeInput ;;;
           ret true
         else ret false)
        (fun _ => ret false) ->
  exists b v, c w = (Ret b, v) /\
              (b = true -> screen v = "screen-enter-code") /\
              (b = false -> screen v = screen w).
Proof.
  intros ->. unfold try_catch. unfold bind at 1.
  pose proof (keeps_check_ollama screen (fun _ => eq_refl) w) as K1.
  rewrite check_ollama_run in *. cbn [snd] in K1.
  set (w1 := snd (exchange GetTags w)) in *.
  destruct (Js.truthy (Js.prop _ "success")).
  - unfold bind at 1.
    match goal with
    | |- context [Renderer.displayModelsList ?m w1] =>
        pose proof (keeps_displayModelsList screen (fun _ => eq_refl) m w1) as K2;
        destruct (Renderer.displayModelsList m w1) as [[[]|e] w2]
    end; cbn [snd] in K2.
    + unfold bind at 1.
      pose proof (keeps_loadSystemInfo screen (fun _ => eq_refl)
                    (fun _ => eq_refl) (fun _ _ => eq_refl) w2) as K3.
      destruct (Renderer.loadSystemInfo w2) as [[[]|e] w3]; cbn [snd] in K3.
      * eexists _, _. split; [reflexivity|]. split; [reflexivity|discriminate].
      * exists false, w3. split; [reflexivity|]. split; [discriminate|].
        intros _. congruence.
    + exists false, w2. split; [reflexivity|]. split; [discriminate|].
      intros _. congruence.
  - exists false, w1. split; [reflexivity|]. split; [discriminate|].
    intros _. exact K1.
Qed.

Lemma waitForOllama_from_screen n : forall w,
  let w1 := exec (Renderer.waitForOllama_from n) w in
  screen w1 = "screen-enter-code" \/ screen w1 = "screen-error".
Proof.
  induction n as [|n IH]; intros w; cbv zeta.
  - right. reflexivity.
  - destruct (attempt_screen _ w eq_refl) as (b & v & Hrun & Ht & _).
    assert (E : Renderer.waitForOllama_from (S n) w
                = if b then (Ret true, v) else Renderer.waitForOllama_from n v).
    { cbn [Renderer.waitForOllama_from]. unfold bind at 1. rewrite Hrun.
      destruct b; reflexivity. }
    unfold exec. rewrite E. destruct b.
    + left. apply Ht. reflexivity.
    + apply IH.
Qed.

Lemma first_screen_run w :
  exec Page.first_screen w =
  if shows_registered w then Renderer.set_screen "screen-success" w
  else exec Renderer.waitForOllama (Renderer.set_screen "screen-check-ollama" w).
Proof.
  unfold Page.first_screen, exec, shows_registered. unfold bind at 1.
  rewrite load_registration_run.
  assert (Helse : snd ((Renderer.showScreen "screen-check-ollama" ;;;
                        Renderer.waitForOllama ;;; ret tt) w)
                  = snd (Renderer.waitForOllama
                           (Renderer.set_screen "screen-check-ollama" w))).
  { unfold bind.
    change (Renderer.showScreen "screen-check-ollama" w)
      with (Ret tt, Renderer.set_screen "screen-check-ollama" w).
    cbv iota.
    destruct (Renderer.waitForOllama _) as [[b|e] v]; reflexivity. }
  destruct (registration_json w) as [|[rec|raw]]; cbn [andb Js.truthy Js.prop];
    try exact Helse.
  destruct (read_fault w); cbn [negb andb Js.truthy]; [exact Helse|].
  destruct (Js.truthy rec); cbn [andb]; [|exact Helse].
  destruct (Js.truthy (Js.prop rec "registered")); [reflexivity|exact Helse].
Qed.

Lemma check_cloudflared_run w :
  Handlers.check_cloudflared w =
  if Main.truthy_url (detectedTunnelUrl w)
  then (Ret (Handlers.tunnel_found (detectedTunnelUrl w)), w)
  else
    let r := probe_answer (hd refused (metrics_feed w)) in
    let w1 := snd (exchange GetMetrics w) in
    if Main.truthy_url r
    then (Ret (Handlers.tunnel_found r), set_detectedTunnelUrl r w1)
    else (Ret (Handlers.failure (Js.Str "Tunnel starting up...")), w1).
Proof.
  unfold Handlers.check_cloudflared. unfold try_catch, bind at 1, gets.
  destruct (Main.truthy_url (detectedTunnelUrl w)); [reflexivity|].
  unfold bind at 1. rewrite getCloudflaredUrl_run. cbv zeta.
  destruct (Main.truthy_url (probe_answer _)); reflexivity.
Qed.

Lemma checkServicesStatus_returns w :
  fst (Renderer.checkServicesStatus w) = Ret tt.
Proof.
  unfold Renderer.checkServicesStatus. unfold bind at 1.
  rewrite check_ollama_run. unfold bind at 1. rewrite check_cloudflared_run.
  cbv zeta. repeat match goal with
                   | |- context [if ?b then _ else _] => destruct b
                   end; reflexivity.
Qed.

Lemma checkServicesStatus_log w :
  http_log (exec Renderer.checkServicesStatus w) =
  if Main.truthy_url (detectedTunnelUrl w) then GetTags :: http_log w
  else GetMetrics :: GetTags :: http_log w.
Proof.
  unfold exec, Renderer.checkServicesStatus. unfold bind at 1.
  rewrite check_ollama_run. unfold bind at 1. rewrite check_cloudflared_run.
  cbv zeta.
  change (detectedTunnelUrl (snd (exchange GetTags w)))
    with (detectedTunnelUrl w).
  destruct (Main.truthy_url (detectedTunnelUrl w)); [reflexivity|].
  destruct (Main.truthy_url (probe_answer _)); reflexivity.
Qed.

Lemma checkServicesStatus_record w :
  shows_registered (exec Renderer.checkServicesStatus w) = shows_registered w.
Proof.
  unfold shows_registered, exec.
  rewrite (keeps_checkServicesStatus registration_json) by insensitive.
  rewrite (keeps_checkServicesStatus read_fault) by insensitive.
  reflexivity.
Qed.

Lemma page_load_run w :
  exec Page.page_load w
  = exec Page.first_screen (exec Renderer.checkServicesStatus w).
Proof.
  unfold Page.page_load, Page.startStatusMonitoring, exec. unfold bind at 1.
  pose proof (checkServicesStatus_returns w) as R.
  destruct (Renderer.checkServicesStatus w) as [o v]. simpl in R. subst o.
  reflexivity.
Qed.

(** X18. The first screen follows the registration file.  The page load
    starts with one status check ([GET /api/tags], and the metrics probe when
    no tunnel URL is cached); when the file holds a readable record whose
    [registered] is truthy, nothing else happens but the change to the
    success screen; otherwise the page waits for Ollama and ends on the code
    entry screen or on the error screen. *)
Theorem first_screen_follows_the_record w :
  let w0 := exec Renderer.checkServicesStatus w in
  let w1 := exec Page.page_load w in
  http_log w0 = (if Main.truthy_url (detectedTunnelUrl w)
                 then GetTags :: http_log w
                 else GetMetrics :: GetTags :: http_log w) /\
  (shows_registered w = true -> w1 = Renderer.set_screen "screen-success" w0) /\
  (shows_registered w = false ->
   screen w1 = "screen-enter-code" \/ screen w1 = "screen-error").
Proof.
  cbv zeta. rewrite page_load_run, first_screen_run, checkServicesStatus_record.
  split; [apply checkServicesStatus_log|].
  split; intros H; rewrite H.
  - reflexivity.
  - apply waitForOllama_from_screen.
Qed.

Lemma first_screen_follows_the_record_witness :
  exec Page.page_load Sample.registered
  = Renderer.set_screen "screen-success"
      (exec Renderer.checkServicesStatus Sample.registered).
Proof.
  exact (proj1 (proj2 (first_screen_follows_the_record Sample.registered))
               eq_refl).
Defined.

Lemma submit_confirmed_run input w s fields rest :
  isSubmitting w = false ->
  Renderer.valid_code (JsString.toUpperCase (JsString.trim input)) = true ->
  system w = Some s ->
  register_feed w = Resolved (Js.Obj fields) :: rest ->
  (Js.lookup "code" fields = Some (Js.Str Handlers.success_marker) \/
   Js.truthy (Js.prop (Js.Obj fields) "userId") = true) ->
  exists url ms v,
    Renderer.submitLinkCode input w =
    (Ret tt,
     Renderer.set_isSubmitting false
       (Renderer.set_screen "screen-success"
          (set_registration_json
             (Fs.File (Fs.JsonText
                (Js.json_inner
                   (Renderer.saved_record
                      (Handlers.registered_data s (Js.Obj fields) url ms)
                      (JsString.toUpperCase (JsString.trim input)) (now w)))))
             v))) /\
    read_fault v = read_fault w.
Proof.
  intros Hbusy Hvalid Hs Hfeed Hok.
  set (code := JsString.toUpperCase (JsString.trim input)) in *.
  set (w0 := Renderer.set_isSubmitting true w).
  destruct (register_server_confirmed w0 code s fields rest Hs Hfeed Hok)
    as (url & ms & v & Hrun & _ & Hnow).
  pose proof (keeps_register_server read_fault code
                (fun _ => eq_refl) (fun _ _ => eq_refl) (fun _ => eq_refl)
                (fun _ _ => eq_refl) w0) as Kr.
  rewrite Hrun in Kr. cbn [snd] in Kr.
  exists url, ms, v. split; [|exact Kr].
  rewrite (submit_success input w _ v Hbusy Hvalid Hrun) by reflexivity.
  fold code. rewrite Hnow. change (now w0) with (now w).
  rewrite save_value_run by discriminate. reflexivity.
Qed.

Lemma page_load_after_unlink w :
  screen (exec Page.page_load (boot (exec Renderer.unlinkServer w)))
  <> "screen-success".
Proof.
  rewrite page_load_run, first_screen_run, checkServicesStatus_record.
  assert (H : shows_registered (boot (exec Renderer.unlinkServer w)) = false).
  { unfold shows_registered.
    change (registration_json (boot (exec Renderer.unlinkServer w)))
      with (registration_json (exec Renderer.unlinkServer w)).
    rewrite unlinkServer_clears. reflexivity. }
  rewrite H.
  destruct (waitForOllama_from_screen 30
              (Renderer.set_screen "screen-check-ollama"
                 (exec Renderer.checkServicesStatus
                    (boot (exec Renderer.unlinkServer w))))) as [E|E];
    unfold Renderer.waitForOllama; rewrite E; discriminate.
Qed.

(** X19. A link made by [submitLinkCode] survives a restart of the
    application, and unlinking ends it: after a confirmed registration the
    next page load opens on the success screen and does nothing else beyond
    its status check, [resetApp] leaves that state untouched, and after
    [unlinkServer] the next page load no longer opens on the success
    screen. *)
Theorem link_survives_restart_until_unlinked input w s fields rest :
  isSubmitting w = false ->
  Renderer.valid_code (JsString.toUpperCase (JsString.trim input)) = true ->
  system w = Some s ->
  read_fault w = false ->
  register_feed w = Resolved (Js.Obj fields) :: rest ->
  (Js.lookup "code" fields = Some (Js.Str Handlers.success_marker) \/
   Js.truthy (Js.prop (Js.Obj fields) "userId") = true) ->
  let w1 := exec (Renderer.submitLinkCode input) w in
  screen w1 = "screen-success" /\
  exec Page.page_load (boot w1)
    = Renderer.set_screen "screen-success"
        (exec Renderer.checkServicesStatus (boot w1)) /\
  exec Page.resetApp w1 = w1 /\
  screen (exec Page.page_load (boot (exec Renderer.unlinkServer w1)))
    <> "screen-success".
Proof.
  intros Hbusy Hvalid Hs Hr Hfeed Hok w1.
  destruct (submit_confirmed_run input w s fields rest Hbusy Hvalid Hs Hfeed Hok)
    as (url & ms & v & Hrun & Hrf).
  assert (Hw1 : w1 = snd (Renderer.submitLinkCode input w)) by reflexivity.
  rewrite Hrun in Hw1. cbn [snd] in Hw1.
  split; [rewrite Hw1; reflexivity|]. split; [|split].
  - rewrite page_load_run, first_screen_run, checkServicesStatus_record.
    assert (H : shows_registered (boot w1) = true).
    { rewrite Hw1. unfold shows_registered.
      cbn -[Js.json_inner Js.prop Renderer.saved_record].
      rewrite Hrf, Hr. cbn [negb andb].
      unfold Renderer.saved_record.
      rewrite (prop_json_inner _ "registered" (Js.Bool true));
        [reflexivity|reflexivity|discriminate]. }
    rewrite H. reflexivity.
  - rewrite Hw1. reflexivity.
  - apply page_load_after_unlink.
Qed.

Lemma link_survives_restart_until_unlinked_witness :
  let w1 := exec (Renderer.submitLinkCode " abc123 ") Sample.confirming in
  screen w1 = "screen-success" /\
  exec Page.page_load (boot w1)
    = Renderer.set_screen "screen-success"
        (exec Renderer.checkServicesStatus (boot w1)) /\
  exec Page.resetApp w1 = w1 /\
  screen (exec Page.page_load (boot (exec Renderer.unlinkServer w1)))
    <> "screen-success".
Proof.
  apply (link_survives_restart_until_unlinked " abc123 " Sample.confirming
           Sample.machine Sample.confirmation []);
    try reflexivity.
  left. reflexivity.
Defined.

(** ** Leaving the application *)

Section KeepsRenderer.
Context {X : Type} (f : world -> X).
Hypothesis Hmetrics : forall w, f (snd (exchange GetMetrics w)) = f w.
Hypothesis Htags : forall w, f (snd (exchange GetTags w)) = f w.
Hypothesis Hps : forall w, f (snd (exchange GetPs w)) = f w.
Hypothesis Hpost : forall p w, f (snd (exchange (PostRegister p) w)) = f w.
Hypothesis Hcache : forall u w, f (set_detectedTunnelUrl u w) = f w.
Hypothesis Hfile : forall x w, f (set_registration_json x w) = f w.
Hypothesis Hui : forall a b c d w, f (set_ui a b c d w) = f w.

Ltac ui_keeps :=
  first
    [ solve [auto]
    | solve [apply keeps_pure; auto with pure; pure_tac]
    | solve [apply keeps_modify; intros;
             unfold Renderer.set_screen, Renderer.set_isSubmitting,
               Renderer.set_error_message; auto]
    | solve [apply keeps_showScreen; auto]
    | solve [apply keeps_save_registration; auto]
    | solve [apply keeps_register_server; auto]
    | solve [apply keeps_waitForOllama_from; auto]
    | apply keeps_bind; [|intros]
    | apply keeps_try_catch; [|intros]
    | apply keeps_finally
    | solve [intros; unfold Renderer.set_isSubmitting; auto]
    | match goal with
      | |- keeps _ (if ?b then _ else _) => destruct b
      | |- keeps _ (match ?x with _ => _ end) => destruct x
      end ].

Lemma keeps_submitLinkCode input : keeps f (Renderer.submitLinkCode input).
Proof.
  unfold Renderer.submitLinkCode, Renderer.alert, Renderer.show_failure.
  repeat ui_keeps.
Qed.

Lemma keeps_registerWithCode code o d m :
  keeps f (Renderer.registerWithCode code o d m).
Proof.
  unfold Renderer.registerWithCode, Renderer.alert, Renderer.show_failure.
  repeat ui_keeps.
Qed.

Lemma keeps_unlinkServer : keeps f Renderer.unlinkServer.
Proof.
  unfold Renderer.unlinkServer, Renderer.waitForOllama,
    Renderer.enableLinkCodeInput.
  repeat ui_keeps.
Qed.

End KeepsRenderer.

Lemma on_ready_exec available ticks w :
  exec (Main.on_ready available ticks) w
  = exec (Main.startCloudflaredTunnel available ticks) (set_mainWindow true w).
Proof.
  unfold Main.on_ready, Main.createWindow, exec, bind, modify.
  destruct (Main.startCloudflaredTunnel available ticks (set_mainWindow true w))
    as [[o|e] v]; reflexivity.
Qed.

Lemma process_step a w :
  cloudflaredProcess (step a w) =
  match a with
  | AppReady available _ => available || cloudflaredProcess w
  | MonitorTick available _ =>
      if Main.truthy_url (probe_answer (hd refused (metrics_feed w)))
      then cloudflaredProcess w
      else available || cloudflaredProcess w
  | _ => cloudflaredProcess w
  end.
Proof.
  destruct a; cbn [step]; unfold exec.
  - fold (exec (Main.on_ready available ticks) w).
    rewrite on_ready_exec, start_process. reflexivity.
  - fold (exec (Main.monitorServices available ticks) w).
    rewrite monitorServices_run. cbv zeta.
    destruct (Main.truthy_url _).
    + unfold exec. rewrite keeps_process_update. reflexivity.
    + rewrite start_process. reflexivity.
  - apply keeps_register_server; insensitive.
  - apply keeps_save_registration; insensitive.
  - apply keeps_load_registration.
  - apply keeps_check_ollama; insensitive.
  - apply keeps_check_loaded_models; insensitive.
  - apply keeps_check_cloudflared; insensitive.
  - apply keeps_get_tunnel_url; insensitive.
  - apply keeps_get_system_info; insensitive.
  - apply keeps_submitLinkCode; insensitive.
  - apply keeps_registerWithCode; insensitive.
  - apply keeps_checkServicesStatus; insensitive.
  - apply keeps_waitForOllama_from; insensitive.
  - apply keeps_unlinkServer; insensitive.
  - reflexivity.
Qed.

Lemma release_tunnel_exec w :
  exec Exit.release_tunnel w = set_cloudflaredProcess false w \/
  (cloudflaredProcess w = false /\ exec Exit.release_tunnel w = w).
Proof.
  unfold Exit.release_tunnel. munfold.
  destruct (cloudflaredProcess w) eqn:E; [left|right; split]; reflexivity.
Qed.

Lemma tidy_spawn p :
  (Exit.alive p = [] \/ exists pid, Exit.handle p = Some pid /\ Exit.alive p = [pid]) ->
  Exit.alive (Exit.spawn (Exit.kill_handle p)) = [Exit.spawned p] /\
  Exit.handle (Exit.spawn (Exit.kill_handle p)) = Some (Exit.spawned p).
Proof.
  intros [H|(pid & Hh & Ha)]; unfold Exit.kill_handle, Exit.spawn, Exit.stop.
  - destruct (Exit.handle p); cbn; rewrite ?H; split; reflexivity.
  - rewrite Hh. cbn. rewrite Ha. cbn. rewrite Nat.eqb_refl. split; reflexivity.
Qed.

Lemma tidy_release p :
  (Exit.alive p = [] \/ exists pid, Exit.handle p = Some pid /\ Exit.alive p = [pid]) ->
  Exit.alive (Exit.release p) = [] /\ Exit.handle (Exit.release p) = None.
Proof.
  unfold Exit.release, Exit.stop. intros [H|(pid & Hh & Ha)].
  - destruct (Exit.handle p) eqn:E; cbn; rewrite ?H, ?E; split; reflexivity.
  - rewrite Hh. cbn. rewrite Ha. cbn. rewrite Nat.eqb_refl.
    split; reflexivity.
Qed.

Lemma tidy_step e s :
  Exit.not_ready e = true -> tidy s -> tidy (Exit.both_step s e).
Proof.
  destruct s as [w p]. unfold tidy, Exit.both_step. cbn [fst snd].
  intros Hnr [Hshape Hsync].
  destruct e as [a| | | |pid|]; cbn [Exit.world_step Exit.procs_step].
  - rewrite process_step.
    destruct a; try discriminate; try (split; assumption).
    destruct (Main.truthy_url _); [split; assumption|].
    destruct available; cbn [orb].
    + destruct (tidy_spawn p Hshape) as [Ha Hh].
      rewrite Ha, Hh. split; [right; eauto|]. split; [discriminate|reflexivity].
    + assert (Hk : Exit.handle (Exit.kill_handle p) = Exit.handle p).
      { clear. unfold Exit.kill_handle.
        destruct (Exit.handle p) eqn:E; cbn; congruence. }
      rewrite Hk. split; [|exact Hsync].
      destruct Hshape as [H|(pid & Hh & Ha)];
        unfold Exit.kill_handle, Exit.stop.
      * destruct (Exit.handle p); cbn; rewrite ?H; left; reflexivity.
      * rewrite Hh. cbn. rewrite Ha. cbn. rewrite Nat.eqb_refl.
        left. reflexivity.
  - destruct (tidy_release p Hshape) as [Ha Hh]. rewrite Ha, Hh. split; [left; reflexivity|].
    unfold Exit.on_close, Exit.on_closed.
    destruct (release_tunnel_exec w) as [->|[E ->]]; cbn; rewrite ?E;
      split; congruence.
  - destruct (tidy_release p Hshape) as [Ha Hh]. rewrite Ha, Hh. split; [left; reflexivity|].
    unfold Exit.on_window_all_closed.
    destruct (release_tunnel_exec w) as [->|[E ->]]; cbn; rewrite ?E;
      split; congruence.
  - destruct (tidy_release p Hshape) as [Ha Hh]. rewrite Ha, Hh. split; [left; reflexivity|].
    unfold Exit.on_will_quit.
    destruct (release_tunnel_exec w) as [->|[E ->]]; cbn; rewrite ?E;
      split; congruence.
  - split; [|exact Hsync]. unfold Exit.stop. cbn.
    destruct Hshape as [H|(h & Hh & Ha)].
    + rewrite H. left. reflexivity.
    + rewrite Ha. cbn. destruct (Nat.eqb h pid); cbn; [left; reflexivity|].
      right. eauto.
  - split; [exact Hshape|].
    assert (E : cloudflaredProcess (exec Exit.on_activate w) = cloudflaredProcess w).
    { unfold Exit.on_activate, Main.createWindow. munfold.
      destruct (mainWindow w); reflexivity. }
    rewrite E. exact Hsync.
Qed.

Lemma tidy_run events : forall s,
  forallb Exit.not_ready events = true -> tidy s -> tidy (Exit.both_run events s).
Proof.
  unfold Exit.both_run.
  induction events as [|e l IH]; intros s Hall Hs; [exact Hs|].
  cbn in Hall. apply andb_true_iff in Hall. destruct Hall as [He Hl].
  cbn [fold_left]. apply IH; [exact Hl|]. apply tidy_step; assumption.
Qed.

Lemma tidy_ready available ticks w :
  tidy (Exit.both_step (boot w, Exit.no_procs)
          (Exit.Do (AppReady available ticks))).
Proof.
  unfold tidy, Exit.both_step. cbn [fst snd Exit.world_step Exit.procs_step].
  rewrite process_step. change (cloudflaredProcess (boot w)) with false.
  destruct available; cbn.
  - split; [right; eauto|]. split; [discriminate|reflexivity].
  - split; [left; reflexivity|]. split; [discriminate|congruence].
Qed.

(** X20. The application keeps at most one tunnel subprocess and never loses
    track of it: after ['ready'] and any sequence of later events (monitoring
    ticks that restart the tunnel, subprocesses that end by themselves, calls
    of the handlers) the only subprocess that can run is the one
    [cloudflaredProcess] refers to, and each of the three ways out (closing
    the window, ['window-all-closed'], ['will-quit']) leaves none running. *)
Theorem tunnel_subprocess_is_single_and_stopped_on_exit
    available ticks events w :
  forallb Exit.not_ready events = true ->
  let s := Exit.both_run (Exit.Do (AppReady available ticks) :: events)
             (boot w, Exit.no_procs) in
  tidy s /\
  forall e, Exit.is_exit e = true ->
    Exit.alive (snd (Exit.both_step s e)) = [] /\
    Exit.handle (snd (Exit.both_step s e)) = None /\
    cloudflaredProcess (fst (Exit.both_step s e)) = false.
Proof.
  intros Hall s.
  assert (Hs : tidy s).
  { unfold s, Exit.both_run. cbn [fold_left].
    apply (tidy_run events); [exact Hall|apply tidy_ready]. }
  split; [exact Hs|]. intros e He.
  assert (Hnr : Exit.not_ready e = true) by (destruct e; try discriminate; reflexivity).
  pose proof (tidy_step e s Hnr Hs) as [_ Hsync].
  destruct Hs as [Hshape _].
  assert (Hp : snd (Exit.both_step s e) = Exit.release (snd s))
    by (destruct e; try discriminate; reflexivity).
  rewrite Hp in *. destruct (tidy_release (snd s) Hshape) as [Ha Hh].
  split; [exact Ha|]. split; [exact Hh|].
  destruct (cloudflaredProcess (fst (Exit.both_step s e))); [|reflexivity].
  exfalso. apply (proj1 Hsync eq_refl). exact Hh.
Qed.

Lemma tunnel_subprocess_is_single_and_stopped_on_exit_witness :
  let s := Exit.both_run
             [Exit.Do (AppReady true Sample.output);
              Exit.ChildExit 0;
              Exit.Do (MonitorTick true Sample.output);
              Exit.Do UiCheckServicesStatus]
             (boot Sample.registered, Exit.no_procs) in
  tidy s /\
  forall e, Exit.is_exit e = true ->
    Exit.alive (snd (Exit.both_step s e)) = [] /\
    Exit.handle (snd (Exit.both_step s e)) = None /\
    cloudflaredProcess (fst (Exit.both_step s e)) = false.
Proof.
  apply (tunnel_subprocess_is_single_and_stopped_on_exit true Sample.output
           [Exit.ChildExit 0;
            Exit.Do (MonitorTick true Sample.output);
            Exit.Do UiCheckServicesStatus]
           Sample.registered).
  reflexivity.
Defined.

(** ** Configuration *)





(** X22. Without an object in [config/defaults.json] (no file, a file that
    does not parse, or a parsed value that is not an object), the two server
    addresses are non-empty strings whatever the environment and the [.env]
    files hold. *)
Theorem server_addresses_are_never_empty k c h u defaults e :
  (forall fields, defaults <> Fs.File (Fs.JsonText (Js.Obj fields))) ->
  k = "WHISTANT_SERVER_URL" \/ k = "OLLAMA_SERVER_URL" ->
  nonempty_string (Config.resolve k c h u defaults e).
Proof.
  intros Hd Hk.
  assert (HD : Config.DEFAULTS defaults = Config.hardcoded).
  { destruct defaults as [|[v|raw]]; try reflexivity.
    destruct v; try reflexivity. exfalso. eapply Hd. reflexivity. }
  unfold Config.resolve. rewrite HD. unfold Config.env_value.
  destruct (Config.env_get k (Config.loadEnv c h u e)) as [v|].
  - destruct v as [|a v].
    + destruct Hk as [-> | ->]; eexists; split; try reflexivity; discriminate.
    + exists (String a v). split; [reflexivity|discriminate].
  - destruct Hk as [-> | ->]; eexists; split; try reflexivity; discriminate.
Qed.

Lemma server_addresses_are_never_empty_witness :
  nonempty_string
    (Config.resolve "OLLAMA_SERVER_URL" None
       (Some [("WHISTANT_SERVER_URL", "https://staging.example:2087")]) None
       (Fs.File (Fs.BadText "{"))
       [("OLLAMA_SERVER_URL", EmptyString)]).
Proof.
  apply (server_addresses_are_never_empty "OLLAMA_SERVER_URL" None
           (Some [("WHISTANT_SERVER_URL", "https://staging.example:2087")]) None
           (Fs.File (Fs.BadText "{"))
           [("OLLAMA_SERVER_URL", EmptyString)]).
  - intros fields. discriminate.
  - right. reflexivity.
Defined.

(** ** The path of the tunnel binary *)

(** X23. [getCloudflaredPath] returns the first of its candidate paths that
    exists, in the order production, development, resources and, on macOS,
    application bundle; when none exists, or on a platform other than
    macOS, Linux and Windows, it returns the bare command name. *)
Theorem bundled_binary_is_first_existing_candidate
    existsSync join platform arch resourcesPath dirname :
  Paths.getCloudflaredPath existsSync join platform arch resourcesPath dirname
  = match find existsSync
            (Paths.candidates join platform arch resourcesPath dirname) with
    | Some p => p
    | None => "cloudflared"
    end /\
  (Paths.platformDir platform arch = None ->
   Paths.getCloudflaredPath existsSync join platform arch resourcesPath dirname
   = "cloudflared").
Proof.
  unfold Paths.getCloudflaredPath, Paths.candidates.
  destruct (Paths.platformDir platform arch) as [dir|]; [|split; reflexivity].
  split; [|discriminate]. cbv zeta. cbn [find app].
  destruct (existsSync (join [resourcesPath; "app.asar.unpacked"; "bin"; dir;
                              Paths.exeName platform])); [reflexivity|].
  destruct (existsSync (Paths.devPath join dirname dir (Paths.exeName platform)));
    [reflexivity|].
  destruct (existsSync (join [resourcesPath; "bin"; dir; Paths.exeName platform]));
    [reflexivity|].
  destruct (String.eqb platform "darwin"); cbn [find andb]; [|reflexivity].
  destruct (existsSync _); reflexivity.
Qed.

(** ** Linking files *)

(** X24. A linking file is read once: the poll that finds the file of a code
    returns its content and deletes it, so that the next poll for that code,
    and for any code that [path.join] maps to the same file, reports that
    nothing is linked, while the files at other paths stay; a linking file
    that does not parse is never deleted, and every poll for its code
    fails. *)
Theorem linking_file_is_read_once join userData code fs :
  let path := Linking.linkingPath join userData code in
  let r := Linking.poll_linking_status join userData code fs in
  (forall data,
     fs path = Fs.File (Fs.JsonText data) ->
     fst r = Js.Obj [("success", Js.Bool true); ("linked", Js.Bool true);
                     ("data", data)] /\
     (forall code', Linking.linkingPath join userData code' = path ->
        fst (Linking.poll_linking_status join userData code' (snd r))
        = Js.Obj [("success", Js.Bool true); ("linked", Js.Bool false)]) /\
     forall other, other <> path -> snd r other = fs other) /\
  (forall raw,
     fs path = Fs.File (Fs.BadText raw) ->
     Js.prop (fst r) "success" = Js.Bool false /\ snd r = fs).
Proof.
  cbv zeta. unfold Linking.poll_linking_status. split.
  - intros data H. rewrite H. cbn [fst snd]. split; [reflexivity|]. split.
    + intros code' E. rewrite E. unfold Linking.write.
      rewrite String.eqb_refl. reflexivity.
    + intros other Hne. unfold Linking.write.
      destruct (String.eqb other (Linking.linkingPath join userData code))
        eqn:E; [|reflexivity].
      apply String.eqb_eq in E. contradiction.
  - intros raw H. rewrite H. split; reflexivity.
Qed.

Lemma linking_file_is_read_once_witness :
  let path := Linking.linkingPath Sample2.join Sample2.userData "ABC123" in
  let r := Linking.poll_linking_status Sample2.join Sample2.userData "ABC123"
             Sample2.linking in
  fst r = Js.Obj [("success", Js.Bool true); ("linked", Js.Bool true);
                  ("data", Js.Obj [("userId", Js.Str "u-17")])] /\
  (forall code', Linking.linkingPath Sample2.join Sample2.userData code' = path ->
     fst (Linking.poll_linking_status Sample2.join Sample2.userData code' (snd r))
     = Js.Obj [("success", Js.Bool true); ("linked", Js.Bool false)]) /\
  forall other, other <> path -> snd r other = Sample2.linking other.
Proof.
  apply (linking_file_is_read_once Sample2.join Sample2.userData "ABC123"
           Sample2.linking).
  reflexivity.
Defined.

(** ** Saving and loading *)

Lemma value_nested_ind (P : Js.value -> Prop) :
  P Js.Undefined -> P Js.Null ->
  (forall b, P (Js.Bool b)) -> (forall n, P (Js.Num n)) ->
  (forall s, P (Js.Str s)) ->
  (forall items, Forall P items -> P (Js.Arr items)) ->
  (forall fields, Forall (fun kv => P (snd kv)) fields -> P (Js.Obj fields)) ->
  forall v, P v.
Proof.
  intros HU HN HB HZ HS HA HO.
  fix IH 1.
  intros [| |b|n|s|items|fields];
    [exact HU|exact HN|apply HB|apply HZ|apply HS| |].
  - apply HA. induction items as [|x l IHl]; constructor; [apply IH|exact IHl].
  - apply HO. induction fields as [|[k x] l IHl]; constructor;
      [apply IH|exact IHl].
Qed.

Lemma json_inner_defined v :
  v <> Js.Undefined -> Js.json_inner v <> Js.Undefined.
Proof. destruct v; simpl; congruence. Qed.

Lemma json_inner_idempotent v :
  Js.json_inner (Js.json_inner v) = Js.json_inner v.
Proof.
  induction v as [| |b|n|s|items IH|fields IH] using value_nested_ind;
    try reflexivity.
  - cbn [Js.json_inner]. f_equal. rewrite map_map.
    induction IH as [|x l Hx Hl IHl]; [reflexivity|].
    cbn [map]. f_equal; [|exact IHl].
    destruct x; try reflexivity; try exact Hx.
  - cbn [Js.json_inner]. f_equal.
    induction IH as [|[k x] l Hx Hl IHl]; [reflexivity|].
    cbn [snd] in Hx.
    destruct x; cbn [Js.json_inner] in *;
      first [exact IHl
            |f_equal; solve [exact IHl|f_equal; exact Hx|reflexivity]].
Qed.

(** X25. Saving and loading are inverse up to what JSON keeps: after
    [save-registration] of a value other than [null] and [undefined],
    [load-registration] returns the value without its [undefined] properties,
    and saving what was loaded leaves the file as it is. *)
Theorem saved_record_is_loaded_back data w :
  data <> Js.Null ->
  data <> Js.Undefined ->
  read_fault w = false ->
  let w1 := exec (Handlers.save_registration data) w in
  fst (Handlers.load_registration w1) = Ret (Js.json_inner data) /\
  exec (Handlers.save_registration (Js.json_inner data)) w1 = w1.
Proof.
  intros Hn Hu Hr w1.
  assert (Hw1 : w1 = set_registration_json
                       (Fs.File (Fs.JsonText (Js.json_inner data))) w).
  { unfold w1, exec. rewrite save_value_run by assumption. reflexivity. }
  split.
  - rewrite load_registration_run, Hw1. cbn. rewrite Hr. reflexivity.
  - unfold exec. rewrite save_value_run.
    + rewrite json_inner_idempotent, Hw1. reflexivity.
    + destruct data; simpl; congruence.
    + apply json_inner_defined. exact Hu.
Qed.

Lemma saved_record_is_loaded_back_witness :
  let data := Js.Obj [("registered", Js.Bool true); ("userId", Js.Undefined);
                      ("models", Js.Arr [Js.Str "gpt-oss:20b"; Js.Undefined])] in
  let w1 := exec (Handlers.save_registration data) Sample.fresh in
  fst (Handlers.load_registration w1) = Ret (Js.json_inner data) /\
  exec (Handlers.save_registration (Js.json_inner data)) w1 = w1.
Proof.
  apply (saved_record_is_loaded_back
           (Js.Obj [("registered", Js.Bool true); ("userId", Js.Undefined);
                    ("models", Js.Arr [Js.Str "gpt-oss:20b"; Js.Undefined])])
           Sample.fresh);
    [discriminate|discriminate|reflexivity].
Defined.

(** ** The list of models *)

Lemma map_m_names items w :
  existsb Js.nullish items = false ->
  Main.map_m (fun m => getp m "name") items w
  = (Ret (map (fun m => Js.prop m "name") items), w).
Proof.
  induction items as [|x l IH]; intros H; [reflexivity|].
  cbn [existsb] in H. apply orb_false_iff in H. destruct H as [Hx Hl].
  assert (E : getp x "name" w = (Ret (Js.prop x "name"), w))
    by (unfold getp, Js.get; rewrite Hx; reflexivity).
  cbn [Main.map_m map]. unfold bind at 1. rewrite E.
  unfold bind at 1. rewrite (IH Hl). reflexivity.
Qed.

Lemma map_m_names_null items w :
  existsb Js.nullish items = true ->
  exists e, Main.map_m (fun m => getp m "name") items w = (Throw e, w).
Proof.
  induction items as [|x l IH]; intros H; [discriminate|].
  cbn [existsb] in H. cbn [Main.map_m]. unfold bind at 1.
  destruct (Js.nullish x) eqn:Hx.
  - assert (E : exists e, getp x "name" w = (Throw e, w))
      by (unfold getp, Js.get; rewrite Hx; unfold type_error, throw; eauto).
    destruct E as [e ->]. eauto.
  - assert (E : getp x "name" w = (Ret (Js.prop x "name"), w))
      by (unfold getp, Js.get; rewrite Hx; reflexivity).
    rewrite E. cbn [orb] in H. unfold bind at 1.
    destruct (IH H) as [e ->]. eauto.
Qed.

(** X26. [fetchAvailableModels] never throws and gives the names of the
    models in the order of the answer of [/api/tags]; the list is empty when
    the call fails or the answer has no model list, and one [null] entry in
    the list empties it as a whole. *)
Theorem model_list_is_names_or_empty w :
  let r := fst (Main.fetchAvailableModels w) in
  (tags_down (hd refused (tags_feed w)) = true -> r = Ret []) /\
  (forall data,
     hd refused (tags_feed w) = Resolved data -> Js.nullish data = false ->
     (Js.truthy (Js.prop data "models") = false -> r = Ret []) /\
     (forall items, Js.prop data "models" = Js.Arr items ->
        r = Ret (if existsb Js.nullish items then []
                 else map (fun m => Js.prop m "name") items))).
Proof.
  cbv zeta. unfold Main.fetchAvailableModels, try_catch, bind, axios.
  cbn -[Main.model_names Js.prop].
  split.
  - intros H. destruct (hd refused (tags_feed w)) as [data|e]; [|reflexivity].
    simpl in H. unfold Main.model_names, getp, Js.get, bind. rewrite H.
    reflexivity.
  - intros data Hd Hn. rewrite Hd.
    unfold Main.model_names, getp, Js.get, bind. rewrite Hn.
    unfold ret at 1. split.
    + intros Ht. rewrite Ht. reflexivity.
    + intros items Hi. rewrite Hi. cbn [Js.truthy Main.names_of].
      destruct (existsb Js.nullish items) eqn:E.
      * destruct (map_m_names_null items
                    (snd (exchange GetTags w)) E) as [e He].
        cbn -[Main.map_m] in He |- *. rewrite He. reflexivity.
      * pose proof (map_m_names items (snd (exchange GetTags w)) E) as He.
        cbn -[Main.map_m] in He |- *. rewrite He. reflexivity.
Qed.

(** ** The metrics probe finds a running tunnel *)

Lemma split_lines_cons s : exists l ls, JsString.split_lines s = l :: ls.
Proof.
  induction s as [|c s IH]; simpl; [eauto|].
  destruct (Ascii.eqb c "010"%char); [eauto|].
  destruct IH as (l & ls & ->). eauto.
Qed.

Lemma split_lines_word u post :
  (forall c, In c (list_ascii_of_string u) -> Ascii.eqb c "010"%char = false) ->
  exists b ls,
    JsString.split_lines (u ++ post)%string = (u ++ b)%string :: ls.
Proof.
  induction u as [|c u IH]; intros H.
  - destruct (split_lines_cons post) as (l & ls & E). exists l, ls. exact E.
  - destruct IH as (b & ls & E).
    { intros c' Hc'. apply H. right. exact Hc'. }
    exists b, ls. cbn [append JsString.split_lines].
    rewrite (H c (or_introl eq_refl)), E. reflexivity.
Qed.

Lemma split_lines_holds pre u post :
  (forall c, In c (list_ascii_of_string u) -> Ascii.eqb c "010"%char = false) ->
  exists l1 a b l2,
    JsString.split_lines (pre ++ u ++ post)%string
    = l1 ++ (a ++ u ++ b)%string :: l2.
Proof.
  intros H. induction pre as [|c pre IH].
  - destruct (split_lines_word u post H) as (b & ls & E).
    exists [], EmptyString, b, ls. exact E.
  - destruct IH as (l1 & a & b & l2 & E).
    cbn [append JsString.split_lines]. rewrite E.
    destruct (Ascii.eqb c "010"%char).
    + exists (EmptyString :: l1), a, b, l2. reflexivity.
    + destruct l1 as [|x l1]; cbn [app].
      * exists [], (String c a), b, l2. reflexivity.
      * exists (String c x :: l1), a, b, l2. reflexivity.
Qed.

Lemma tunnel_url_one_line u :
  is_tunnel_url u ->
  forall c, In c (list_ascii_of_string u) -> Ascii.eqb c "010"%char = false.
Proof.
  intros (label & _ & Hall & ->) c Hc.
  assert (Hin : forall (a b : string) x,
            In x (list_ascii_of_string (a ++ b)) ->
            In x (list_ascii_of_string a) \/ In x (list_ascii_of_string b)).
  { induction a as [|y a IHa]; intros b x Hx; cbn in *; [auto|].
    destruct Hx as [->|Hx]; [auto|]. destruct (IHa b x Hx); auto. }
  apply Hin in Hc. destruct Hc as [Hc|Hc].
  - cbn in Hc. decompose [or] Hc; subst; try reflexivity; contradiction.
  - apply Hin in Hc. destruct Hc as [Hc|Hc].
    + specialize (Hall c Hc). destruct (Ascii.eqb c "010"%char) eqn:E; [|reflexivity].
      apply Ascii.eqb_eq in E. subst. discriminate.
    + cbn in Hc. decompose [or] Hc; subst; try reflexivity; contradiction.
Qed.

Lemma first_url_finds l1 line l2 :
  Main.url_in_line line <> None -> Main.first_url (l1 ++ line :: l2) <> None.
Proof.
  intros H. induction l1 as [|x l1 IH]; cbn [app Main.first_url].
  - destruct (Main.url_in_line line); [discriminate|congruence].
  - destruct (Main.url_in_line x); [discriminate|exact IH].
Qed.

(** X27. The metrics probe does not miss a running tunnel: when the metrics
    page holds a well-formed tunnel URL anywhere in its text,
    [getCloudflaredUrl] returns a well-formed tunnel URL, after one call of
    the metrics endpoint. *)
Theorem running_tunnel_is_detected w pre u post rest :
  is_tunnel_url u ->
  metrics_feed w = Resolved (Js.Str (pre ++ u ++ post)%string) :: rest ->
  exists found,
    Main.getCloudflaredUrl w = (Ret (Some found), snd (exchange GetMetrics w)) /\
    is_tunnel_url found /\
    http_log (snd (exchange GetMetrics w)) = GetMetrics :: http_log w.
Proof.
  intros Hu Hfeed. rewrite getCloudflaredUrl_run, Hfeed. cbn [hd probe_answer].
  destruct (split_lines_holds pre u post (tunnel_url_one_line u Hu))
    as (l1 & a & b & l2 & E).
  rewrite E.
  destruct (Main.first_url (l1 ++ (a ++ u ++ b)%string :: l2)) as [found|] eqn:F.
  - exists found. split; [reflexivity|]. split; [|reflexivity].
    eapply first_url_form; eauto.
  - exfalso. revert F. apply first_url_finds.
    rewrite url_in_line_match. unfold Regex.match_tunnel_url.
    apply search_finds.
    destruct Hu as (label & Hne & Hall & ->).
    pose proof (match_here_tunnel_url label b Hne Hall) as M.
    unfold Regex.match_tunnel_url in M.
    rewrite !str_app_assoc. cbn [append] in M |- *. rewrite M. discriminate.
Qed.

Lemma old_url_is_tunnel_url : is_tunnel_url Sample.old_url.
Proof.
  exists "abc123". split; [discriminate|]. split; [|reflexivity].
  intros c Hc. cbn in Hc. decompose [or] Hc; subst; try reflexivity; contradiction.
Qed.

Lemma running_tunnel_is_detected_witness :
  exists found,
    Main.getCloudflaredUrl Sample.tunnelled
    = (Ret (Some found), snd (exchange GetMetrics Sample.tunnelled)) /\
    is_tunnel_url found /\
    http_log (snd (exchange GetMetrics Sample.tunnelled))
    = GetMetrics :: http_log Sample.tunnelled.
Proof.
  apply (running_tunnel_is_detected Sample.tunnelled
           ("# cloudflared metrics" ++ String "010"%char "userHostname=")%string
           Sample.old_url
           (" 1" ++ String "010"%char "build_info 1")%string
           []).
  - exact old_url_is_tunnel_url.
  - reflexivity.
Defined.

Lemma tunnel_url_in_chunk_is_found_witness :
  Regex.match_tunnel_url (Sample.old_url ++ "  |")%string = Some Sample.old_url /\
  exists u',
    Regex.match_tunnel_url ("INF |  " ++ Sample.old_url ++ "  |")%string = Some u' /\
    is_tunnel_url u'.
Proof.
  apply (tunnel_url_in_chunk_is_found "INF |  " Sample.old_url "  |").
  exact old_url_is_tunnel_url.
Defined.

Lemma dead_tunnel_is_restarted_witness :
  let w1 := exec (Main.monitorServices true Sample.output) Sample.registered in
  detectedTunnelUrl w1 = Some "https://first-one.trycloudflare.com" /\
  cloudflaredProcess w1 = true /\
  fst (Main.monitorServices true Sample.output Sample.registered) = Ret tt.
Proof.
  apply (dead_tunnel_is_restarted Sample.output Sample.registered
           "https://first-one.trycloudflare.com"); reflexivity.
Defined.

Lemma drift_update_then_silence_witness :
  let w1 := exec (Main.updateServerUrlIfRegistered Sample.new_url)
                 Sample.registered in
  (exists ms,
     http_log w1 =
       PostRegister (Payload "srv-9f" "devbox" (osInfo Sample.machine)
                       (hardware Sample.machine) Sample.new_url ms)
       :: GetTags :: http_log Sample.registered) /\
  (exists rec1,
     registration_json w1 = Fs.File (Fs.JsonText rec1) /\
     Js.prop rec1 "url" = Js.Str Sample.new_url) /\
  exec (Main.updateServerUrlIfRegistered Sample.new_url) w1 = w1.
Proof.
  apply (drift_update_then_silence Sample.registered Sample.new_url
           [("os", Js.Str "linux 6.1.0"); ("device", Js.Str "devbox");
            ("models", Js.Arr [Js.Str "gpt-oss:20b"]);
            ("url", Js.Str Sample.old_url);
            ("nvidiaDriver", Js.Str "550.54"); ("cudaVersion", Js.Str "12.4");
            ("userId", Js.Str "u-17"); ("serverId", Js.Str "SRV-9F");
            ("username", Js.Str "ada"); ("registered", Js.Bool true);
            ("timestamp", Js.Str "2025-01-01T00:00:00.000Z")]
           "SRV-9F" Sample.machine
           (Js.Obj [("code", Js.Str "SERVER_REGISTER_SUCCESS")]) []);
    try reflexivity.
  discriminate.
Defined.

(** X3. The two [includes] tests that [getCloudflaredUrl] makes before it
    matches a line never change its answer: the probe returns the match of
    the first line of the metrics page that the pattern matches. *)
Theorem includes_guard_is_redundant s :
  probe_answer (Resolved (Js.Str s))
  = first_match (map (fun line => (Stdout, line)) (JsString.split_lines s)).
Proof.
  cbn [probe_answer].
  induction (JsString.split_lines s) as [|l ls IH];
    cbn [Main.first_url map first_match]; [reflexivity|].
  rewrite url_in_line_match.
  destruct (Regex.match_tunnel_url l); [reflexivity|exact IH].
Qed.

(** The remaining properties at sample inputs. *)


Lemma bundled_binary_is_first_existing_candidate_witness :
  Paths.getCloudflaredPath (fun p => String.eqb p Sample2.bundled) Sample2.join
    "freebsd" "x64" "/opt/Whistant/resources" "/opt/Whistant/resources/app.asar"
  = "cloudflared".
Proof.
  exact (proj2 (bundled_binary_is_first_existing_candidate
                  (fun p => String.eqb p Sample2.bundled) Sample2.join
                  "freebsd" "x64" "/opt/Whistant/resources"
                  "/opt/Whistant/resources/app.asar")
               eq_refl).
Defined.

Lemma model_list_is_names_or_empty_witness :
  fst (Main.fetchAvailableModels Sample.tunnelled) = Ret [Js.Str "gpt-oss:20b"].
Proof.
  exact (proj2 (proj2 (model_list_is_names_or_empty Sample.tunnelled)
                  (Js.Obj [("models",
                            Js.Arr [Js.Obj [("name", Js.Str "gpt-oss:20b")]])])
                  eq_refl eq_refl)
               [Js.Obj [("name", Js.Str "gpt-oss:20b")]] eq_refl).
Defined.

(** X29. [checkOllamaStatus] makes one call of [/api/tags] and follows its
    answer: a body that is not [null] gives [true] and leaves the screen
    alone; a rejection, a missing answer or a [null] body gives [false] and
    the error screen with the hint to start Ollama. *)
Theorem ollama_status_follows_tags_answer w :
  let r := hd refused (tags_feed w) in
  let w1 := exec Page.checkOllamaStatus w in
  fst (Page.checkOllamaStatus w) = Ret (negb (tags_down r)) /\
  http_log w1 = GetTags :: http_log w /\
  (tags_down r = true ->
   screen w1 = "screen-error" /\ error_message w1 = Page.ollama_stopped) /\
  (tags_down r = false ->
   screen w1 = screen w /\ error_message w1 = error_message w).
Proof.
  assert (E : Page.checkOllamaStatus w =
              if tags_down (hd refused (tags_feed w))
              then (Ret false,
                    Renderer.set_screen "screen-error"
                      (Renderer.set_error_message Page.ollama_stopped
                         (snd (exchange GetTags w))))
              else (Ret true, snd (exchange GetTags w))).
  { unfold Page.checkOllamaStatus. unfold bind at 1. rewrite check_ollama_run.
    destruct (hd refused (tags_feed w)) as [data|e]; cbn [tags_down];
      [destruct (Js.nullish data)|]; reflexivity. }
  cbv zeta. unfold exec. rewrite E.
  destruct (tags_down (hd refused (tags_feed w)));
    (split; [reflexivity|]); (split; [reflexivity|]);
    split; intros H; try discriminate H; split; reflexivity.
Qed.

Lemma ollama_status_follows_tags_answer_witness :
  let w1 := exec Page.checkOllamaStatus Sample.fresh in
  screen w1 = "screen-error" /\ error_message w1 = Page.ollama_stopped.
Proof.
  exact (proj1 (proj2 (proj2 (ollama_status_follows_tags_answer Sample.fresh)))
               eq_refl).
Defined.
